(** * Modification column-chart plotting: region classification,
      set reconciliation, grouping and normalisation

    A shallow embedding of the four scripts of the repository

    - [region-modification proportion/column_chart_plotting.py]
    - [region-modification proportion/column_chart_plotting_style.py]
    - [rRNA_depletion/group_proportion_style.py]
    - [rRNA_depletion/FDR_proportion_plotting.py]

    Python dictionaries are finite maps ([gmap]), Python sets are finite
    sets ([gset]), a pandas cell is [option string] ([None] is NaN; a
    frame records which of its columns hold numbers rather than text), a
    raised exception is an explicit error value.  Strings are the ASCII
    strings of the standard library; [str.lower] and [str.strip] are
    modelled on that alphabet. *)

From Stdlib Require Import String Ascii List Arith Lia DecimalString QArith Qabs Lqa.
From stdpp Require Import base option list gmap strings sets fin_sets fin_maps sorting.

Local Open Scope string_scope.
Local Open Scope nat_scope.
Local Open Scope list_scope.

(** ** Python string primitives *)

Module Py.

(** [c.lower()] on one ASCII character. *)
Definition lower_char (c : ascii) : ascii :=
  let n := nat_of_ascii c in
  if (65 <=? n) && (n <=? 90) then ascii_of_nat (n + 32) else c.

(** [s.lower()] *)
Fixpoint lower (s : string) : string :=
  match s with
  | EmptyString => EmptyString
  | String c s' => String (lower_char c) (lower s')
  end.

(** [c.isspace()] on ASCII: TAB, LF, VT, FF, CR, FS, GS, RS, US, SPACE. *)
Definition isspace (c : ascii) : bool :=
  let n := nat_of_ascii c in
  ((9 <=? n) && (n <=? 13)) || ((28 <=? n) && (n <=? 32)).

Fixpoint lstrip (s : string) : string :=
  match s with
  | EmptyString => EmptyString
  | String c s' => if isspace c then lstrip s' else s
  end.

Fixpoint rev_onto (s acc : string) : string :=
  match s with
  | EmptyString => acc
  | String c s' => rev_onto s' (String c acc)
  end.

Definition reverse (s : string) : string := rev_onto s EmptyString.

Definition rstrip (s : string) : string := reverse (lstrip (reverse s)).

(** [s.strip()] *)
Definition strip (s : string) : string := rstrip (lstrip s).

(** [s.startswith(p)] *)
Fixpoint startswith (s p : string) {struct p} : bool :=
  match p, s with
  | EmptyString, _ => true
  | String _ _, EmptyString => false
  | String a p', String b s' => if Ascii.eqb a b then startswith s' p' else false
  end.

(** [s.endswith(p)] *)
Definition endswith (s p : string) : bool := startswith (reverse s) (reverse p).

(** [needle in hay] for strings. *)
Fixpoint contains (needle hay : string) : bool :=
  startswith hay needle ||
  match hay with
  | EmptyString => false
  | String _ hay' => contains needle hay'
  end.

(** [s.split(sep)] for a one-character separator. *)
Fixpoint split (sep : ascii) (s : string) : list string :=
  match s with
  | EmptyString => [EmptyString]
  | String c s' =>
      if Ascii.eqb c sep then EmptyString :: split sep s'
      else match split sep s' with
           | x :: xs => String c x :: xs
           | [] => [String c EmptyString]
           end
  end.

(** [l[0]] and [l[-1]] on the (never empty) result of [split]. *)
Definition first (l : list string) : string := List.hd EmptyString l.
Definition final (l : list string) : string := List.last l EmptyString.

(** [str(n)] for a non-negative integer. *)
Definition str_of_nat (n : nat) : string := NilEmpty.string_of_uint (Nat.to_uint n).

(** [any(f(x) for x in l)] *)
Definition any {A} (f : A -> bool) (l : list A) : bool := existsb f l.

End Py.

(** A pandas cell: [None] is NaN / missing. *)
Definition cell : Type := option string.

(** [str(x)] / f-string rendering of a cell. *)
Definition render (c : cell) : string :=
  match c with Some s => s | None => "nan" end.

(** A data frame as [pd.read_csv] returns it: the header, the rows, each
    row holding one cell per column, and the columns whose values were
    parsed as numbers or booleans instead of text.  A cell of such a column
    holds the [str()] of its value, a cell of any other column the text
    itself.  The row label ([row.name]) of the default index is the
    position of the row. *)
Record DataFrame : Type := {
  columns : list string;
  rows : list (list cell);
  numeric : list string
}.

Fixpoint index_of (col : string) (cols : list string) : option nat :=
  match cols with
  | [] => None
  | c :: cols' => if bool_decide (c = col) then Some 0 else S <$> index_of col cols'
  end.

(** [row[col]]: [None] is the [KeyError] of an absent column. *)
Definition getitem (cols : list string) (row : list cell) (col : string) : option cell :=
  i ← index_of col cols; Some (default None (row !! i)).

(** [[row[col] for col in sel if pd.notna(row[col])]] *)
Definition notna_cells (cols : list string) (row : list cell) (sel : list string)
  : list string :=
  omap (fun col => mjoin (getitem cols row col)) sel.

(** ** Region variant: [parse_region] *)

Module Region.

Definition ncRNA_types : list string :=
  ["trna"; "rrna"; "ncrna"; "non-coding"; "pseudogene"].

Definition parse_region (gene_type gene_name : string) : string :=
  let gene_type := Py.lower gene_type in
  let gene_name := Py.lower gene_name in
  if Py.contains "upstream" gene_name then "5' UTR"
  else if Py.contains "downstream" gene_name then "3' UTR"
  else if bool_decide (gene_type ∈ ncRNA_types) then "ncRNA"
  else if bool_decide (gene_type = "protein_coding") then "CDS"
  else if bool_decide (gene_type = "intergenic") then "Intergenic"
  else "Other".

(** *** [process_sites_file] *)

(** The two dictionaries [(site_regions, site_to_rna)]. *)
Definition dicts : Type := gmap string string * gmap string string.

(** ['RNA_ID' if 'RNA_ID' in df.columns else df.columns[2]]; [None] is
    the [IndexError]. *)
Definition rna_id_col (cols : list string) : option string :=
  if bool_decide ("RNA_ID" ∈ cols) then Some "RNA_ID" else cols !! 2.

(** The body of the [for _, row in df.iterrows()] loop. *)
Definition process_row (cols gene_type_cols gene_name_cols : list string)
    (rna_col : string) (name : nat) (row : list cell) (acc : dicts) : option dicts :=
  chr ← getitem cols row "Chr";
  sites ← getitem cols row "Sites";
  let site_id := render chr +:+ ":" +:+ render sites in
  rna_cell ← getitem cols row rna_col;
  let rna_id :=
    match rna_cell with
    | Some v => v
    | None => Py.first (Py.split ":" site_id) +:+ "_RNA" +:+ Py.str_of_nat name
    end in
  let gene_types := notna_cells cols row gene_type_cols in
  let gene_names := notna_cells cols row gene_name_cols in
  match gene_types, gene_names with
  | gt :: _, gn :: _ =>
      let region := parse_region gt gn in
      Some (<[site_id := region]> (fst acc), <[site_id := rna_id]> (snd acc))
  | _, _ => Some acc
  end.

Fixpoint iterrows (cols gene_type_cols gene_name_cols : list string)
    (rna_col : string) (name : nat) (rws : list (list cell)) (acc : dicts)
  : option dicts :=
  match rws with
  | [] => Some acc
  | row :: rest =>
      acc' ← process_row cols gene_type_cols gene_name_cols rna_col name row acc;
      iterrows cols gene_type_cols gene_name_cols rna_col (S name) rest acc'
  end.

Definition process_sites_file (df : DataFrame) : option dicts :=
  let gene_type_cols := List.filter (fun col => Py.endswith col "_Gene_Type") (columns df) in
  let gene_name_cols := List.filter (fun col => Py.endswith col "_Gene_Name") (columns df) in
  rna_col ← rna_id_col (columns df);
  iterrows (columns df) gene_type_cols gene_name_cols rna_col 0 (rows df) (∅, ∅).

(** *** [main]: transcript sets, shared sites, stratum counts *)

Definition region_order : list string :=
  ["ncRNA"; "3' UTR"; "Intergenic"; "5' UTR"; "CDS"].

(** [d[s] in X].  For a key [s] absent from [d] Python raises
    [KeyError]; [main] only asks for keys of the companion dictionary,
    which has the same key set (see [process_sites_file_dom]). *)
Definition value_in (d : gmap string string) (X : gset string) (s : string) : bool :=
  match d !! s with
  | Some v => bool_decide (v ∈ X)
  | None => false
  end.

(** [d[s] == region] *)
Definition value_is (d : gmap string string) (s region : string) : bool :=
  bool_decide (d !! s = Some region).

(** [d.get(s, '') == region] *)
Definition get_is (d : gmap string string) (s region : string) : bool :=
  bool_decide (default "" (d !! s) = region).

Record layer_counts : Type := {
  mod_unique37 : list nat;
  unique_37 : list nat;
  shared : list nat;
  unique_45 : list nat;
  mod_unique45 : list nat
}.

(** The dictionary [layer_counts] in its insertion order. *)
Definition layers (lc : layer_counts) : list (string * list nat) :=
  [ ("mod_unique37", mod_unique37 lc); ("unique_37", unique_37 lc);
    ("shared", shared lc); ("unique_45", unique_45 lc);
    ("mod_unique45", mod_unique45 lc) ].

Section Main.
Variables sites_37_regions sites_37_rna : gmap string string.
Variables sites_45_regions sites_45_rna : gmap string string.

Definition rna_37 : gset string := map_img sites_37_rna.
Definition rna_45 : gset string := map_img sites_45_rna.

Definition shared_rna : gset string := rna_37 ∩ rna_45.
Definition unique_rna_37 : gset string := rna_37 ∖ rna_45.
Definition unique_rna_45 : gset string := rna_45 ∖ rna_37.

Definition shared_site_37 : gset string :=
  filter (fun s => value_in sites_37_rna shared_rna s) (dom sites_37_regions).
Definition shared_site_45 : gset string :=
  filter (fun s => value_in sites_45_rna shared_rna s) (dom sites_45_regions).

(** The test of the inner loop. *)
Definition sites_match (s37 s45 : string) : bool :=
  let chr_pos := Py.final (Py.split ":" s37) in
  bool_decide (Py.final (Py.split ":" s45) = chr_pos) &&
  bool_decide (sites_37_regions !! s37 = sites_45_regions !! s45).

(** The nested [for s37 in shared_site_37: for s45 in shared_site_45:]
    loop, over the elements of the two sets in (some) iteration order. *)
Definition shared_mod_sites : gset string :=
  foldl (fun acc s37 =>
           foldl (fun acc s45 =>
                    if sites_match s37 s45 then {[s45]} ∪ ({[s37]} ∪ acc) else acc)
                 acc (elements shared_site_45))
        ∅ (elements shared_site_37).

Definition count_mod_unique45 (region : string) : nat :=
  size (filter (fun s => value_is sites_45_regions s region
                         && value_in sites_45_rna unique_rna_45 s)
               (dom sites_45_regions)).

Definition count_unique_45 (region : string) : nat :=
  size (filter (fun s => value_is sites_45_regions s region
                         && bool_decide (s ∉ shared_mod_sites))
               shared_site_45).

Definition count_shared (region : string) : nat :=
  size (filter (fun s => get_is sites_37_regions s region) shared_mod_sites).

Definition count_unique_37 (region : string) : nat :=
  size (filter (fun s => value_is sites_37_regions s region
                         && bool_decide (s ∉ shared_mod_sites))
               shared_site_37).

Definition count_mod_unique37 (region : string) : nat :=
  size (filter (fun s => value_is sites_37_regions s region
                         && value_in sites_37_rna unique_rna_37 s)
               (dom sites_37_regions)).

(** [layer_counts] after the [for idx, region in enumerate(region_order)]
    loop. *)
Definition count_layers : layer_counts :=
  {| mod_unique37 := map count_mod_unique37 region_order;
     unique_37 := map count_unique_37 region_order;
     shared := map count_shared region_order;
     unique_45 := map count_unique_45 region_order;
     mod_unique45 := map count_mod_unique45 region_order |}.

End Main.

(** [sum([layer_counts[l][idx] for l in layer_counts])]; the lists all
    have [len(region_order)] entries, so the index is in range. *)
Definition total_at (lc : layer_counts) (idx : nat) : nat :=
  list_sum (map (fun l => default 0 (snd l !! idx)) (layers lc)).

Section Normalise.
(** Rounding of a real result to the nearest double. *)
Variable fl : Q -> Q.

Definition max_height : Q := 100.

(** One entry of [normalized[layer]]. *)
Definition normalized_entry (count total : nat) : Q :=
  if (total =? 0)%nat then 0%Q
  else fl (fl (inject_Z (Z.of_nat count) / inject_Z (Z.of_nat total)) * max_height)%Q.

Definition normalized (lc : layer_counts) : list (string * list Q) :=
  map (fun l =>
         (fst l,
          map (fun idx => normalized_entry (default 0 (snd l !! idx)) (total_at lc idx))
              (seq 0 (length region_order))))
      (layers lc).
End Normalise.

(** The counting part of [main(file1, file2)]. *)
Definition main_counts (file1 file2 : DataFrame) : option layer_counts :=
  d37 ← process_sites_file file1;
  d45 ← process_sites_file file2;
  Some (count_layers (fst d37) (snd d37) (fst d45) (snd d45)).

(** *** The drawing loop of [main] *)

Definition layers_draw_order : list string := ["unique_45"; "shared"; "unique_37"].

(** [normalized[layer]]; the layers of [layers_draw_order] are keys of the
    dictionary, so the [KeyError] branch is never taken. *)
Definition normalized_layer (tbl : list (string * list Q)) (layer : string) : list Q :=
  match List.find (fun l => bool_decide (fst l = layer)) tbl with
  | Some l => snd l
  | None => []
  end.

(** [bottom] after the loop
    [for layer in layers_draw_order: ax.bar(...); bottom += np.array(normalized[layer])],
    which starts from [np.zeros(len(region_order))]: the top of the stacked
    bar of each category.  The addition of two doubles is rounded. *)
Definition bar_tops (fl : Q -> Q) (lc : layer_counts) : list Q :=
  foldl (fun bottom layer =>
           zip_with (fun b h => fl (b + h)%Q) bottom
                    (normalized_layer (normalized fl lc) layer))
        (replicate (length region_order) 0%Q)
        layers_draw_order.

End Region.

(** ** Depletion variant: folders, files and errors *)

(** One entry of [folder.glob("*.csv")]: its path (as printed in the error
    messages), its stem, and what [pd.read_csv] makes of it ([None]: the
    read raises). *)
Record File : Type := { path : string; stem : string; content : option DataFrame }.

(** [file.name] *)
Definition file_name_of (file : File) : string := stem file +:+ ".csv".

Record Folder : Type := { exists_ : bool; is_dir : bool; csv_files : list File }.

(** The exceptions [load_samples] raises. *)
Inductive error : Type :=
| FileNotFoundError
| NotADirectoryError
| ValueError_no_csv_files
| RuntimeError_read (file : string)
| ValueError_missing_columns (file : string) (missing_cols : list string)
| AttributeError
| ValueError_no_valid_files.

(** What [load_samples] prints about a file it does not load whole. *)
Inductive message : Type :=
| Warning_skipped (file_name folder_type : string)
| Note_filtered (file : string) (filtered_count : nat)
| Warning_unknown_types (file : string).

Definition INCLUDE_UNKNOWN_TYPES : bool := false.

(** The keys of [column_mapping], in the order of the dictionary. *)
Definition column_mapping_keys : list string := ["Sites"; "Gene_Type"].

(** [[col for col in column_mapping.keys() if col not in df.columns]] *)
Definition missing_cols (df : DataFrame) : list string :=
  List.filter (fun col => negb (bool_decide (col ∈ columns df))) column_mapping_keys.

(** A cell of a column known to be present (after the check of
    [missing_cols]). *)
Definition cell_of (cols : list string) (row : list cell) (col : string) : cell :=
  mjoin (getitem cols row col).

(** One percentage, [count / total * 100], computed in doubles: [fl]
    rounds a real number to the nearest double. *)
Definition percentage (fl : Q -> Q) (count total : nat) : Q :=
  fl (fl (inject_Z (Z.of_nat count) / inject_Z (Z.of_nat total)) * 100)%Q.

(** ** Depletion variant: the gene-type table and the grouping rules *)

Module Group.

(** [gene_type_to_rna] of group_proportion_style.py (the active, not
    commented-out, entries). *)
Definition gene_type_to_rna_items : list (string * string) :=
  [ ("protein_coding", "mRNA");
    ("trna", "ncRNA"); ("trna_pseudogene", "ncRNA");
    ("rrna_gene", "rRNA"); ("rrna_pseudogene", "ncRNA");
    ("mirna", "ncRNA"); ("mirna_pseudogene", "ncRNA");
    ("snrna", "ncRNA"); ("snrna_pseudogene", "ncRNA");
    ("snorna", "ncRNA"); ("snorna_pseudogene", "ncRNA");
    ("lncrna", "ncRNA"); ("lincrna", "ncRNA"); ("lncrna_pseudogene", "ncRNA");
    ("pirna", "ncRNA"); ("scrna", "ncRNA"); ("circrna", "ncRNA");
    ("sirna", "ncRNA"); ("vaultrna", "ncRNA"); ("yrna", "ncRNA");
    ("scarna", "ncRNA"); ("7skrna", "ncRNA");
    ("rnase_p_rna", "ncRNA"); ("rnase_mrp_rna", "ncRNA") ].

Definition gene_type_to_rna : gmap string string :=
  list_to_map gene_type_to_rna_items.

(** [convert_gene_to_rna(gene_type, default="unknown")]; the argument is
    a cell of the Gene_Type column. *)
Definition convert_gene_to_rna_default (gene_type : cell) (default : string) : string :=
  match gene_type with
  | None => default
  | Some g =>
      if bool_decide (Py.strip g = "") then default
      else
        let lower_gene_type := Py.lower (Py.strip g) in
        match gene_type_to_rna !! lower_gene_type with
        | Some v => v
        | None => default
        end
  end.

Definition convert_gene_to_rna (gene_type : cell) : string :=
  convert_gene_to_rna_default gene_type "unknown".

(** [grouping_rules]: (folder role, prefixes, target group). *)
Definition rule : Type := string * list string * string.

Definition grouping_rules : list rule :=
  [ ("removed", ["m6A_03"], "OD600=0.3(-rRNA)");
    ("removed", ["m6A_1"], "OD600=1(-rRNA)");
    ("total", ["m6A_1"; "m6A_2"; "m6A_3"; "m6A_4"], "OD600=0.3");
    ("total", ["m6A_5"; "m6A_6"; "m6A_7"; "m6A_8"], "OD600=1") ].

Definition rule_matches (file_name folder_type : string) (r : rule) : bool :=
  let '(rule_folder, prefixes, _) := r in
  bool_decide (rule_folder = folder_type) &&
  Py.any (fun prefix => Py.startswith file_name prefix) prefixes.

(** The loop of [get_group_name] over an arbitrary rule list; [None] is
    the [ValueError] raised after the loop. *)
Fixpoint get_group_name_in (rules : list rule) (file_name folder_type : string)
  : option string :=
  match rules with
  | [] => None
  | r :: rules' =>
      if rule_matches file_name folder_type r then Some (snd r)
      else get_group_name_in rules' file_name folder_type
  end.

Definition get_group_name (file_name folder_type : string) : option string :=
  get_group_name_in grouping_rules file_name folder_type.

(** *** [load_samples] *)

(** A row of the frame [load_samples] returns (the columns the script
    reads afterwards). *)
Record sample : Type := {
  site : cell; gene_type : cell; rna_type : string; group : string
}.

Definition known_rna_types : list string := ["mRNA"; "ncRNA"; "rRNA"].

Definition is_known (s : sample) : bool := bool_decide (rna_type s ∈ known_rna_types).

(** [df_renamed['gene_type'].apply(convert_gene_to_rna)] calls
    [gene_type.strip()] on every cell that is not NaN.  A number has no
    [strip]: on a cell of a numeric column the call raises
    [AttributeError].  [strip_raises df] tells whether some cell of the
    Gene_Type column makes it raise.  (The header is taken not to hold a
    column gene_type or site already, which the renaming would
    duplicate.) *)
Definition strip_raises (df : DataFrame) : bool :=
  bool_decide ("Gene_Type" ∈ numeric df) &&
  existsb (fun row => bool_decide (is_Some (cell_of (columns df) row "Gene_Type")))
          (rows df).

(** The frame after renaming, conversion and tagging, before filtering
    (for a frame on which the conversion does not raise). *)
Definition convert_frame (df : DataFrame) (target_group : string) : list sample :=
  map (fun row =>
         let g := cell_of (columns df) row "Gene_Type" in
         {| site := cell_of (columns df) row "Sites";
            gene_type := g;
            rna_type := convert_gene_to_rna g;
            group := target_group |})
      (rows df).

(** What one file contributes, and what is printed about it. *)
Definition load_frame (file : File) (df : DataFrame) (target_group : string)
  : list sample * list message :=
  let df_renamed := convert_frame df target_group in
  let unknown_types := List.filter (fun s => negb (is_known s)) df_renamed in
  match unknown_types with
  | [] => (df_renamed, [])
  | _ :: _ =>
      if negb INCLUDE_UNKNOWN_TYPES then
        let df_filtered := List.filter is_known df_renamed in
        (df_filtered,
         [Note_filtered (file_name_of file) (length df_renamed - length df_filtered)])
      else (df_renamed, [Warning_unknown_types (file_name_of file)])
  end.

(** The dictionary [group_data] (group to list of frames) in insertion
    order. *)
Definition group_data : Type := list (string * list (list sample)).

Fixpoint append_group (g : string) (df : list sample) (gd : group_data) : group_data :=
  match gd with
  | [] => [(g, [df])]
  | (g', dfs) :: rest =>
      if bool_decide (g' = g) then (g', dfs ++ [df]) :: rest
      else (g', dfs) :: append_group g df rest
  end.

(** The [for file in files] loop. *)
Fixpoint load_files (folder_type : string) (files : list File)
    (gd : group_data) (log : list message) : list message * (error + group_data) :=
  match files with
  | [] => (log, inr gd)
  | file :: rest =>
      match get_group_name (stem file) folder_type with
      | None =>
          load_files folder_type rest gd
                     (log ++ [Warning_skipped (stem file) folder_type])
      | Some target_group =>
          match content file with
          | None => (log, inl (RuntimeError_read (path file)))
          | Some df =>
              match missing_cols df with
              | _ :: _ => (log, inl (ValueError_missing_columns (path file) (missing_cols df)))
              | [] =>
                  if strip_raises df then (log, inl AttributeError)
                  else
                    let '(rws, msgs) := load_frame file df target_group in
                    load_files folder_type rest (append_group target_group rws gd)
                               (log ++ msgs)
              end
          end
      end
  end.

Definition load_samples (folder : Folder) (folder_type : string)
  : list message * (error + list sample) :=
  if negb (exists_ folder) then ([], inl FileNotFoundError)
  else if negb (is_dir folder) then ([], inl NotADirectoryError)
  else match csv_files folder with
       | [] => ([], inl ValueError_no_csv_files)
       | files =>
           match load_files folder_type files [] [] with
           | (log, inl e) => (log, inl e)
           | (log, inr gd) =>
               let all_samples := map (fun g => concat (snd g)) gd in
               match all_samples with
               | [] => (log, inl ValueError_no_valid_files)
               | _ :: _ => (log, inr (concat all_samples))
               end
           end
       end.

(** [main]: [inr all_data] when [plot_rna_distribution(all_data)] is
    reached, [inl e] when the [except] branch prints the error [e] and no
    chart is drawn. *)
Definition main (total_rna_dir remove_rna_dir : Folder)
  : list message * (error + list sample) :=
  match load_samples total_rna_dir "total" with
  | (log1, inl e) => (log1, inl e)
  | (log1, inr total_rna_data) =>
      match load_samples remove_rna_dir "removed" with
      | (log2, inl e) => (log1 ++ log2, inl e)
      | (log2, inr remove_rna_data) =>
          (log1 ++ log2, inr (total_rna_data ++ remove_rna_data))
      end
  end.

(** *** The percentages of [plot_rna_distribution] *)

Definition key_of (s : sample) : string * string := (group s, rna_type s).

(** [all_data.groupby(["group", "rna_type"]).size()]: one row per key
    that occurs, with the number of its rows. *)
Definition counts (all_data : list sample) : list (string * string * nat) :=
  map (fun k => (k, length (List.filter (fun s => bool_decide (key_of s = k)) all_data)))
      (remove_dups (map key_of all_data)).

(** [counts.groupby("group")["count"].transform("sum")] at a row of
    group [g]. *)
Definition total_counts (cnts : list (string * string * nat)) (g : string) : nat :=
  list_sum (map snd (List.filter (fun r => bool_decide (fst (fst r) = g)) cnts)).

(** The column [counts["percentage"]]. *)
Definition percentages (fl : Q -> Q) (all_data : list sample)
  : list (string * string * Q) :=
  let cnts := counts all_data in
  map (fun r => (fst r, percentage fl (snd r) (total_counts cnts (fst (fst r))))) cnts.

(** *** The table that is plotted *)

Definition group_order : list string :=
  ["OD600=0.3(-rRNA)"; "OD600=1(-rRNA)"; "OD600=0.3"; "OD600=1"].

(** The index and the columns of
    [counts.pivot(index="group", columns="rna_type", values="percentage")]:
    the groups and the RNA types that occur, each once, sorted. *)
Definition pivot_index (all_data : list sample) : list string :=
  merge_sort String.le (remove_dups (map group all_data)).

Definition pivot_columns (all_data : list sample) : list string :=
  merge_sort String.le (remove_dups (map rna_type all_data)).

(** One cell of the pivot table after [.fillna(0)]. *)
Definition pivot_cell (fl : Q -> Q) (all_data : list sample) (g t : string) : Q :=
  match List.find (fun r => bool_decide (fst r = (g, t))) (percentages fl all_data) with
  | Some r => snd r
  | None => 0%Q
  end.

Definition pivot_data (fl : Q -> Q) (all_data : list sample) : list (string * list Q) :=
  map (fun g => (g, map (pivot_cell fl all_data g) (pivot_columns all_data)))
      (pivot_index all_data).

(** [pivot_data.reindex(group_order)]: the rows in the order of
    [group_order]; a group that is no row of the pivot table gets a row of
    NaN ([None]). *)
Definition reindexed (fl : Q -> Q) (all_data : list sample)
  : list (string * list (option Q)) :=
  map (fun g =>
         (g,
          match List.find (fun r => bool_decide (fst r = g)) (pivot_data fl all_data) with
          | Some r => map Some (snd r)
          | None => map (fun _ => None) (pivot_columns all_data)
          end))
      group_order.

End Group.

(** ** The older depletion script (FDR_proportion_plotting.py) *)

Module FDR.

Definition gene_type_to_rna_items : list (string * string) :=
  [ ("protein_coding", "mRNA"); ("intergenic", "ncRNA");
    ("pseudogene", "unaligned"); ("tRNA", "ncRNA"); ("rRNA_gene", "rRNA") ].

Definition gene_type_to_rna : gmap string string :=
  list_to_map gene_type_to_rna_items.

(** [lambda x: gene_type_to_rna.get(x, x)] *)
Definition convert (x : string) : string :=
  match gene_type_to_rna !! x with Some v => v | None => x end.

Record sample : Type := {
  site : cell; rna_type : cell; sample_name : string; group : string
}.

(** [x in gene_type_to_rna.keys()] for a cell of the column.  No string
    method is called on the cell here or in [convert]: a number in the
    column is an unknown type like any other. *)
Definition is_known (c : cell) : bool :=
  match c with
  | Some x => bool_decide (is_Some (gene_type_to_rna !! x))
  | None => false
  end.

(** What one file contributes. *)
Definition load_frame (df : DataFrame) (group_name sample_name : string) : list sample :=
  let raw := map (fun row => (cell_of (columns df) row "Sites",
                              cell_of (columns df) row "Gene_Type")) (rows df) in
  let unknown_types := List.filter (fun r => negb (is_known (snd r))) raw in
  let kept :=
    match unknown_types with
    | [] => raw
    | _ :: _ => if negb INCLUDE_UNKNOWN_TYPES
                then List.filter (fun r => is_known (snd r)) raw else raw
    end in
  map (fun r => {| site := fst r;
                   rna_type := convert <$> snd r;
                   sample_name := group_name +:+ "_" +:+ sample_name;
                   group := group_name |}) kept.

(** The [for file in files] loop; the accumulator is [all_samples]. *)
Fixpoint load_files (group_name : string) (files : list File)
    (all_samples : list (list sample)) : error + list (list sample) :=
  match files with
  | [] => inr all_samples
  | file :: rest =>
      match content file with
      | None => inl (RuntimeError_read (path file))
      | Some df =>
          match missing_cols df with
          | _ :: _ => inl (ValueError_missing_columns (path file) (missing_cols df))
          | [] => load_files group_name rest
                    (all_samples ++ [load_frame df group_name (stem file)])
          end
      end
  end.

Definition load_samples (folder : Folder) (group_name : string) : error + list sample :=
  if negb (exists_ folder) then inl FileNotFoundError
  else if negb (is_dir folder) then inl NotADirectoryError
  else match csv_files folder with
       | [] => inl ValueError_no_csv_files
       | files =>
           match load_files group_name files [] with
           | inl e => inl e
           | inr all_samples => inr (concat all_samples)
           end
       end.

End FDR.


(** ** Specification-level notions used in the statements *)

(** [needle] occurs in [hay] as a contiguous substring. *)
Definition Substring (needle hay : string) : Prop :=
  exists pre post, hay = pre +:+ needle +:+ post.

(** [p] is a prefix of [s]. *)
Definition Prefix (p s : string) : Prop := exists rest, s = p +:+ rest.

(** A rule applies to a file of a folder: same role, and one of its
    prefixes starts the stem. *)
Definition Applies (file_name folder_type : string) (r : Group.rule) : Prop :=
  fst (fst r) = folder_type /\ exists p, p ∈ snd (fst r) /\ Prefix p file_name.

(** What a row of a site file records: its composite identifier, with the
    region and the RNA id stored under it; [None] for a row that is not
    recorded. *)
Definition entry : Type := string * (string * string).

Definition site_id_of (cols : list string) (row : list cell) : option string :=
  chr ← getitem cols row "Chr";
  sites ← getitem cols row "Sites";
  Some (render chr +:+ ":" +:+ render sites).

Definition gene_type_cols (df : DataFrame) : list string :=
  List.filter (fun col => Py.endswith col "_Gene_Type") (columns df).

Definition gene_name_cols (df : DataFrame) : list string :=
  List.filter (fun col => Py.endswith col "_Gene_Name") (columns df).

Definition row_entry (cols gtc gnc : list string) (rna_col : string)
    (name : nat) (row : list cell) : option entry :=
  match notna_cells cols row gtc, notna_cells cols row gnc with
  | gt :: _, gn :: _ =>
      site_id ← site_id_of cols row;
      rna_cell ← getitem cols row rna_col;
      Some (site_id,
            (Region.parse_region gt gn,
             match rna_cell with
             | Some v => v
             | None => Py.first (Py.split ":" site_id) +:+ "_RNA" +:+ Py.str_of_nat name
             end))
  | _, _ => None
  end.

(** The recorded rows in file order, the first row having label [name]. *)
Fixpoint entries_from (cols gtc gnc : list string) (rna_col : string)
    (name : nat) (rws : list (list cell)) : list entry :=
  match rws with
  | [] => []
  | row :: rest =>
      match row_entry cols gtc gnc rna_col name row with
      | Some e => e :: entries_from cols gtc gnc rna_col (S name) rest
      | None => entries_from cols gtc gnc rna_col (S name) rest
      end
  end.

Definition entries (df : DataFrame) : list entry :=
  match Region.rna_id_col (columns df) with
  | Some rna_col =>
      entries_from (columns df) (gene_type_cols df) (gene_name_cols df) rna_col 0 (rows df)
  | None => []
  end.

(** The last entry recorded under identifier [s]. *)
Definition last_entry (s : string) (es : list entry) : option (string * string) :=
  snd <$> last (filter (fun e : entry => fst e = s) es).

(** The position component of a composite identifier: what
    [s.split(':')[-1]] returns. *)
Definition position (s : string) : string := Py.final (Py.split ":" s).

(** The sites of one condition that carry category [region]. *)
Definition category_sites (regions : gmap string string) (region : string) : gset string :=
  filter (fun s => Region.value_is regions s region) (dom regions).

(** The sites of one condition, of category [region] and on a transcript
    of [X], that are members of the shared-site set [SM]. *)
Definition shared_members (regions rna : gmap string string) (X SM : gset string)
    (region : string) : gset string :=
  filter (fun s => Region.value_is regions s region && bool_decide (s ∈ SM))
         (filter (fun s => Region.value_in rna X s) (dom regions)).

(** The identity "the five stratum counts of a category sum to its total
    number of sites", with the total read as the number of distinct
    identifiers of the category over both conditions ... *)
Definition strata_sum_to_distinct_sites : Prop :=
  forall (file1 file2 : DataFrame)
         (sites_37_regions sites_37_rna sites_45_regions sites_45_rna : gmap string string)
         (idx : nat) (region : string),
    Region.process_sites_file file1 = Some (sites_37_regions, sites_37_rna) ->
    Region.process_sites_file file2 = Some (sites_45_regions, sites_45_rna) ->
    Region.region_order !! idx = Some region ->
    size (category_sites sites_37_regions region ∪ category_sites sites_45_regions region) <> 0 ->
    Region.total_at
      (Region.count_layers sites_37_regions sites_37_rna sites_45_regions sites_45_rna) idx
    = size (category_sites sites_37_regions region ∪ category_sites sites_45_regions region).

(** ... and with the total read as the sites of A plus the sites of B. *)
Definition strata_sum_to_sites_of_both : Prop :=
  forall (file1 file2 : DataFrame)
         (sites_37_regions sites_37_rna sites_45_regions sites_45_rna : gmap string string)
         (idx : nat) (region : string),
    Region.process_sites_file file1 = Some (sites_37_regions, sites_37_rna) ->
    Region.process_sites_file file2 = Some (sites_45_regions, sites_45_rna) ->
    Region.region_order !! idx = Some region ->
    size (category_sites sites_37_regions region)
      + size (category_sites sites_45_regions region) <> 0 ->
    Region.total_at
      (Region.count_layers sites_37_regions sites_37_rna sites_45_regions sites_45_rna) idx
    = size (category_sites sites_37_regions region)
      + size (category_sites sites_45_regions region).

(** The sum of a list of percentages. *)
Definition Qsum (l : list Q) : Q := foldr Qplus 0%Q l.

(** The column of the table [normalized] at position [idx]: one entry per
    layer. *)
Definition normalized_at (fl : Q -> Q) (lc : Region.layer_counts) (idx : nat) : list Q :=
  map (fun l => default 0%Q (snd l !! idx)) (Region.normalized fl lc).

(** The percentages of the rows of group [g] in [counts]. *)
Definition group_percentages (fl : Q -> Q) (all_data : list Group.sample) (g : string)
  : list Q :=
  map snd (List.filter (fun r => bool_decide (fst (fst r) = g))
                       (Group.percentages fl all_data)).

(** The sentence "when the total of a grouping key is zero, every
    percentage of that key is exactly 0, never NaN", read on the table the
    depletion chart is drawn from. *)
Definition zero_total_gives_zero_percentages : Prop :=
  forall (fl : Q -> Q) (all_data : list Group.sample) (g : string)
         (cells : list (option Q)),
    Group.total_counts (Group.counts all_data) g = 0 ->
    (g, cells) ∈ Group.reindexed fl all_data ->
    Forall (fun c : option Q => exists p : Q, c = Some p /\ (p == 0)%Q) cells.

(** A count as a rational number. *)
Definition Qn (n : nat) : Q := inject_Z (Z.of_nat n).

(** The unit roundoff of binary64. *)
Definition unit_roundoff : Q := 1 # 9007199254740992.

(** What the statements below ask of the rounding [fl]: zero is exact,
    and on the range the percentages live in (well inside the normal range
    of binary64) the relative error is at most the unit roundoff. *)
Definition rounds_to_nearest (fl : Q -> Q) : Prop :=
  (forall x : Q, (x == 0)%Q -> (fl x == 0)%Q) /\
  (forall x : Q, ((1 # 1152921504606846976) <= x)%Q -> (x <= 1024)%Q ->
                 (Qabs (fl x - x) <= unit_roundoff * x)%Q).

(** The rows a file of a folder contributes to [load_samples] of
    group_proportion_style.py: the kept rows of a file whose stem matches a
    rule, nothing for a file that is skipped. *)
Definition contribution (folder_type : string) (file : File) : list Group.sample :=
  match Group.get_group_name (stem file) folder_type, content file with
  | Some target_group, Some df => fst (Group.load_frame file df target_group)
  | _, _ => []
  end.


(** The same, for group_proportion_style.py, which also needs text in the
    Gene_Type column: where the column holds numbers, every cell of it is
    empty. *)
Definition loads_text (file : File) : Prop :=
  exists df, content file = Some df /\ missing_cols df = [] /\
             ("Gene_Type" ∈ numeric df ->
              forall row, row ∈ rows df -> cell_of (columns df) row "Gene_Type" = None).

(** Two directory entries that differ at most in what a read would give,
    and in that only if their stem matches no rule of the folder role. *)
Definition alike (folder_type : string) (f1 f2 : File) : Prop :=
  path f1 = path f2 /\ stem f1 = stem f2 /\
  (is_Some (Group.get_group_name (stem f1) folder_type) -> content f1 = content f2).


(** ** Concrete inputs used in the examples below *)

Module Examples.

Definition site_columns : list string :=
  ["Chr"; "Sites"; "RNA_ID"; "A_Gene_Type"; "A_Gene_Name"].

(** Two conditions with one site each, at the same position of two
    different replicons.  The files have no RNA_ID column, so the third
    column (the strand) serves as the RNA id of a site. *)
Definition strand_columns : list string :=
  ["Chr"; "Sites"; "Strand"; "A_Gene_Type"; "A_Gene_Name"].
Definition replicon_A : DataFrame :=
  {| columns := strand_columns;
     rows := [[Some "chr1"; Some "20"; Some "+"; Some "ncRNA"; Some "g1"]];
     numeric := ["Sites"] |}.
Definition replicon_B : DataFrame :=
  {| columns := strand_columns;
     rows := [[Some "chr2"; Some "20"; Some "+"; Some "ncRNA"; Some "g7"]];
     numeric := ["Sites"] |}.

Definition replicon_A_regions : gmap string string := {[ "chr1:20" := "ncRNA" ]}.
Definition replicon_A_rna : gmap string string := {[ "chr1:20" := "+" ]}.
Definition replicon_B_regions : gmap string string := {[ "chr2:20" := "ncRNA" ]}.
Definition replicon_B_rna : gmap string string := {[ "chr2:20" := "+" ]}.

(** The scenario of the specification: A has transcripts T1, T2 with
    sites 10 (CDS) and 20 (ncRNA); B has T2, T3 with sites 20 (ncRNA) and
    30 (CDS). *)
Definition scenario_A : DataFrame :=
  {| columns := site_columns;
     rows := [[Some "c"; Some "10"; Some "T1"; Some "protein_coding"; Some "g1"];
              [Some "c"; Some "20"; Some "T2"; Some "ncRNA"; Some "g2"]];
     numeric := ["Sites"] |}.
Definition scenario_B : DataFrame :=
  {| columns := site_columns;
     rows := [[Some "c"; Some "20"; Some "T2"; Some "ncRNA"; Some "g2"];
              [Some "c"; Some "30"; Some "T3"; Some "protein_coding"; Some "g3"]];
     numeric := ["Sites"] |}.

(** A has the ncRNA sites c:20 on T1 and d:20 on T2; B has the ncRNA site
    c:20 on T2. *)
Definition overlap_A : DataFrame :=
  {| columns := site_columns;
     rows := [[Some "c"; Some "20"; Some "T1"; Some "ncRNA"; Some "g1"];
              [Some "d"; Some "20"; Some "T2"; Some "ncRNA"; Some "g2"]];
     numeric := ["Sites"] |}.
Definition overlap_B : DataFrame :=
  {| columns := site_columns;
     rows := [[Some "c"; Some "20"; Some "T2"; Some "ncRNA"; Some "g2"]];
     numeric := ["Sites"] |}.

Definition overlap_A_regions : gmap string string :=
  <["d:20" := "ncRNA"]> {[ "c:20" := "ncRNA" ]}.
Definition overlap_A_rna : gmap string string :=
  <["d:20" := "T2"]> {[ "c:20" := "T1" ]}.
Definition overlap_B_regions : gmap string string := {[ "c:20" := "ncRNA" ]}.
Definition overlap_B_rna : gmap string string := {[ "c:20" := "T2" ]}.

Definition scenario_A_regions : gmap string string :=
  <["c:20" := "ncRNA"]> {[ "c:10" := "CDS" ]}.
Definition scenario_A_rna : gmap string string :=
  <["c:20" := "T2"]> {[ "c:10" := "T1" ]}.
Definition scenario_B_regions : gmap string string :=
  <["c:30" := "CDS"]> {[ "c:20" := "ncRNA" ]}.
Definition scenario_B_rna : gmap string string :=
  <["c:30" := "T3"]> {[ "c:20" := "T2" ]}.

(** A well-formed sample file of the depletion scripts ... *)
Definition sample_frame : DataFrame :=
  {| columns := ["Sites"; "Gene_Type"];
     rows := [[Some "100"; Some "protein_coding"]; [Some "200"; Some "tRNA"]];
     numeric := ["Sites"] |}.

(** ... and one whose header lacks the Gene_Type column. *)
Definition headless_frame : DataFrame :=
  {| columns := ["Sites"; "Strand"]; rows := [[Some "100"; Some "+"]]; numeric := ["Sites"] |}.

(** A total-RNA folder whose only file matches no grouping rule, next to a
    folder of depleted samples with one regular file. *)
Definition stray_file : File :=
  {| path := "totalRNA/sampleX.csv"; stem := "sampleX"; content := Some sample_frame |}.
Definition stray_total_dir : Folder :=
  {| exists_ := true; is_dir := true; csv_files := [stray_file] |}.
Definition removed_file : File :=
  {| path := "remove_rRNA/m6A_03_rep1.csv"; stem := "m6A_03_rep1";
     content := Some sample_frame |}.
Definition removed_dir : Folder :=
  {| exists_ := true; is_dir := true; csv_files := [removed_file] |}.

(** A total-RNA folder with a file that lacks a required column and matches
    no grouping rule, and a regular file. *)
Definition stray_headless_file : File :=
  {| path := "totalRNA/notes.csv"; stem := "notes"; content := Some headless_frame |}.
Definition total_file : File :=
  {| path := "totalRNA/m6A_1_rep1.csv"; stem := "m6A_1_rep1"; content := Some sample_frame |}.
Definition mixed_total_dir : Folder :=
  {| exists_ := true; is_dir := true; csv_files := [stray_headless_file; total_file] |}.

(** A total-RNA folder whose first file matches a rule and lacks a column. *)
Definition headless_total_file : File :=
  {| path := "totalRNA/m6A_2_rep1.csv"; stem := "m6A_2_rep1";
     content := Some headless_frame |}.
Definition headless_total_dir : Folder :=
  {| exists_ := true; is_dir := true; csv_files := [headless_total_file; total_file] |}.

(** A total-RNA folder whose first file matches a rule and holds numbers
    in its Gene_Type column. *)
Definition numeric_frame : DataFrame :=
  {| columns := ["Sites"; "Gene_Type"];
     rows := [[Some "100"; Some "1"]; [Some "200"; Some "2"]];
     numeric := ["Sites"; "Gene_Type"] |}.
Definition numeric_total_file : File :=
  {| path := "totalRNA/m6A_3_rep1.csv"; stem := "m6A_3_rep1";
     content := Some numeric_frame |}.
Definition numeric_total_dir : Folder :=
  {| exists_ := true; is_dir := true; csv_files := [numeric_total_file; total_file] |}.

(** A table of stratum counts: the category ncRNA holds four sites. *)
Definition sample_counts : Region.layer_counts :=
  {| Region.mod_unique37 := [0; 0; 0; 0; 1];
     Region.unique_37 := [2; 0; 0; 0; 0];
     Region.shared := [1; 0; 0; 0; 0];
     Region.unique_45 := [1; 0; 0; 0; 0];
     Region.mod_unique45 := [0; 0; 0; 0; 1] |}.

(** Rows as [load_samples] returns them: two groups of the four have
    data. *)
Definition plot_rows : list Group.sample :=
  [ {| Group.site := Some "100"; Group.gene_type := Some "protein_coding";
       Group.rna_type := "mRNA"; Group.group := "OD600=0.3" |};
    {| Group.site := Some "200"; Group.gene_type := Some "tRNA";
       Group.rna_type := "ncRNA"; Group.group := "OD600=0.3" |};
    {| Group.site := Some "100"; Group.gene_type := Some "protein_coding";
       Group.rna_type := "mRNA"; Group.group := "OD600=0.3(-rRNA)" |} ].

End Examples.

(** * Properties *)

(** ** Strings *)

Lemma append_cons (c : ascii) (a b : string) : String c a +:+ b = String c (a +:+ b).
Proof. reflexivity. Qed.

Lemma append_nil_l (b : string) : EmptyString +:+ b = b.
Proof. reflexivity. Qed.

Lemma startswith_spec (s p : string) : Py.startswith s p = true <-> Prefix p s.
Proof.
  revert s. induction p as [|a p IH]; intros s; simpl.
  - split; [intros _; exists s; reflexivity | reflexivity].
  - destruct s as [|b s].
    + split; [discriminate | intros [rest H]; rewrite append_cons in H; discriminate].
    + destruct (Ascii.eqb a b) eqn:E.
      * apply Ascii.eqb_eq in E. subst b. rewrite IH. split.
        -- intros [rest ->]. exists rest. reflexivity.
        -- intros [rest H]. rewrite append_cons in H. injection H as ->.
           exists rest. reflexivity.
      * apply Ascii.eqb_neq in E. split; [discriminate|].
        intros [rest H]. rewrite append_cons in H. injection H as ? ?. congruence.
Qed.

Lemma contains_spec (needle hay : string) :
  Py.contains needle hay = true <-> Substring needle hay.
Proof.
  induction hay as [|c hay IH].
  - cbn [Py.contains]. rewrite orb_false_r, startswith_spec. split.
    + intros [rest H]. exists EmptyString, rest. exact H.
    + intros [pre [post H]]. destruct pre; [|rewrite append_cons in H; discriminate].
      exists post. exact H.
  - cbn [Py.contains]. rewrite orb_true_iff, startswith_spec, IH. split.
    + intros [[rest H] | [pre [post H]]].
      * exists EmptyString, rest. exact H.
      * exists (String c pre), post. rewrite append_cons. f_equal. exact H.
    + intros [pre [post H]]. destruct pre as [|c' pre].
      * left. exists post. exact H.
      * right. rewrite append_cons in H. injection H as -> H. exists pre, post. exact H.
Qed.

Lemma contains_false (needle hay : string) :
  Py.contains needle hay = false <-> ~ Substring needle hay.
Proof.
  rewrite <- contains_spec. destruct (Py.contains needle hay); split; congruence.
Qed.

(** ** C5: the priority order of [parse_region] *)

(** C5.  [parse_region] resolves in priority order: a lowercased name that
    contains "upstream" gives "5' UTR"; otherwise one that contains
    "downstream" gives "3' UTR"; otherwise the lowercased type label decides:
    trna, rrna, ncrna, non-coding and pseudogene give "ncRNA",
    protein_coding gives "CDS", intergenic gives "Intergenic", and every
    other label gives "Other". *)
Theorem parse_region_priority (gene_type gene_name : string) :
  let t := Py.lower gene_type in
  let n := Py.lower gene_name in
  (Substring "upstream" n -> Region.parse_region gene_type gene_name = "5' UTR") /\
  (~ Substring "upstream" n -> Substring "downstream" n ->
     Region.parse_region gene_type gene_name = "3' UTR") /\
  (~ Substring "upstream" n -> ~ Substring "downstream" n ->
     (t ∈ ["trna"; "rrna"; "ncrna"; "non-coding"; "pseudogene"] ->
        Region.parse_region gene_type gene_name = "ncRNA") /\
     (t = "protein_coding" -> Region.parse_region gene_type gene_name = "CDS") /\
     (t = "intergenic" -> Region.parse_region gene_type gene_name = "Intergenic") /\
     (t ∉ ["trna"; "rrna"; "ncrna"; "non-coding"; "pseudogene"] ->
        t <> "protein_coding" -> t <> "intergenic" ->
        Region.parse_region gene_type gene_name = "Other")).
Proof.
  intros t n. unfold Region.parse_region. fold t n.
  split; [|split].
  - intros Hup. apply contains_spec in Hup. rewrite Hup. reflexivity.
  - intros Hup Hdown. apply contains_false in Hup. apply contains_spec in Hdown.
    rewrite Hup, Hdown. reflexivity.
  - intros Hup Hdown. apply contains_false in Hup. apply contains_false in Hdown.
    rewrite Hup, Hdown. repeat split.
    + intros Hin. rewrite bool_decide_eq_true_2 by exact Hin. reflexivity.
    + intros ->. vm_compute. reflexivity.
    + intros ->. vm_compute. reflexivity.
    + intros Hnc Hpc Hig.
      rewrite bool_decide_eq_false_2 by exact Hnc.
      rewrite bool_decide_eq_false_2 by exact Hpc.
      rewrite bool_decide_eq_false_2 by exact Hig. reflexivity.
Qed.

Lemma parse_region_priority_witness :
  Region.parse_region "tRNA" "Upstream of downstream gene" = "5' UTR" /\
  Region.parse_region "Protein_Coding" "geneA" = "CDS".
Proof.
  split.
  - apply (proj1 (parse_region_priority "tRNA" "Upstream of downstream gene")).
    exists EmptyString, " of downstream gene". reflexivity.
  - refine (proj1 (proj2 (proj2 (proj2 (parse_region_priority "Protein_Coding" "geneA")) _ _)) _).
    + apply contains_false. reflexivity.
    + apply contains_false. reflexivity.
    + reflexivity.
Defined.

(** ** C7: the first matching grouping rule wins *)

Lemma any_startswith_spec (file_name : string) (prefixes : list string) :
  Py.any (fun prefix => Py.startswith file_name prefix) prefixes = true <->
  exists p, p ∈ prefixes /\ Prefix p file_name.
Proof.
  unfold Py.any. rewrite existsb_exists. split.
  - intros [p [Hin Hp]]. exists p. split.
    + apply list_elem_of_In. exact Hin.
    + apply startswith_spec. exact Hp.
  - intros [p [Hin Hp]]. exists p. split.
    + apply list_elem_of_In. exact Hin.
    + apply startswith_spec. exact Hp.
Qed.

Lemma rule_matches_spec (file_name folder_type : string) (r : Group.rule) :
  Group.rule_matches file_name folder_type r = true <-> Applies file_name folder_type r.
Proof.
  destruct r as [[rule_folder prefixes] target]. unfold Group.rule_matches, Applies.
  cbn [fst snd]. rewrite andb_true_iff, bool_decide_eq_true, any_startswith_spec.
  reflexivity.
Qed.

Lemma rule_matches_false (file_name folder_type : string) (r : Group.rule) :
  Group.rule_matches file_name folder_type r = false <-> ~ Applies file_name folder_type r.
Proof.
  rewrite <- rule_matches_spec.
  destruct (Group.rule_matches file_name folder_type r); split; congruence.
Qed.

Lemma get_group_name_in_Some (rules : list Group.rule) (file_name folder_type g : string) :
  Group.get_group_name_in rules file_name folder_type = Some g <->
  exists earlier r later,
    rules = earlier ++ r :: later /\
    Forall (fun r' => ~ Applies file_name folder_type r') earlier /\
    Applies file_name folder_type r /\ snd r = g.
Proof.
  induction rules as [|r0 rules IH]; cbn [Group.get_group_name_in].
  - split; [discriminate|]. intros (earlier & r & later & H & _).
    destruct earlier; discriminate.
  - destruct (Group.rule_matches file_name folder_type r0) eqn:E.
    + apply rule_matches_spec in E. split.
      * intros [= <-]. exists [], r0, rules.
        refine (conj _ (conj _ (conj E _))); [reflexivity | constructor | reflexivity].
      * intros (earlier & r & later & H & Hno & Hr & Hg).
        destruct earlier as [|r1 earlier]; simpl in H; injection H as -> ->.
        -- congruence.
        -- apply Forall_cons in Hno. destruct Hno as [Hno _]. contradiction.
    + apply rule_matches_false in E. rewrite IH. split.
      * intros (earlier & r & later & -> & Hno & Hr & Hg).
        exists (r0 :: earlier), r, later.
        refine (conj _ (conj _ (conj Hr Hg))); [reflexivity | constructor; assumption].
      * intros (earlier & r & later & H & Hno & Hr & Hg).
        destruct earlier as [|r1 earlier]; simpl in H; injection H as -> ->.
        -- contradiction.
        -- apply Forall_cons in Hno. destruct Hno as [_ Hno].
           exists earlier, r, later. exact (conj eq_refl (conj Hno (conj Hr Hg))).
Qed.

Lemma get_group_name_in_None (rules : list Group.rule) (file_name folder_type : string) :
  Group.get_group_name_in rules file_name folder_type = None <->
  Forall (fun r => ~ Applies file_name folder_type r) rules.
Proof.
  induction rules as [|r0 rules IH]; cbn [Group.get_group_name_in].
  - split; auto.
  - destruct (Group.rule_matches file_name folder_type r0) eqn:E.
    + apply rule_matches_spec in E. split; [discriminate|].
      intros H. apply Forall_cons in H. destruct H. contradiction.
    + apply rule_matches_false in E. rewrite IH. split.
      * intros H. constructor; assumption.
      * intros H. apply Forall_cons in H. tauto.
Qed.

(** C7.  For every stem and folder role, and every ordered rule list (the
    configured [grouping_rules] in particular), [get_group_name] returns
    the target group of the first rule whose role equals the folder role
    and one of whose prefixes starts the stem: no earlier rule applies,
    whatever later rules would match.  It raises exactly when no rule
    applies.  The stem "m6A_03_rep1" under role "removed" is assigned
    "OD600=0.3(-rRNA)". *)
Theorem get_group_name_first_match (file_name folder_type : string) :
  (forall (rules : list Group.rule) (g : string),
     Group.get_group_name_in rules file_name folder_type = Some g <->
     exists earlier r later,
       rules = earlier ++ r :: later /\
       Forall (fun r' => ~ Applies file_name folder_type r') earlier /\
       Applies file_name folder_type r /\ snd r = g) /\
  (forall g : string,
     Group.get_group_name file_name folder_type = Some g <->
     exists earlier r later,
       Group.grouping_rules = earlier ++ r :: later /\
       Forall (fun r' => ~ Applies file_name folder_type r') earlier /\
       Applies file_name folder_type r /\ snd r = g) /\
  (Group.get_group_name file_name folder_type = None <->
     Forall (fun r => ~ Applies file_name folder_type r) Group.grouping_rules) /\
  Group.get_group_name "m6A_03_rep1" "removed" = Some "OD600=0.3(-rRNA)".
Proof.
  split; [|split; [|split]].
  - intros rules g. apply get_group_name_in_Some.
  - intros g. apply get_group_name_in_Some.
  - apply get_group_name_in_None.
  - vm_compute. reflexivity.
Qed.

(** Overlapping prefixes: with two rules of the same role that both apply,
    the earlier one decides. *)
Example get_group_name_overlap :
  Group.get_group_name_in
    [("total", ["m6A_1"], "first"); ("total", ["m6A_10"; "m6A_1"], "second")]
    "m6A_10_rep2" "total" = Some "first".
Proof. vm_compute. reflexivity. Qed.

(** ** C2: the transcript sets partition the union *)

Lemma shared_unique_disjoint (rna_37 rna_45 : gset string) :
  rna_37 ∩ rna_45 ## rna_37 ∖ rna_45 /\
  rna_37 ∩ rna_45 ## rna_45 ∖ rna_37 /\
  rna_37 ∖ rna_45 ## rna_45 ∖ rna_37.
Proof.
  split; [|split].
  - intros x. rewrite elem_of_intersection, elem_of_difference. tauto.
  - intros x. rewrite elem_of_intersection, elem_of_difference. tauto.
  - intros x. rewrite !elem_of_difference. tauto.
Qed.

Lemma shared_unique_union (rna_37 rna_45 : gset string) :
  rna_37 ∩ rna_45 ∪ rna_37 ∖ rna_45 ∪ rna_45 ∖ rna_37 = rna_37 ∪ rna_45.
Proof.
  apply set_eq. intros x.
  rewrite !elem_of_union, elem_of_intersection, !elem_of_difference.
  destruct (decide (x ∈ rna_37)), (decide (x ∈ rna_45)); tauto.
Qed.

(** C2.  For all dictionaries of the two conditions, [shared_rna],
    [unique_rna_37] and [unique_rna_45] are pairwise disjoint and their
    union is [rna_37 ∪ rna_45]. *)
Theorem transcript_sets_partition (sites_37_rna sites_45_rna : gmap string string) :
  Region.shared_rna sites_37_rna sites_45_rna ## Region.unique_rna_37 sites_37_rna sites_45_rna /\
  Region.shared_rna sites_37_rna sites_45_rna ## Region.unique_rna_45 sites_37_rna sites_45_rna /\
  Region.unique_rna_37 sites_37_rna sites_45_rna ## Region.unique_rna_45 sites_37_rna sites_45_rna /\
  Region.shared_rna sites_37_rna sites_45_rna
    ∪ Region.unique_rna_37 sites_37_rna sites_45_rna
    ∪ Region.unique_rna_45 sites_37_rna sites_45_rna
  = Region.rna_37 sites_37_rna ∪ Region.rna_45 sites_45_rna.
Proof.
  unfold Region.shared_rna, Region.unique_rna_37, Region.unique_rna_45.
  destruct (shared_unique_disjoint (Region.rna_37 sites_37_rna) (Region.rna_45 sites_45_rna))
    as (H1 & H2 & H3).
  split; [exact H1|]. split; [exact H2|]. split; [exact H3|].
  apply shared_unique_union.
Qed.

(** ** C10: the two dictionaries of [process_sites_file] *)

Lemma notna_cells_all_null (cols : list string) (row : list cell) (sel : list string) :
  (forall col, col ∈ sel -> cell_of cols row col = None) ->
  notna_cells cols row sel = [].
Proof.
  unfold notna_cells, cell_of. induction sel as [|c sel IH]; intros H; [reflexivity|].
  simpl. rewrite (H c) by apply list_elem_of_here.
  apply IH. intros col Hc. apply H. apply list_elem_of_further. exact Hc.
Qed.

Lemma process_row_entry (cols gtc gnc : list string) (rna_col : string)
    (name : nat) (row : list cell) (acc acc' : Region.dicts) :
  Region.process_row cols gtc gnc rna_col name row acc = Some acc' ->
  acc' = match row_entry cols gtc gnc rna_col name row with
         | Some (site_id, (region, rna_id)) =>
             (<[site_id := region]> (fst acc), <[site_id := rna_id]> (snd acc))
         | None => acc
         end.
Proof.
  unfold Region.process_row, row_entry, site_id_of.
  destruct (getitem cols row "Chr") as [chr|]; [|discriminate].
  destruct (getitem cols row "Sites") as [sites|]; [|discriminate].
  cbn [mbind option_bind].
  destruct (getitem cols row rna_col) as [rc|]; [|discriminate].
  cbn [mbind option_bind].
  destruct (notna_cells cols row gtc) as [|gt ?]; [intros [= <-]; reflexivity|].
  destruct (notna_cells cols row gnc) as [|gn ?]; [intros [= <-]; reflexivity|].
  intros [= <-]. reflexivity.
Qed.

Lemma last_entry_cons (s : string) (e : entry) (es : list entry) :
  last_entry s (e :: es) =
  match last_entry s es with
  | Some v => Some v
  | None => if decide (fst e = s) then Some (snd e) else None
  end.
Proof.
  unfold last_entry. destruct (decide (fst e = s)) as [He|He].
  - rewrite filter_cons_True by exact He. rewrite last_cons.
    destruct (last (filter _ es)); reflexivity.
  - rewrite filter_cons_False by exact He.
    destruct (last (filter _ es)); reflexivity.
Qed.

Lemma iterrows_spec (cols gtc gnc : list string) (rna_col : string)
    (rws : list (list cell)) :
  forall (name : nat) (acc acc' : Region.dicts),
    Region.iterrows cols gtc gnc rna_col name rws acc = Some acc' ->
    (dom (fst acc) = dom (snd acc) -> dom (fst acc') = dom (snd acc')) /\
    (forall s : string,
       fst acc' !! s =
       match last_entry s (entries_from cols gtc gnc rna_col name rws) with
       | Some v => Some (fst v)
       | None => fst acc !! s
       end) /\
    (forall s : string,
       snd acc' !! s =
       match last_entry s (entries_from cols gtc gnc rna_col name rws) with
       | Some v => Some (snd v)
       | None => snd acc !! s
       end).
Proof.
  induction rws as [|row rest IH]; intros name acc acc'; cbn [Region.iterrows entries_from].
  - intros [= <-]. split; [auto|]. split; intros s; reflexivity.
  - destruct (Region.process_row cols gtc gnc rna_col name row acc) as [acc1|] eqn:Hrow;
      [|discriminate].
    cbn [mbind option_bind]. intros Hrest.
    apply process_row_entry in Hrow.
    destruct (IH _ _ _ Hrest) as (Hdom & Hreg & Hrna). clear IH Hrest.
    destruct (row_entry cols gtc gnc rna_col name row) as [[site_id [region rna_id]]|].
    + subst acc1. cbn [fst snd] in *. split; [|split].
      * intros Hd. apply Hdom. rewrite !dom_insert_L, Hd. reflexivity.
      * intros s. rewrite Hreg, last_entry_cons. cbn [fst snd].
        destruct (last_entry s _); [reflexivity|].
        destruct (decide (site_id = s)) as [->|Hne].
        -- apply lookup_insert_eq.
        -- apply lookup_insert_ne. exact Hne.
      * intros s. rewrite Hrna, last_entry_cons. cbn [fst snd].
        destruct (last_entry s _); [reflexivity|].
        destruct (decide (site_id = s)) as [->|Hne].
        -- apply lookup_insert_eq.
        -- apply lookup_insert_ne. exact Hne.
    + subst acc1. auto.
Qed.

(** Every result of [process_sites_file] has one key set for its two
    dictionaries, so [main] never meets a [KeyError]. *)
Lemma process_sites_file_dom (df : DataFrame) (site_regions site_to_rna : gmap string string) :
  Region.process_sites_file df = Some (site_regions, site_to_rna) ->
  dom site_regions = dom site_to_rna.
Proof.
  unfold Region.process_sites_file.
  destruct (Region.rna_id_col (columns df)) as [rna_col|]; [|discriminate].
  cbn [mbind option_bind]. intros H.
  apply iterrows_spec in H. destruct H as (Hdom & _). apply Hdom. reflexivity.
Qed.

Lemma index_of_is_Some (col : string) (cols : list string) :
  col ∈ cols -> is_Some (index_of col cols).
Proof.
  induction cols as [|c cols IH]; intros Hin.
  - apply elem_of_nil in Hin. contradiction.
  - cbn [index_of]. destruct (bool_decide (c = col)) eqn:E; [eexists; reflexivity|].
    apply bool_decide_eq_false in E. apply elem_of_cons in Hin.
    destruct Hin as [->|Hin]; [contradiction|].
    destruct (IH Hin) as [i ->]. eexists. reflexivity.
Qed.

Lemma getitem_is_Some (cols : list string) (row : list cell) (col : string) :
  col ∈ cols -> is_Some (getitem cols row col).
Proof.
  intros Hin. unfold getitem. destruct (index_of_is_Some col cols Hin) as [i ->].
  eexists. reflexivity.
Qed.

(** A file with the columns the loop reads is processed without error. *)
Lemma process_sites_file_total (df : DataFrame) :
  "Chr" ∈ columns df -> "Sites" ∈ columns df ->
  "RNA_ID" ∈ columns df \/ 3 <= length (columns df) ->
  is_Some (Region.process_sites_file df).
Proof.
  intros Hchr Hsites Hrna. unfold Region.process_sites_file.
  assert (exists rna_col, Region.rna_id_col (columns df) = Some rna_col /\ rna_col ∈ columns df)
    as (rna_col & -> & Hcol).
  { unfold Region.rna_id_col. destruct (bool_decide ("RNA_ID" ∈ columns df)) eqn:E.
    - apply bool_decide_eq_true in E. eauto.
    - apply bool_decide_eq_false in E. destruct Hrna as [?|Hlen]; [contradiction|].
      destruct (lookup_lt_is_Some_2 (columns df) 2 ltac:(lia)) as [c Hc].
      exists c. split; [exact Hc|]. apply list_elem_of_lookup. eauto. }
  cbn [mbind option_bind].
  generalize (∅ : gmap string string, ∅ : gmap string string) as acc.
  generalize 0 as name.
  induction (rows df) as [|row rest IH]; intros name acc; cbn [Region.iterrows].
  - eexists. reflexivity.
  - assert (is_Some (Region.process_row (columns df)
              (List.filter (fun col => Py.endswith col "_Gene_Type") (columns df))
              (List.filter (fun col => Py.endswith col "_Gene_Name") (columns df))
              rna_col name row acc)) as [acc1 ->].
    { unfold Region.process_row.
      destruct (getitem_is_Some (columns df) row "Chr" Hchr) as [? ->].
      destruct (getitem_is_Some (columns df) row "Sites" Hsites) as [? ->].
      cbn [mbind option_bind].
      destruct (getitem_is_Some (columns df) row rna_col Hcol) as [? ->].
      cbn [mbind option_bind].
      destruct (notna_cells _ _ _); [eexists; reflexivity|].
      destruct (notna_cells _ _ _); eexists; reflexivity. }
    cbn [mbind option_bind]. apply IH.
Qed.

(** C10.  The two dictionaries [process_sites_file] returns have the same
    key set; under every identifier each holds the values of the last
    recorded row with that identifier (a later row overwrites an earlier
    one, so there is one entry per identifier); and a row whose gene-type
    cells are all null, or whose gene-name cells are all null, records
    nothing in either dictionary. *)
Theorem process_sites_file_maps (df : DataFrame)
    (site_regions site_to_rna : gmap string string) :
  Region.process_sites_file df = Some (site_regions, site_to_rna) ->
  dom site_regions = dom site_to_rna /\
  (forall s : string, site_regions !! s = fst <$> last_entry s (entries df)) /\
  (forall s : string, site_to_rna !! s = snd <$> last_entry s (entries df)) /\
  (forall (rna_col : string) (name : nat) (row : list cell),
     (forall col, col ∈ gene_type_cols df -> cell_of (columns df) row col = None) \/
     (forall col, col ∈ gene_name_cols df -> cell_of (columns df) row col = None) ->
     row_entry (columns df) (gene_type_cols df) (gene_name_cols df) rna_col name row = None /\
     forall acc acc',
       Region.process_row (columns df) (gene_type_cols df) (gene_name_cols df)
                          rna_col name row acc = Some acc' -> acc' = acc).
Proof.
  intros H. split; [exact (process_sites_file_dom _ _ _ H)|].
  assert (forall rna_col name row,
     (forall col, col ∈ gene_type_cols df -> cell_of (columns df) row col = None) \/
     (forall col, col ∈ gene_name_cols df -> cell_of (columns df) row col = None) ->
     row_entry (columns df) (gene_type_cols df) (gene_name_cols df) rna_col name row = None)
    as Hnone.
  { intros rna_col name row Hnull. unfold row_entry.
    destruct Hnull as [Hn|Hn]; apply notna_cells_all_null in Hn.
    - rewrite Hn. reflexivity.
    - destruct (notna_cells (columns df) row (gene_type_cols df)); [reflexivity|].
      rewrite Hn. reflexivity. }
  unfold Region.process_sites_file in H. unfold entries.
  destruct (Region.rna_id_col (columns df)) as [rna_col|]; [|discriminate].
  cbn [mbind option_bind] in H. apply iterrows_spec in H.
  destruct H as (_ & Hreg & Hrna). cbn [fst snd] in *.
  fold (gene_type_cols df) (gene_name_cols df) in Hreg, Hrna.
  split; [|split].
  - intros s. rewrite Hreg. destruct (last_entry s _); [reflexivity|]. apply lookup_empty.
  - intros s. rewrite Hrna. destruct (last_entry s _); [reflexivity|]. apply lookup_empty.
  - intros rc name row Hnull. split; [apply Hnone; exact Hnull|].
    intros acc acc' Hrow. apply process_row_entry in Hrow.
    rewrite (Hnone _ _ _ Hnull) in Hrow. exact Hrow.
Qed.

(** ** C3: which sites enter the shared-site set *)

Lemma split_nonempty (sep : ascii) (s : string) : Py.split sep s <> [].
Proof.
  destruct s as [|c s]; cbn [Py.split]; [discriminate|].
  destruct (Ascii.eqb c sep); [discriminate|].
  destruct (Py.split sep s); discriminate.
Qed.

Lemma split_no_separator (sep : ascii) (s : string) :
  Py.contains (String sep EmptyString) s = false -> Py.split sep s = [s].
Proof.
  induction s as [|c s IH]; [reflexivity|].
  cbn [Py.contains Py.startswith Py.split]. rewrite orb_false_iff. intros [Hc Hs].
  rewrite (IH Hs).
  destruct (Ascii.eqb_spec sep c) as [->|Hne]; [discriminate|].
  destruct (Ascii.eqb_spec c sep) as [->|_]; [contradiction|]. reflexivity.
Qed.

Lemma split_after_separator (sep : ascii) (a b : string) :
  exists x xs, Py.split sep (a +:+ String sep b) = x :: xs /\ xs <> [] /\
               List.last xs EmptyString = List.last (Py.split sep b) EmptyString.
Proof.
  induction a as [|c a IH].
  - rewrite append_nil_l. cbn [Py.split]. rewrite Ascii.eqb_refl.
    exists EmptyString, (Py.split sep b). split; [reflexivity|].
    split; [apply split_nonempty | reflexivity].
  - destruct IH as (x & xs & Hsplit & Hne & Hlast).
    rewrite append_cons. cbn [Py.split]. rewrite Hsplit.
    destruct (Ascii.eqb c sep).
    + exists EmptyString, (x :: xs). split; [reflexivity|]. split; [discriminate|].
      rewrite <- Hlast. destruct xs; [contradiction | reflexivity].
    + exists (String c x), xs. auto.
Qed.

(** The position component of ["{Chr}:{Sites}"] is the Sites value, as
    long as that value holds no colon. *)
Lemma position_of_site_id (chr sites : string) :
  Py.contains ":" sites = false -> position (chr +:+ ":" +:+ sites) = sites.
Proof.
  intros Hcolon. unfold position, Py.final.
  destruct (split_after_separator ":" chr sites) as (x & xs & Hsplit & Hne & Hlast).
  change (":" +:+ sites) with (String ":" sites). rewrite Hsplit.
  destruct xs as [|y ys]; [contradiction|].
  change (List.last (x :: y :: ys) EmptyString) with (List.last (y :: ys) EmptyString).
  rewrite Hlast, (split_no_separator ":" sites Hcolon). reflexivity.
Qed.

Lemma inner_loop_spec (test : string -> bool) (s37 : string) (l45 : list string) :
  forall (acc : gset string) (s : string),
    s ∈ foldl (fun acc s45 => if test s45 then {[s45]} ∪ ({[s37]} ∪ acc) else acc) acc l45
    <-> s ∈ acc \/ exists s45, s45 ∈ l45 /\ test s45 = true /\ (s = s37 \/ s = s45).
Proof.
  induction l45 as [|b l45 IH]; intros acc s; cbn [foldl].
  - split; [auto|]. intros [H|(b & Hb & _)]; [exact H|]. apply elem_of_nil in Hb. contradiction.
  - rewrite IH. destruct (test b) eqn:E.
    + rewrite !elem_of_union, !elem_of_singleton. split.
      * intros [[->|[->|H]]|(c & Hc & Ht & Hs)].
        -- right. exists b. split; [apply list_elem_of_here|]. auto.
        -- right. exists b. split; [apply list_elem_of_here|]. auto.
        -- left. exact H.
        -- right. exists c. split; [apply list_elem_of_further; exact Hc|]. auto.
      * intros [H|(c & Hc & Ht & Hs)]; [auto|].
        apply elem_of_cons in Hc. destruct Hc as [->|Hc].
        -- left. destruct Hs as [->| ->]; auto.
        -- right. exists c. auto.
    + split.
      * intros [H|(c & Hc & Ht & Hs)]; [auto|].
        right. exists c. split; [apply list_elem_of_further; exact Hc|]. auto.
      * intros [H|(c & Hc & Ht & Hs)]; [auto|].
        apply elem_of_cons in Hc. destruct Hc as [->|Hc]; [congruence|].
        right. exists c. auto.
Qed.

Lemma outer_loop_spec (test : string -> string -> bool) (l37 l45 : list string) :
  forall (acc : gset string) (s : string),
    s ∈ foldl (fun acc s37 =>
                 foldl (fun acc s45 =>
                          if test s37 s45 then {[s45]} ∪ ({[s37]} ∪ acc) else acc)
                       acc l45)
              acc l37
    <-> s ∈ acc \/
        exists s37 s45, s37 ∈ l37 /\ s45 ∈ l45 /\ test s37 s45 = true /\ (s = s37 \/ s = s45).
Proof.
  induction l37 as [|a l37 IH]; intros acc s; cbn [foldl].
  - split; [auto|]. intros [H|(a & b & Ha & _)]; [exact H|].
    apply elem_of_nil in Ha. contradiction.
  - rewrite IH, (inner_loop_spec (test a)). split.
    + intros [[H|(b & Hb & Ht & Hs)]|(a' & b & Ha & Hb & Ht & Hs)].
      * auto.
      * right. exists a, b. split; [apply list_elem_of_here|]. auto.
      * right. exists a', b. split; [apply list_elem_of_further; exact Ha|]. auto.
    + intros [H|(a' & b & Ha & Hb & Ht & Hs)]; [auto|].
      apply elem_of_cons in Ha. destruct Ha as [->|Ha].
      * left. right. exists b. auto.
      * right. exists a', b. auto.
Qed.

Section ReconcilerFacts.
Variables sites_37_regions sites_37_rna : gmap string string.
Variables sites_45_regions sites_45_rna : gmap string string.

Local Abbreviation shared_rna := (Region.shared_rna sites_37_rna sites_45_rna).
Local Abbreviation unique_rna_37 := (Region.unique_rna_37 sites_37_rna sites_45_rna).
Local Abbreviation unique_rna_45 := (Region.unique_rna_45 sites_37_rna sites_45_rna).
Local Abbreviation shared_site_37 :=
  (Region.shared_site_37 sites_37_regions sites_37_rna sites_45_rna).
Local Abbreviation shared_site_45 :=
  (Region.shared_site_45 sites_37_rna sites_45_regions sites_45_rna).
Local Abbreviation sites_match := (Region.sites_match sites_37_regions sites_45_regions).
Local Abbreviation shared_mod_sites :=
  (Region.shared_mod_sites sites_37_regions sites_37_rna sites_45_regions sites_45_rna).

Lemma value_in_spec (d : gmap string string) (X : gset string) (s : string) :
  Region.value_in d X s = true <-> exists t, d !! s = Some t /\ t ∈ X.
Proof.
  unfold Region.value_in. destruct (d !! s) as [t|].
  - rewrite bool_decide_eq_true. split; [eauto|]. intros (t' & [= <-] & H). exact H.
  - split; [discriminate|]. intros (t & H & _). discriminate.
Qed.

Lemma elem_of_shared_site_37 (s : string) :
  s ∈ shared_site_37 <->
  s ∈ dom sites_37_regions /\ exists t, sites_37_rna !! s = Some t /\ t ∈ shared_rna.
Proof.
  unfold Region.shared_site_37. rewrite elem_of_filter, Is_true_true, value_in_spec. tauto.
Qed.

Lemma elem_of_shared_site_45 (s : string) :
  s ∈ shared_site_45 <->
  s ∈ dom sites_45_regions /\ exists t, sites_45_rna !! s = Some t /\ t ∈ shared_rna.
Proof.
  unfold Region.shared_site_45. rewrite elem_of_filter, Is_true_true, value_in_spec. tauto.
Qed.

Lemma sites_match_spec (s37 s45 : string) :
  sites_match s37 s45 = true <->
  position s45 = position s37 /\ sites_37_regions !! s37 = sites_45_regions !! s45.
Proof.
  unfold Region.sites_match, position.
  rewrite andb_true_iff, !bool_decide_eq_true. reflexivity.
Qed.

Lemma elem_of_shared_mod_sites (s : string) :
  s ∈ shared_mod_sites <->
  exists s37 s45, s37 ∈ shared_site_37 /\ s45 ∈ shared_site_45 /\
                  sites_match s37 s45 = true /\ (s = s37 \/ s = s45).
Proof.
  unfold Region.shared_mod_sites. rewrite outer_loop_spec. split.
  - intros [H|(a & b & Ha & Hb & H)]; [apply not_elem_of_empty in H; contradiction|].
    exists a, b. rewrite elem_of_elements in Ha, Hb. auto.
  - intros (a & b & Ha & Hb & H). right. exists a, b.
    rewrite !elem_of_elements. auto.
Qed.

End ReconcilerFacts.

(** C3.  An identifier is in the shared-site set exactly when it is a
    member of a pair (site of A, site of B) whose transcripts both lie in
    the shared-transcript set, whose position components (see
    [position_of_site_id]) are the same string and whose resolved
    categories are equal; both members of every such pair are in the set,
    and a site whose transcript is not shared takes no part in the
    matching. *)
Theorem shared_mod_sites_exactly
    (sites_37_regions sites_37_rna sites_45_regions sites_45_rna : gmap string string)
    (s : string) :
  s ∈ Region.shared_mod_sites sites_37_regions sites_37_rna sites_45_regions sites_45_rna
  <->
  exists (s37 s45 region t37 t45 : string),
    sites_37_regions !! s37 = Some region /\ sites_45_regions !! s45 = Some region /\
    sites_37_rna !! s37 = Some t37 /\ t37 ∈ Region.shared_rna sites_37_rna sites_45_rna /\
    sites_45_rna !! s45 = Some t45 /\ t45 ∈ Region.shared_rna sites_37_rna sites_45_rna /\
    position s37 = position s45 /\
    (s = s37 \/ s = s45).
Proof.
  rewrite elem_of_shared_mod_sites. split.
  - intros (a & b & Ha & Hb & Hm & Hs).
    apply elem_of_shared_site_37 in Ha. destruct Ha as (Hda & ta & Hta & Hsa).
    apply elem_of_shared_site_45 in Hb. destruct Hb as (Hdb & tb & Htb & Hsb).
    apply sites_match_spec in Hm. destruct Hm as (Hpos & Hreg).
    apply elem_of_dom in Hda. destruct Hda as [region Hregion].
    exists a, b, region, ta, tb. rewrite <- Hreg. auto 10.
  - intros (a & b & region & ta & tb & Hra & Hrb & Hta & Hsa & Htb & Hsb & Hpos & Hs).
    exists a, b. split; [|split; [|split]].
    + apply elem_of_shared_site_37. split; [apply elem_of_dom; eauto|eauto].
    + apply elem_of_shared_site_45. split; [apply elem_of_dom; eauto|eauto].
    + apply sites_match_spec. split; congruence.
    + exact Hs.
Qed.

(** ** C1: how the five strata account for the sites of a category *)

Lemma Is_true_value_in (d : gmap string string) (X : gset string) (s : string) :
  Is_true (Region.value_in d X s) <-> exists t, d !! s = Some t /\ t ∈ X.
Proof. rewrite Is_true_true. apply value_in_spec. Qed.

Lemma Is_true_value_is (d : gmap string string) (s region : string) :
  Is_true (Region.value_is d s region) <-> d !! s = Some region.
Proof. unfold Region.value_is. apply bool_decide_spec. Qed.

(** The sites of one condition split three ways: on a transcript of [U],
    or on a transcript of [X] and then outside or inside [SM]. *)
Lemma stratum_split (regions rna : gmap string string) (X U SM : gset string)
    (region : string) :
  dom regions ⊆ dom rna -> X ## U -> map_img rna ⊆ X ∪ U ->
  size (filter (fun s => Region.value_is regions s region && Region.value_in rna U s)
               (dom regions))
  + size (filter (fun s => Region.value_is regions s region && bool_decide (s ∉ SM))
                 (filter (fun s => Region.value_in rna X s) (dom regions)))
  + size (shared_members regions rna X SM region)
  = size (category_sites regions region).
Proof.
  intros Hdom Hdisj Himg. unfold shared_members, category_sites.
  set (S1 := filter (fun s => Region.value_is regions s region && Region.value_in rna U s)
                    (dom regions)).
  set (S2 := filter (fun s => Region.value_is regions s region && bool_decide (s ∉ SM))
                    (filter (fun s => Region.value_in rna X s) (dom regions))).
  set (S3 := filter (fun s => Region.value_is regions s region && bool_decide (s ∈ SM))
                    (filter (fun s => Region.value_in rna X s) (dom regions))).
  assert (H1 : forall s, s ∈ S1 <->
            (regions !! s = Some region /\ exists t, rna !! s = Some t /\ t ∈ U)).
  { intros s. unfold S1. rewrite elem_of_filter, andb_True, Is_true_value_is,
      Is_true_value_in, elem_of_dom. split; [tauto|]. intros [Hr Ht]. rewrite Hr. eauto. }
  assert (H2 : forall s, s ∈ S2 <->
            (regions !! s = Some region /\ (s ∉ SM) /\ exists t, rna !! s = Some t /\ t ∈ X)).
  { intros s. unfold S2. rewrite !elem_of_filter, andb_True, Is_true_value_is,
      Is_true_value_in, bool_decide_spec, elem_of_dom. split; [tauto|].
    intros (Hr & Hs & Ht). rewrite Hr. eauto. }
  assert (H3 : forall s, s ∈ S3 <->
            (regions !! s = Some region /\ s ∈ SM /\ exists t, rna !! s = Some t /\ t ∈ X)).
  { intros s. unfold S3. rewrite !elem_of_filter, andb_True, Is_true_value_is,
      Is_true_value_in, bool_decide_spec, elem_of_dom. split; [tauto|].
    intros (Hr & Hs & Ht). rewrite Hr. eauto. }
  assert (Hall : filter (fun s => Region.value_is regions s region) (dom regions)
                 = S1 ∪ S2 ∪ S3).
  { apply set_eq. intros s.
    rewrite !elem_of_union, H1, H2, H3, elem_of_filter, Is_true_value_is, elem_of_dom.
    split.
    - intros [Hr _].
      assert (is_Some (rna !! s)) as [t Ht].
      { apply elem_of_dom, Hdom, elem_of_dom. eauto. }
      assert (HXU : t ∈ (X ∪ U)).
      { apply Himg, elem_of_map_img. eauto. }
      apply elem_of_union in HXU. destruct HXU as [HX|HU].
      + destruct (decide (s ∈ SM)); [right|left; right]; eauto.
      + left. left. eauto.
    - intros [[[Hr _]|[Hr _]]|[Hr _]]; rewrite Hr; eauto. }
  rewrite Hall. rewrite !size_union.
  - reflexivity.
  - intros s Hs1 Hs2. apply H1 in Hs1. apply H2 in Hs2.
    destruct Hs1 as (_ & t & Ht & HU). destruct Hs2 as (_ & _ & t' & Ht' & HX).
    rewrite Ht in Ht'. injection Ht' as <-. exact (Hdisj t HX HU).
  - intros s Hs12 Hs3. apply H3 in Hs3. destruct Hs3 as (_ & HSM & t' & Ht' & HX).
    apply elem_of_union in Hs12. destruct Hs12 as [Hs1|Hs2].
    + apply H1 in Hs1. destruct Hs1 as (_ & t & Ht & HU).
      rewrite Ht in Ht'. injection Ht' as <-. exact (Hdisj t HX HU).
    + apply H2 in Hs2. destruct Hs2 as (_ & Hn & _). contradiction.
Qed.

Lemma lookup_map {A B : Type} (f : A -> B) (l : list A) (i : nat) :
  map f l !! i = f <$> (l !! i).
Proof.
  revert i. induction l as [|x l IH]; intros [|i]; try reflexivity. apply IH.
Qed.

Lemma total_at_count_layers
    (sites_37_regions sites_37_rna sites_45_regions sites_45_rna : gmap string string)
    (idx : nat) (region : string) :
  Region.region_order !! idx = Some region ->
  Region.total_at
    (Region.count_layers sites_37_regions sites_37_rna sites_45_regions sites_45_rna) idx
  = Region.count_mod_unique37 sites_37_regions sites_37_rna sites_45_rna region
    + Region.count_unique_37 sites_37_regions sites_37_rna sites_45_regions sites_45_rna region
    + Region.count_shared sites_37_regions sites_37_rna sites_45_regions sites_45_rna region
    + Region.count_unique_45 sites_37_regions sites_37_rna sites_45_regions sites_45_rna region
    + Region.count_mod_unique45 sites_37_rna sites_45_regions sites_45_rna region.
Proof.
  intros Hidx. unfold Region.total_at, Region.layers, Region.count_layers.
  cbn [map snd Region.mod_unique37 Region.unique_37 Region.shared Region.unique_45
       Region.mod_unique45 list_sum foldr].
  rewrite !lookup_map, Hidx. cbn [fmap option_fmap option_map default].
  unfold id. lia.
Qed.

Lemma shared_unique_cover_37 (sites_37_rna sites_45_rna : gmap string string) :
  map_img sites_37_rna ⊆
    Region.shared_rna sites_37_rna sites_45_rna ∪ Region.unique_rna_37 sites_37_rna sites_45_rna.
Proof.
  unfold Region.shared_rna, Region.unique_rna_37, Region.rna_37. intros x Hx.
  rewrite elem_of_union, elem_of_intersection, elem_of_difference.
  destruct (decide (x ∈ Region.rna_45 sites_45_rna)); tauto.
Qed.

Lemma shared_unique_cover_45 (sites_37_rna sites_45_rna : gmap string string) :
  map_img sites_45_rna ⊆
    Region.shared_rna sites_37_rna sites_45_rna ∪ Region.unique_rna_45 sites_37_rna sites_45_rna.
Proof.
  unfold Region.shared_rna, Region.unique_rna_45, Region.rna_45. intros x Hx.
  rewrite elem_of_union, elem_of_intersection, elem_of_difference.
  destruct (decide (x ∈ Region.rna_37 sites_37_rna)); tauto.
Qed.

(** C1 (as amended).  For the dictionaries of any two files and every
    category of [region_order], call a site of a condition a shared member
    when it lies on a shared transcript and belongs to the shared-site set.
    Within each condition the sites of the category are counted once each:
    their number is the condition's mod_unique count plus its unique count
    plus its shared members.  Hence the five counts, together with the
    shared members of the two conditions, add up to the sites of A plus the
    sites of B plus the shared count.  When every matching pair of
    shared-transcript sites carries one and the same identifier, the shared
    count is the number of shared members of A and also that of B, and the
    five counts sum to the sites of A plus the sites of B minus the shared
    count. *)
Theorem stratum_counts_accounting (file1 file2 : DataFrame)
    (sites_37_regions sites_37_rna sites_45_regions sites_45_rna : gmap string string)
    (idx : nat) (region : string) :
  Region.process_sites_file file1 = Some (sites_37_regions, sites_37_rna) ->
  Region.process_sites_file file2 = Some (sites_45_regions, sites_45_rna) ->
  Region.region_order !! idx = Some region ->
  let lc := Region.count_layers sites_37_regions sites_37_rna sites_45_regions sites_45_rna in
  let SM := Region.shared_mod_sites sites_37_regions sites_37_rna sites_45_regions sites_45_rna in
  let X := Region.shared_rna sites_37_rna sites_45_rna in
  let n_shared :=
    Region.count_shared sites_37_regions sites_37_rna sites_45_regions sites_45_rna region in
  let members_37 := size (shared_members sites_37_regions sites_37_rna X SM region) in
  let members_45 := size (shared_members sites_45_regions sites_45_rna X SM region) in
  Region.main_counts file1 file2 = Some lc /\
  Region.count_mod_unique37 sites_37_regions sites_37_rna sites_45_rna region
    + Region.count_unique_37 sites_37_regions sites_37_rna sites_45_regions sites_45_rna region
    + members_37
  = size (category_sites sites_37_regions region) /\
  Region.count_mod_unique45 sites_37_rna sites_45_regions sites_45_rna region
    + Region.count_unique_45 sites_37_regions sites_37_rna sites_45_regions sites_45_rna region
    + members_45
  = size (category_sites sites_45_regions region) /\
  Region.total_at lc idx + members_37 + members_45
  = size (category_sites sites_37_regions region)
    + size (category_sites sites_45_regions region) + n_shared /\
  ((forall s37 s45 : string,
      s37 ∈ Region.shared_site_37 sites_37_regions sites_37_rna sites_45_rna ->
      s45 ∈ Region.shared_site_45 sites_37_rna sites_45_regions sites_45_rna ->
      Region.sites_match sites_37_regions sites_45_regions s37 s45 = true ->
      s37 = s45) ->
   n_shared = members_37 /\
   n_shared = members_45 /\
   Region.total_at lc idx + n_shared
   = size (category_sites sites_37_regions region)
     + size (category_sites sites_45_regions region)).
Proof.
  intros Hf1 Hf2 Hidx lc SM X n_shared members_37 members_45.
  pose proof (process_sites_file_dom _ _ _ Hf1) as Hd37.
  pose proof (process_sites_file_dom _ _ _ Hf2) as Hd45.
  destruct (shared_unique_disjoint (Region.rna_37 sites_37_rna) (Region.rna_45 sites_45_rna))
    as (Hsu37 & Hsu45 & _).
  pose proof (stratum_split sites_37_regions sites_37_rna X
                (Region.unique_rna_37 sites_37_rna sites_45_rna) SM region
                ltac:(rewrite Hd37; reflexivity) Hsu37
                (shared_unique_cover_37 _ _)) as H37.
  pose proof (stratum_split sites_45_regions sites_45_rna X
                (Region.unique_rna_45 sites_37_rna sites_45_rna) SM region
                ltac:(rewrite Hd45; reflexivity) Hsu45
                (shared_unique_cover_45 _ _)) as H45.
  assert (HA : Region.count_mod_unique37 sites_37_regions sites_37_rna sites_45_rna region
      + Region.count_unique_37 sites_37_regions sites_37_rna sites_45_regions sites_45_rna region
      + members_37
    = size (category_sites sites_37_regions region)).
  { unfold Region.count_mod_unique37, Region.count_unique_37, Region.shared_site_37.
    fold SM X. exact H37. }
  assert (HB : Region.count_mod_unique45 sites_37_rna sites_45_regions sites_45_rna region
      + Region.count_unique_45 sites_37_regions sites_37_rna sites_45_regions sites_45_rna region
      + members_45
    = size (category_sites sites_45_regions region)).
  { unfold Region.count_mod_unique45, Region.count_unique_45, Region.shared_site_45.
    fold SM X. exact H45. }
  assert (Htotal : Region.total_at lc idx + members_37 + members_45
    = size (category_sites sites_37_regions region)
      + size (category_sites sites_45_regions region) + n_shared).
  { unfold lc. rewrite (total_at_count_layers _ _ _ _ _ _ Hidx).
    fold n_shared. lia. }
  split; [|split; [exact HA|split; [exact HB|split; [exact Htotal|]]]].
  { unfold Region.main_counts. rewrite Hf1, Hf2. reflexivity. }
  intros Hsame.
  assert (HSM : forall s, s ∈ SM ->
            s ∈ Region.shared_site_37 sites_37_regions sites_37_rna sites_45_rna /\
            s ∈ Region.shared_site_45 sites_37_rna sites_45_regions sites_45_rna /\
            sites_37_regions !! s = sites_45_regions !! s).
  { intros s Hs. apply elem_of_shared_mod_sites in Hs.
    destruct Hs as (a & b & Ha & Hb & Hm & Hs).
    pose proof (Hsame a b Ha Hb Hm) as <-.
    apply sites_match_spec in Hm. destruct Hm as [_ Hreg].
    destruct Hs as [->| ->]; auto. }
  assert (E37 : n_shared = members_37).
  { unfold n_shared, members_37, Region.count_shared, shared_members. fold SM X. f_equal.
    apply set_eq. intros s.
    rewrite !elem_of_filter, andb_True, Is_true_value_is, bool_decide_spec.
    unfold Region.get_is. rewrite bool_decide_spec. split.
    - intros [Hget Hs]. destruct (HSM s Hs) as (H37s & _ & _).
      pose proof H37s as H37s'. apply elem_of_filter in H37s'. destruct H37s' as [Hv Hdom].
      apply elem_of_dom in Hdom. destruct Hdom as [x Hx]. rewrite Hx in Hget |- *.
      cbn in Hget. subst x. repeat split; try assumption. apply elem_of_dom. eauto.
    - intros [[Hr Hs] _]. rewrite Hr. auto. }
  assert (E45 : n_shared = members_45).
  { unfold n_shared, members_45, Region.count_shared, shared_members. fold SM X. f_equal.
    apply set_eq. intros s.
    rewrite !elem_of_filter, andb_True, Is_true_value_is, bool_decide_spec.
    unfold Region.get_is. rewrite bool_decide_spec. split.
    - intros [Hget Hs]. destruct (HSM s Hs) as (H37s & H45s & Heq).
      apply elem_of_filter in H37s. destruct H37s as [_ Hdom].
      apply elem_of_dom in Hdom. destruct Hdom as [x Hx]. rewrite Hx in Hget.
      cbn in Hget. subst x.
      pose proof H45s as H45s'. apply elem_of_filter in H45s'. destruct H45s' as [Hv Hdom].
      repeat split; try assumption. congruence.
    - intros [[Hr Hs] _]. destruct (HSM s Hs) as (_ & _ & Heq).
      rewrite Heq, Hr. auto. }
  split; [exact E37|]. split; [exact E45|]. lia.
Qed.

Lemma replicon_files_processed :
  Region.process_sites_file Examples.replicon_A
    = Some (Examples.replicon_A_regions, Examples.replicon_A_rna) /\
  Region.process_sites_file Examples.replicon_B
    = Some (Examples.replicon_B_regions, Examples.replicon_B_rna).
Proof. split; vm_compute; reflexivity. Qed.

Lemma scenario_files_processed :
  Region.process_sites_file Examples.scenario_A
    = Some (Examples.scenario_A_regions, Examples.scenario_A_rna) /\
  Region.process_sites_file Examples.scenario_B
    = Some (Examples.scenario_B_regions, Examples.scenario_B_rna).
Proof. split; vm_compute; reflexivity. Qed.

(** C1, counterexample.  Condition A has the ncRNA site chr1:20 and
    condition B the ncRNA site chr2:20, both with the same RNA id.  The two
    sites match (same position string, same category); both enter the
    shared-site set, the shared stratum counts only the identifier known to
    A, and the site of B is counted in no stratum: the five counts of ncRNA
    sum to 1 while the category has 2 sites, under either reading of the
    total. *)
Lemma strata_sum_loses_site :
  Region.main_counts Examples.replicon_A Examples.replicon_B
    = Some {| Region.mod_unique37 := [0; 0; 0; 0; 0];
              Region.unique_37 := [0; 0; 0; 0; 0];
              Region.shared := [1; 0; 0; 0; 0];
              Region.unique_45 := [0; 0; 0; 0; 0];
              Region.mod_unique45 := [0; 0; 0; 0; 0] |} /\
  Region.total_at
    (Region.count_layers Examples.replicon_A_regions Examples.replicon_A_rna
                         Examples.replicon_B_regions Examples.replicon_B_rna) 0 = 1 /\
  size (category_sites Examples.replicon_A_regions "ncRNA") = 1 /\
  size (category_sites Examples.replicon_B_regions "ncRNA") = 1 /\
  size (category_sites Examples.replicon_A_regions "ncRNA"
          ∪ category_sites Examples.replicon_B_regions "ncRNA") = 2 /\
  ~ strata_sum_to_distinct_sites /\ ~ strata_sum_to_sites_of_both.
Proof.
  assert (Hsum : Region.total_at
    (Region.count_layers Examples.replicon_A_regions Examples.replicon_A_rna
                         Examples.replicon_B_regions Examples.replicon_B_rna) 0 = 1)
    by (vm_compute; reflexivity).
  assert (HA : size (category_sites Examples.replicon_A_regions "ncRNA") = 1)
    by (vm_compute; reflexivity).
  assert (HB : size (category_sites Examples.replicon_B_regions "ncRNA") = 1)
    by (vm_compute; reflexivity).
  assert (HAB : size (category_sites Examples.replicon_A_regions "ncRNA"
                        ∪ category_sites Examples.replicon_B_regions "ncRNA") = 2)
    by (vm_compute; reflexivity).
  destruct replicon_files_processed as [HfA HfB].
  split; [vm_compute; reflexivity|].
  split; [exact Hsum|]. split; [exact HA|]. split; [exact HB|]. split; [exact HAB|].
  split.
  - intros Hclaim.
    specialize (Hclaim _ _ _ _ _ _ 0 "ncRNA" HfA HfB eq_refl).
    rewrite Hsum, HAB in Hclaim. specialize (Hclaim ltac:(discriminate)). discriminate.
  - intros Hclaim.
    specialize (Hclaim _ _ _ _ _ _ 0 "ncRNA" HfA HfB eq_refl).
    rewrite Hsum, HA, HB in Hclaim. specialize (Hclaim ltac:(discriminate)). discriminate.
Qed.

(** The accounting needs shared members to lie on a shared transcript.
    Condition A has the ncRNA sites c:20 on transcript T1 and d:20 on T2,
    condition B the ncRNA site c:20 on T2.  T2 is the shared transcript;
    d:20 of A and c:20 of B match, so both identifiers enter the shared-site
    set.  The shared stratum then also counts c:20 of A, which lies on the
    transcript T1 of A alone and is counted in mod_unique37 already: the
    five counts of ncRNA sum to 3, while the category has 2 distinct
    identifiers. *)
Lemma strata_sum_counts_site_twice :
  Region.main_counts Examples.overlap_A Examples.overlap_B
    = Some {| Region.mod_unique37 := [1; 0; 0; 0; 0];
              Region.unique_37 := [0; 0; 0; 0; 0];
              Region.shared := [2; 0; 0; 0; 0];
              Region.unique_45 := [0; 0; 0; 0; 0];
              Region.mod_unique45 := [0; 0; 0; 0; 0] |} /\
  Region.process_sites_file Examples.overlap_A
    = Some (Examples.overlap_A_regions, Examples.overlap_A_rna) /\
  Region.process_sites_file Examples.overlap_B
    = Some (Examples.overlap_B_regions, Examples.overlap_B_rna) /\
  Region.shared_rna Examples.overlap_A_rna Examples.overlap_B_rna = {["T2"]} /\
  Region.shared_mod_sites Examples.overlap_A_regions Examples.overlap_A_rna
                          Examples.overlap_B_regions Examples.overlap_B_rna
    = {["c:20"; "d:20"]} /\
  size (category_sites Examples.overlap_A_regions "ncRNA"
          ∪ category_sites Examples.overlap_B_regions "ncRNA") = 2 /\
  size (shared_members Examples.overlap_A_regions Examples.overlap_A_rna {["T2"]}
                       {["c:20"; "d:20"]} "ncRNA") = 1.
Proof.
  repeat split; vm_compute; reflexivity.
Qed.

Lemma stratum_counts_accounting_witness :
  Region.total_at
    (Region.count_layers Examples.scenario_A_regions Examples.scenario_A_rna
                         Examples.scenario_B_regions Examples.scenario_B_rna) 0
  + Region.count_shared Examples.scenario_A_regions Examples.scenario_A_rna
                        Examples.scenario_B_regions Examples.scenario_B_rna "ncRNA"
  = size (category_sites Examples.scenario_A_regions "ncRNA")
    + size (category_sites Examples.scenario_B_regions "ncRNA").
Proof.
  refine (proj2 (proj2 (proj2 (proj2 (proj2 (proj2 (stratum_counts_accounting
            Examples.scenario_A Examples.scenario_B
            Examples.scenario_A_regions Examples.scenario_A_rna
            Examples.scenario_B_regions Examples.scenario_B_rna 0 "ncRNA" _ _ _)))) _))).
  - vm_compute. reflexivity.
  - vm_compute. reflexivity.
  - reflexivity.
  - intros s37 s45 H37 H45 _.
    assert (E37 : Region.shared_site_37 Examples.scenario_A_regions Examples.scenario_A_rna
                    Examples.scenario_B_rna = {["c:20"]}) by (vm_compute; reflexivity).
    assert (E45 : Region.shared_site_45 Examples.scenario_A_rna Examples.scenario_B_regions
                    Examples.scenario_B_rna = {["c:20"]}) by (vm_compute; reflexivity).
    rewrite E37 in H37. rewrite E45 in H45.
    apply elem_of_singleton in H37. apply elem_of_singleton in H45. congruence.
Defined.

Lemma process_sites_file_maps_witness :
  dom Examples.scenario_A_regions = dom Examples.scenario_A_rna /\
  Examples.scenario_A_regions !! "c:20" = fst <$> last_entry "c:20" (entries Examples.scenario_A).
Proof.
  pose proof (process_sites_file_maps Examples.scenario_A
                Examples.scenario_A_regions Examples.scenario_A_rna
                ltac:(vm_compute; reflexivity)) as (Hdom & Hreg & _).
  split; [exact Hdom | exact (Hreg "c:20")].
Defined.

(** The scenario of the specification: site 20/ncRNA is shared, site
    10/CDS lies on the transcript unique to A, site 30/CDS on the one
    unique to B. *)
Example scenario_counts :
  Region.main_counts Examples.scenario_A Examples.scenario_B
  = Some {| Region.mod_unique37 := [0; 0; 0; 0; 1];
            Region.unique_37 := [0; 0; 0; 0; 0];
            Region.shared := [1; 0; 0; 0; 0];
            Region.unique_45 := [0; 0; 0; 0; 0];
            Region.mod_unique45 := [0; 0; 0; 0; 1] |}.
Proof. vm_compute. reflexivity. Qed.

(** ** C4: the gene-type to RNA-type conversion of the depletion scripts *)

Lemma isspace_lower_char (c : ascii) : Py.isspace (Py.lower_char c) = Py.isspace c.
Proof. destruct c as [[] [] [] [] [] [] [] []]; reflexivity. Qed.

Lemma lower_lstrip (s : string) : Py.lower (Py.lstrip s) = Py.lstrip (Py.lower s).
Proof.
  induction s as [|c s IH]; [reflexivity|].
  cbn [Py.lstrip Py.lower]. rewrite isspace_lower_char.
  destruct (Py.isspace c); [exact IH | reflexivity].
Qed.

Lemma lower_rev_onto (s acc : string) :
  Py.lower (Py.rev_onto s acc) = Py.rev_onto (Py.lower s) (Py.lower acc).
Proof.
  revert acc. induction s as [|c s IH]; intros acc; [reflexivity|].
  cbn [Py.rev_onto Py.lower]. rewrite IH. reflexivity.
Qed.

Lemma lower_strip (s : string) : Py.lower (Py.strip s) = Py.strip (Py.lower s).
Proof.
  unfold Py.strip, Py.rstrip, Py.reverse.
  rewrite lower_rev_onto, lower_lstrip, lower_rev_onto, lower_lstrip. reflexivity.
Qed.

Lemma gene_type_to_rna_values (k v : string) :
  Group.gene_type_to_rna !! k = Some v ->
  (k = "protein_coding" /\ v = "mRNA") \/ (k = "rrna_gene" /\ v = "rRNA") \/
  (k <> "protein_coding" /\ k <> "rrna_gene" /\ v = "ncRNA").
Proof.
  intros H. apply elem_of_list_to_map_2 in H. unfold Group.gene_type_to_rna_items in H.
  repeat (apply elem_of_cons in H; destruct H as [H|H];
          [injection H as -> ->; first [left; split; reflexivity
                                       | right; left; split; reflexivity
                                       | right; right; repeat split; discriminate] |]).
  apply elem_of_nil in H. contradiction.
Qed.

Lemma convert_gene_to_rna_formula (g : string) :
  Group.convert_gene_to_rna (Some g)
  = default "unknown" (Group.gene_type_to_rna !! Py.lower (Py.strip g)).
Proof.
  unfold Group.convert_gene_to_rna, Group.convert_gene_to_rna_default.
  destruct (bool_decide (Py.strip g = "")) eqn:E.
  - apply bool_decide_eq_true in E. rewrite E. reflexivity.
  - destruct (Group.gene_type_to_rna !! Py.lower (Py.strip g)); reflexivity.
Qed.

(** C4, counterexample.  The conversion is not a plain case-insensitive
    lookup with an "unknown" default: [convert_gene_to_rna] also strips
    surrounding white space, so the label " protein_coding", which is no key
    of the table in any letter case, becomes "mRNA"; and the older script
    looks labels up in its own table by exact case and leaves an unmapped
    label as it is ("Protein_Coding" stays "Protein_Coding" and its row is
    an unknown type), and maps pseudogene to "unaligned". *)
Lemma gene_type_conversion_not_plain_lookup :
  Group.gene_type_to_rna !! Py.lower " protein_coding" = None /\
  Group.convert_gene_to_rna (Some " protein_coding") = "mRNA" /\
  FDR.convert "Protein_Coding" = "Protein_Coding" /\
  FDR.is_known (Some "Protein_Coding") = false /\
  FDR.convert "pseudogene" = "unaligned".
Proof. repeat split; vm_compute; reflexivity. Qed.

(** C4 (as amended).  [convert_gene_to_rna] of group_proportion_style.py
    is total on every cell: a null cell gives "unknown", a string is
    stripped of surrounding white space, lowercased and looked up in the
    fixed table (protein_coding to mRNA, rrna_gene to rRNA, every other key
    to ncRNA), "unknown" being returned when the stripped lowercase label is
    no key (the empty and blank labels among them).  The result is always
    one of mRNA, rRNA, ncRNA, unknown, and labels that differ only in letter
    case convert alike.  The older FDR_proportion_plotting.py converts by
    exact-case lookup in its own table and returns an unmapped label
    unchanged. *)
Theorem convert_gene_to_rna_lookup (c : cell) :
  Group.convert_gene_to_rna c ∈ ["mRNA"; "rRNA"; "ncRNA"; "unknown"] /\
  Group.convert_gene_to_rna c
  = match c with
    | None => "unknown"
    | Some g => default "unknown" (Group.gene_type_to_rna !! Py.lower (Py.strip g))
    end /\
  (forall g g' : string,
     c = Some g -> Py.lower g' = Py.lower g ->
     Group.convert_gene_to_rna (Some g') = Group.convert_gene_to_rna c) /\
  (forall k v : string,
     Group.gene_type_to_rna !! k = Some v ->
     (k = "protein_coding" /\ v = "mRNA") \/ (k = "rrna_gene" /\ v = "rRNA") \/
     (k <> "protein_coding" /\ k <> "rrna_gene" /\ v = "ncRNA")) /\
  Group.convert_gene_to_rna (Some "Protein_Coding") = "mRNA" /\
  Group.convert_gene_to_rna (Some "rRNA_gene") = "rRNA" /\
  Group.convert_gene_to_rna (Some "LincRNA") = "ncRNA" /\
  Group.convert_gene_to_rna (Some "") = "unknown" /\
  Group.convert_gene_to_rna (Some "   ") = "unknown" /\
  (forall x : string,
     FDR.convert x = default x (FDR.gene_type_to_rna !! x)).
Proof.
  assert (Hformula : Group.convert_gene_to_rna c
    = match c with
      | None => "unknown"
      | Some g => default "unknown" (Group.gene_type_to_rna !! Py.lower (Py.strip g))
      end).
  { destruct c as [g|]; [apply convert_gene_to_rna_formula | reflexivity]. }
  split; [|split; [exact Hformula|split; [|split; [exact gene_type_to_rna_values|]]]].
  - rewrite Hformula. destruct c as [g|].
    + destruct (Group.gene_type_to_rna !! Py.lower (Py.strip g)) as [v|] eqn:E.
      * apply gene_type_to_rna_values in E. cbn [default].
        destruct E as [[_ ->]|[[_ ->]|(_ & _ & ->)]];
          repeat first [apply list_elem_of_here | apply list_elem_of_further].
      * cbn [default]. repeat first [apply list_elem_of_here | apply list_elem_of_further].
    + repeat first [apply list_elem_of_here | apply list_elem_of_further].
  - intros g g' -> Hlow. rewrite !convert_gene_to_rna_formula, !lower_strip, Hlow.
    reflexivity.
  - repeat (split; [vm_compute; reflexivity|]).
    intros x. unfold FDR.convert. destruct (FDR.gene_type_to_rna !! x); reflexivity.
Qed.

Lemma convert_gene_to_rna_lookup_witness :
  Group.convert_gene_to_rna (Some "MIRNA") = Group.convert_gene_to_rna (Some "miRNA").
Proof.
  refine (proj1 (proj2 (proj2 (convert_gene_to_rna_lookup (Some "miRNA"))))
                "miRNA" "MIRNA" eq_refl _).
  reflexivity.
Defined.

(** ** C8 and C9: skipped files and missing columns in [load_samples] *)

Lemma group_load_files_log (folder_type : string) (files : list File) :
  forall (gd : Group.group_data) (log : list message),
    Group.load_files folder_type files gd log
    = (log ++ fst (Group.load_files folder_type files gd []),
       snd (Group.load_files folder_type files gd [])).
Proof.
  induction files as [|file rest IH]; intros gd log; cbn [Group.load_files].
  - cbn [fst snd]. rewrite app_nil_r. reflexivity.
  - destruct (Group.get_group_name (stem file) folder_type) as [g|].
    + destruct (content file) as [df|]; [|cbn [fst snd]; rewrite app_nil_r; reflexivity].
      destruct (missing_cols df); [|cbn [fst snd]; rewrite app_nil_r; reflexivity].
      destruct (Group.strip_raises df); [cbn [fst snd]; rewrite app_nil_r; reflexivity|].
      destruct (Group.load_frame file df g) as [rws msgs].
      rewrite (IH _ (log ++ msgs)), (IH _ ([] ++ msgs)). cbn [fst snd].
      rewrite app_nil_l, app_assoc. reflexivity.
    + rewrite (IH _ (log ++ _)), (IH _ ([] ++ _)). cbn [fst snd].
      rewrite app_nil_l, app_assoc. reflexivity.
Qed.

Lemma group_load_files_app (folder_type : string) (l1 l2 : list File) :
  forall (gd : Group.group_data) (log : list message),
    Group.load_files folder_type (l1 ++ l2) gd log
    = match Group.load_files folder_type l1 gd log with
      | (log', inr gd') => Group.load_files folder_type l2 gd' log'
      | (log', inl e) => (log', inl e)
      end.
Proof.
  induction l1 as [|file rest IH]; intros gd log; cbn [Group.load_files app].
  - reflexivity.
  - destruct (Group.get_group_name (stem file) folder_type) as [g|]; [|apply IH].
    destruct (content file) as [df|]; [|reflexivity].
    destruct (missing_cols df); [|reflexivity].
    destruct (Group.strip_raises df); [reflexivity|].
    destruct (Group.load_frame file df g) as [rws msgs]. apply IH.
Qed.

(** One unmatched file changes the log and nothing else. *)
Lemma group_load_files_skip (folder_type : string) (before after : list File) (file : File)
    (gd : Group.group_data) (log : list message) :
  Group.get_group_name (stem file) folder_type = None ->
  snd (Group.load_files folder_type (before ++ file :: after) gd log)
  = snd (Group.load_files folder_type (before ++ after) gd log).
Proof.
  intros Hnone. rewrite !group_load_files_app.
  destruct (Group.load_files folder_type before gd log) as [log' [e|gd']]; [reflexivity|].
  cbn [Group.load_files]. rewrite Hnone.
  rewrite (group_load_files_log _ after gd' (log' ++ _)),
          (group_load_files_log _ after gd' log').
  reflexivity.
Qed.

Lemma group_load_files_warns (folder_type : string) (before after : list File) (file : File)
    (gd gd' : Group.group_data) (log log' : list message) :
  Group.get_group_name (stem file) folder_type = None ->
  Group.load_files folder_type before gd log = (log', inr gd') ->
  Warning_skipped (stem file) folder_type
    ∈ fst (Group.load_files folder_type (before ++ file :: after) gd log).
Proof.
  intros Hnone Hbefore. rewrite group_load_files_app, Hbefore.
  cbn [Group.load_files]. rewrite Hnone, group_load_files_log. cbn [fst].
  apply elem_of_app. left. apply elem_of_app. right. apply list_elem_of_here.
Qed.

(** C8, counterexample.  The only file of the total-RNA folder matches no
    grouping rule: it is skipped with a warning, after which [load_samples]
    raises "no valid files", [main] prints the error and draws no chart, and
    the regular file of the other folder is never loaded. *)
Lemma skipping_every_file_is_fatal :
  Group.get_group_name (stem Examples.stray_file) "total" = None /\
  Group.load_samples Examples.stray_total_dir "total"
    = ([Warning_skipped "sampleX" "total"], inl ValueError_no_valid_files) /\
  (exists rws, Group.load_samples Examples.removed_dir "removed" = ([], inr rws)) /\
  Group.main Examples.stray_total_dir Examples.removed_dir
    = ([Warning_skipped "sampleX" "total"], inl ValueError_no_valid_files).
Proof.
  split; [vm_compute; reflexivity|]. split; [vm_compute; reflexivity|].
  split; [eexists; vm_compute; reflexivity|]. vm_compute. reflexivity.
Qed.

(** C8 (as amended).  A sample file whose stem matches no grouping rule is
    skipped: once the loop reaches it a warning is printed, and the result
    of [load_samples] -- rows or error -- is the one the folder gives
    without that file, as long as the folder holds another file; the
    skipped file contributes no row.  When it is the only file of the
    folder, [load_samples] raises the "no valid files" error. *)
Theorem unmatched_file_is_skipped (folder : Folder) (folder_type : string)
    (before after : list File) (file : File) :
  Group.get_group_name (stem file) folder_type = None ->
  csv_files folder = before ++ file :: after ->
  let without := {| exists_ := exists_ folder; is_dir := is_dir folder;
                    csv_files := before ++ after |} in
  (before ++ after <> [] ->
     snd (Group.load_samples folder folder_type)
     = snd (Group.load_samples without folder_type)) /\
  (before ++ after = [] -> exists_ folder = true -> is_dir folder = true ->
     Group.load_samples folder folder_type
     = ([Warning_skipped (stem file) folder_type], inl ValueError_no_valid_files)) /\
  (forall log gd,
     exists_ folder = true -> is_dir folder = true ->
     Group.load_files folder_type before [] [] = (log, inr gd) ->
     Warning_skipped (stem file) folder_type ∈ fst (Group.load_samples folder folder_type)).
Proof.
  intros Hnone Hfiles without.
  assert (Hrun : forall files,
            files <> [] ->
            forall ex dir,
            Group.load_samples {| exists_ := ex; is_dir := dir; csv_files := files |} folder_type
            = if negb ex then ([], inl FileNotFoundError)
              else if negb dir then ([], inl NotADirectoryError)
              else match Group.load_files folder_type files [] [] with
                   | (log, inl e) => (log, inl e)
                   | (log, inr gd) =>
                       match map (fun g => concat (snd g)) gd with
                       | [] => (log, inl ValueError_no_valid_files)
                       | _ :: _ => (log, inr (concat (map (fun g => concat (snd g)) gd)))
                       end
                   end).
  { intros files Hne ex dir. unfold Group.load_samples. cbn [exists_ is_dir csv_files].
    destruct files; [contradiction|]. reflexivity. }
  assert (Hfolder : folder = {| exists_ := exists_ folder; is_dir := is_dir folder;
                                csv_files := before ++ file :: after |}).
  { destruct folder. cbn in *. subst. reflexivity. }
  split; [|split].
  - intros Hne. rewrite Hfolder. unfold without.
    rewrite (Hrun (before ++ file :: after)) by (destruct before; discriminate).
    rewrite (Hrun (before ++ after) Hne).
    destruct (negb (exists_ folder)); [reflexivity|].
    destruct (negb (is_dir folder)); [reflexivity|].
    pose proof (group_load_files_skip folder_type before after file [] [] Hnone) as Hskip.
    destruct (Group.load_files folder_type (before ++ file :: after) [] []) as [log1 r1].
    destruct (Group.load_files folder_type (before ++ after) [] []) as [log2 r2].
    cbn [snd] in Hskip. subst r2. destruct r1 as [e|gd]; [reflexivity|].
    destruct (map (fun g => concat (snd g)) gd); reflexivity.
  - intros Hnil Hex Hdir. apply app_eq_nil in Hnil. destruct Hnil as [-> ->].
    rewrite Hfolder, Hex, Hdir. unfold Group.load_samples.
    cbn [exists_ is_dir csv_files app negb Group.load_files]. rewrite Hnone. reflexivity.
  - intros log gd Hex Hdir Hbefore. rewrite Hfolder, Hex, Hdir.
    rewrite (Hrun (before ++ file :: after)) by (destruct before; discriminate).
    cbn [negb].
    pose proof (group_load_files_warns folder_type before after file [] gd [] log
                  Hnone Hbefore) as Hwarn.
    destruct (Group.load_files folder_type (before ++ file :: after) [] []) as [log1 r1].
    cbn [fst] in Hwarn. destruct r1 as [e|gd1]; [exact Hwarn|].
    destruct (map (fun g => concat (snd g)) gd1); exact Hwarn.
Qed.

Lemma unmatched_file_is_skipped_witness :
  snd (Group.load_samples Examples.mixed_total_dir "total")
  = snd (Group.load_samples
           {| exists_ := true; is_dir := true; csv_files := [Examples.total_file] |} "total").
Proof.
  refine (proj1 (unmatched_file_is_skipped Examples.mixed_total_dir "total"
                   [] [Examples.total_file] Examples.stray_headless_file _ _) _).
  - vm_compute. reflexivity.
  - reflexivity.
  - discriminate.
Defined.

Lemma fdr_load_files_app (group_name : string) (l1 l2 : list File) :
  forall all_samples : list (list FDR.sample),
    FDR.load_files group_name (l1 ++ l2) all_samples
    = match FDR.load_files group_name l1 all_samples with
      | inr all_samples' => FDR.load_files group_name l2 all_samples'
      | inl e => inl e
      end.
Proof.
  induction l1 as [|file rest IH]; intros all_samples; cbn [FDR.load_files app].
  - reflexivity.
  - destruct (content file) as [df|]; [|reflexivity].
    destruct (missing_cols df); [|reflexivity]. apply IH.
Qed.

Lemma elem_of_missing_cols (df : DataFrame) (col : string) :
  col ∈ missing_cols df <-> col ∈ ["Sites"; "Gene_Type"] /\ col ∉ columns df.
Proof.
  unfold missing_cols, column_mapping_keys.
  rewrite list_elem_of_In, filter_In, <- list_elem_of_In, negb_true_iff, bool_decide_eq_false.
  reflexivity.
Qed.

(** C9, counterexample.  The file notes.csv of the total-RNA folder lacks
    the Gene_Type column, but its stem matches no grouping rule: it is
    skipped before its header is looked at, no error is raised for the
    missing column, and [load_samples] returns the rows of the other
    file. *)
Lemma missing_column_goes_unreported :
  content Examples.stray_headless_file = Some Examples.headless_frame /\
  missing_cols Examples.headless_frame = ["Gene_Type"] /\
  exists rws,
    Group.load_samples Examples.mixed_total_dir "total"
    = ([Warning_skipped "notes" "total"], inr rws).
Proof.
  split; [reflexivity|]. split; [vm_compute; reflexivity|].
  eexists. vm_compute. reflexivity.
Qed.

(** C9 (as amended).  In both depletion scripts, when the loop reaches a
    file that is read successfully and whose header lacks a required
    column (Sites or Gene_Type), [load_samples] raises the error that names
    the file and exactly the required columns its header lacks.  In
    group_proportion_style.py the loop reaches the column check only for a
    file whose stem matches a grouping rule; in FDR_proportion_plotting.py
    for every file.  ("Reaches": no earlier file of the folder raised.) *)
Theorem missing_columns_are_fatal (folder : Folder) (label : string)
    (before after : list File) (file : File) (df : DataFrame) :
  exists_ folder = true -> is_dir folder = true ->
  csv_files folder = before ++ file :: after ->
  content file = Some df ->
  missing_cols df <> [] ->
  (forall col, col ∈ missing_cols df <-> col ∈ ["Sites"; "Gene_Type"] /\ col ∉ columns df) /\
  (forall log gd target_group,
     Group.load_files label before [] [] = (log, inr gd) ->
     Group.get_group_name (stem file) label = Some target_group ->
     Group.load_samples folder label
     = (log, inl (ValueError_missing_columns (path file) (missing_cols df)))) /\
  (forall all_samples,
     FDR.load_files label before [] = inr all_samples ->
     FDR.load_samples folder label
     = inl (ValueError_missing_columns (path file) (missing_cols df))).
Proof.
  intros Hex Hdir Hfiles Hcontent Hmissing.
  split; [apply elem_of_missing_cols|]. split.
  - intros log gd g Hbefore Hgroup. unfold Group.load_samples.
    rewrite Hex, Hdir, Hfiles. cbn [negb].
    destruct (before ++ file :: after) eqn:E; [destruct before; discriminate|].
    rewrite <- E. rewrite group_load_files_app, Hbefore.
    cbn [Group.load_files]. rewrite Hgroup, Hcontent.
    destruct (missing_cols df); [contradiction|]. reflexivity.
  - intros all_samples Hbefore. unfold FDR.load_samples.
    rewrite Hex, Hdir, Hfiles. cbn [negb].
    destruct (before ++ file :: after) eqn:E; [destruct before; discriminate|].
    rewrite <- E. rewrite fdr_load_files_app, Hbefore.
    cbn [FDR.load_files]. rewrite Hcontent.
    destruct (missing_cols df); [contradiction|]. reflexivity.
Qed.

Lemma missing_columns_are_fatal_witness :
  Group.load_samples Examples.headless_total_dir "total"
  = ([], inl (ValueError_missing_columns "totalRNA/m6A_2_rep1.csv" ["Gene_Type"])) /\
  FDR.load_samples Examples.headless_total_dir "total"
  = inl (ValueError_missing_columns "totalRNA/m6A_2_rep1.csv" ["Gene_Type"]).
Proof.
  pose proof (missing_columns_are_fatal Examples.headless_total_dir "total"
                [] [Examples.total_file] Examples.headless_total_file
                Examples.headless_frame eq_refl eq_refl eq_refl eq_refl
                ltac:(vm_compute; discriminate)) as (_ & Hgroup & Hfdr).
  split.
  - exact (Hgroup [] [] "OD600=0.3" eq_refl ltac:(vm_compute; reflexivity)).
  - exact (Hfdr [] eq_refl).
Defined.


(** ** C6: the percentages of the two normalisers *)

Section Normaliser.
Local Open Scope Q_scope.

Variable fl : Q -> Q.
Hypothesis fl_rounds : rounds_to_nearest fl.

Lemma Qn_nonneg (n : nat) : 0 <= Qn n.
Proof.
  unfold Qn. change 0 with (inject_Z 0). rewrite <- Zle_Qle. lia.
Qed.

Lemma Qn_pos (n : nat) : (n <> 0)%nat -> 0 < Qn n.
Proof.
  intros H. unfold Qn. change 0 with (inject_Z 0). rewrite <- Zlt_Qlt. lia.
Qed.

Lemma Qn_add (a b : nat) : Qn (a + b) == Qn a + Qn b.
Proof. unfold Qn. rewrite Nat2Z.inj_add, inject_Z_plus. reflexivity. Qed.

Lemma Qn_le (a b : nat) : (a <= b)%nat -> Qn a <= Qn b.
Proof. intros H. unfold Qn. rewrite <- Zle_Qle. lia. Qed.

Lemma fl_enclosure (x : Q) :
  (1 # 1152921504606846976) <= x -> x <= 1024 ->
  x * (1 - unit_roundoff) <= fl x /\ fl x <= x * (1 + unit_roundoff).
Proof.
  intros Hlo Hhi. destruct fl_rounds as [_ Hr].
  specialize (Hr x Hlo Hhi). apply Qabs_Qle_condition in Hr.
  destruct Hr as [Hr1 Hr2]. unfold unit_roundoff in *. split; lra.
Qed.

Lemma ratio_bounds (count total : nat) :
  (count <> 0)%nat -> (count <= total)%nat -> (Z.of_nat total < 9007199254740992)%Z ->
  (1 # 9007199254740992) <= Qn count / Qn total /\ Qn count / Qn total <= 1.
Proof.
  intros Hc Hle Hbig.
  assert (Ht : 0 < Qn total) by (apply Qn_pos; lia).
  split.
  - apply Qle_shift_div_l; [exact Ht|].
    assert (Qn total <= inject_Z (9007199254740992)) by (unfold Qn; rewrite <- Zle_Qle; lia).
    assert (1 <= Qn count) by (change 1 with (Qn 1); apply Qn_le; lia).
    change (inject_Z 9007199254740992) with (9007199254740992 # 1) in H.
    lra.
  - apply Qle_shift_div_r; [exact Ht|].
    assert (Qn count <= Qn total) by (apply Qn_le; exact Hle). lra.
Qed.

Lemma ratio_zero (total : nat) : Qn 0 / Qn total == 0.
Proof. unfold Qdiv. change (Qn 0) with 0. lra. Qed.

Lemma percentage_enclosure (count total : nat) :
  (count <= total)%nat -> (Z.of_nat total < 9007199254740992)%Z ->
  100 * (1 - unit_roundoff) * (1 - unit_roundoff) * (Qn count / Qn total)
    <= percentage fl count total /\
  percentage fl count total
    <= 100 * (1 + unit_roundoff) * (1 + unit_roundoff) * (Qn count / Qn total).
Proof.
  intros Hle Hbig. unfold percentage. fold (Qn count) (Qn total).
  destruct (Nat.eq_dec count 0%nat) as [->|Hc].
  - destruct fl_rounds as [Hzero _].
    pose proof (ratio_zero total) as Hq.
    assert (H1 : fl (Qn 0 / Qn total) == 0) by (apply Hzero; exact Hq).
    assert (H2 : fl (fl (Qn 0 / Qn total) * 100) == 0) by (apply Hzero; lra).
    rewrite H2, Hq. lra.
  - destruct (ratio_bounds count total Hc Hle Hbig) as [Hq1 Hq2].
    set (q := Qn count / Qn total) in *.
    destruct (fl_enclosure q) as [Hy1 Hy2]; [lra | lra |].
    unfold unit_roundoff in *.
    destruct (fl_enclosure (fl q * 100)) as [Hz1 Hz2]; [lra | lra |].
    unfold unit_roundoff in *. split; lra.
Qed.

Lemma Qsum_cons (x : Q) (l : list Q) : Qsum (x :: l) = x + Qsum l.
Proof. reflexivity. Qed.

Lemma ratio_add (a b total : nat) :
  (total <> 0)%nat -> Qn (a + b) / Qn total == Qn a / Qn total + Qn b / Qn total.
Proof.
  intros Ht. rewrite Qn_add. field. apply Qn_pos in Ht. lra.
Qed.

Lemma percentage_sum_enclosure (total : nat) (cs : list nat) :
  (total <> 0)%nat -> (Z.of_nat total < 9007199254740992)%Z ->
  Forall (fun c => (c <= total)%nat) cs ->
  100 * (1 - unit_roundoff) * (1 - unit_roundoff) * (Qn (list_sum cs) / Qn total)
    <= Qsum (map (fun c => percentage fl c total) cs) /\
  Qsum (map (fun c => percentage fl c total) cs)
    <= 100 * (1 + unit_roundoff) * (1 + unit_roundoff) * (Qn (list_sum cs) / Qn total).
Proof.
  intros Ht Hbig Hall. induction Hall as [|c cs Hc Hall IH].
  - cbn [list_sum map Qsum foldr]. rewrite (ratio_zero total). lra.
  - change (list_sum (c :: cs)) with (c + list_sum cs)%nat. cbn [map].
    rewrite Qsum_cons, (ratio_add c (list_sum cs) total Ht).
    destruct (percentage_enclosure c total Hc Hbig) as [H1 H2].
    destruct IH as [IH1 IH2].
    set (a := Qn c / Qn total) in *. set (b := Qn (list_sum cs) / Qn total) in *.
    unfold unit_roundoff in *. split; lra.
Qed.

Lemma elem_le_list_sum (l : list nat) : Forall (fun c => (c <= list_sum l)%nat) l.
Proof.
  induction l as [|x l IH]; constructor;
    change (list_sum (x :: l)) with (x + list_sum l)%nat.
  - lia.
  - eapply Forall_impl; [exact IH|]. intros c Hc. cbn beta in *. lia.
Qed.

(** The percentages of one grouping key sum to 100 within 0.01. *)
Lemma percentage_sum_close (cs : list nat) :
  (list_sum cs <> 0)%nat -> (Z.of_nat (list_sum cs) < 9007199254740992)%Z ->
  Qabs (Qsum (map (fun c => percentage fl c (list_sum cs)) cs) - 100) <= 1 # 100.
Proof.
  intros Ht Hbig.
  destruct (percentage_sum_enclosure (list_sum cs) cs Ht Hbig (elem_le_list_sum cs))
    as [H1 H2].
  assert (Hone : Qn (list_sum cs) / Qn (list_sum cs) == 1).
  { field. apply Qn_pos in Ht. lra. }
  rewrite Hone in H1, H2. apply Qabs_Qle_condition.
  unfold unit_roundoff in *. split; lra.
Qed.

Lemma normalized_entry_percentage (count total : nat) :
  (total <> 0)%nat -> Region.normalized_entry fl count total = percentage fl count total.
Proof.
  intros Ht. unfold Region.normalized_entry.
  destruct (Nat.eqb_spec total 0) as [?|_]; [contradiction|]. reflexivity.
Qed.

Lemma normalized_at_formula (lc : Region.layer_counts) (idx : nat) :
  (idx < length Region.region_order)%nat ->
  normalized_at fl lc idx
  = map (fun l => Region.normalized_entry fl (default 0%nat (snd l !! idx))
                                          (Region.total_at lc idx))
        (Region.layers lc).
Proof.
  intros Hidx. unfold normalized_at, Region.normalized. rewrite map_map.
  apply map_ext. intros l. cbn [snd].
  rewrite lookup_map, lookup_seq_lt by exact Hidx. reflexivity.
Qed.

Lemma filter_group_map (g : string) (h : string * string * nat -> Q)
    (l : list (string * string * nat)) :
  List.filter (fun r : string * string * Q => bool_decide (fst (fst r) = g))
              (map (fun r => (fst r, h r)) l)
  = map (fun r => (fst r, h r))
        (List.filter (fun r : string * string * nat => bool_decide (fst (fst r) = g)) l).
Proof.
  induction l as [|r l IH]; [reflexivity|].
  cbn [map List.filter fst]. destruct (bool_decide (fst (fst r) = g));
    cbn [map]; rewrite IH; reflexivity.
Qed.

Lemma group_percentages_formula (all_data : list Group.sample) (g : string) :
  group_percentages fl all_data g
  = map (fun c => percentage fl c (Group.total_counts (Group.counts all_data) g))
        (map snd (List.filter (fun r => bool_decide (fst (fst r) = g))
                              (Group.counts all_data))).
Proof.
  unfold group_percentages, Group.percentages.
  rewrite filter_group_map, !map_map.
  apply map_ext_in. intros r Hr. cbn [snd]. apply filter_In in Hr.
  destruct Hr as [_ Hg]. apply bool_decide_eq_true in Hg. rewrite Hg. reflexivity.
Qed.

Lemma counts_positive (all_data : list Group.sample) (r : string * string * nat) :
  In r (Group.counts all_data) -> (1 <= snd r)%nat.
Proof.
  unfold Group.counts. intros Hr. apply in_map_iff in Hr.
  destruct Hr as (k & <- & Hk). cbn [snd].
  apply list_elem_of_In, elem_of_remove_dups, list_elem_of_In, in_map_iff in Hk.
  destruct Hk as (s & Hs & Hin).
  assert (Hf : In s (List.filter (fun s => bool_decide (Group.key_of s = k)) all_data)).
  { apply filter_In. split; [exact Hin|]. apply bool_decide_eq_true. exact Hs. }
  destruct (List.filter _ all_data); [contradiction|]. cbn [length]. lia.
Qed.

Lemma total_counts_positive (all_data : list Group.sample) (g : string) :
  (exists s, In s all_data /\ Group.group s = g) ->
  (Group.total_counts (Group.counts all_data) g <> 0)%nat.
Proof.
  intros (s & Hin & Hg). unfold Group.total_counts.
  set (r := (Group.key_of s,
             length (List.filter (fun s' => bool_decide (Group.key_of s' = Group.key_of s))
                                 all_data))).
  assert (Hr : In r (Group.counts all_data)).
  { unfold Group.counts. apply in_map_iff. exists (Group.key_of s). split; [reflexivity|].
    apply list_elem_of_In, elem_of_remove_dups, list_elem_of_In, in_map. exact Hin. }
  assert (Hrf : In r (List.filter (fun r => bool_decide (fst (fst r) = g))
                                  (Group.counts all_data))).
  { apply filter_In. split; [exact Hr|]. apply bool_decide_eq_true. exact Hg. }
  pose proof (counts_positive all_data r Hr) as Hpos.
  apply (in_map snd) in Hrf.
  pose proof (elem_le_list_sum
                (map snd (List.filter (fun r => bool_decide (fst (fst r) = g))
                                      (Group.counts all_data)))) as Hle.
  rewrite Forall_forall in Hle. specialize (Hle (snd r)).
  rewrite list_elem_of_In in Hle. specialize (Hle Hrf). lia.
Qed.

End Normaliser.

(** The rows of the pivot table, and the row a group gets from
    [reindex]. *)
Lemma find_by_key {K V : Type} `{EqDecision K} (h : K -> V) (k0 : K) (ks : list K) :
  List.find (fun r : K * V => bool_decide (fst r = k0)) (map (fun k => (k, h k)) ks)
  = if bool_decide (k0 ∈ ks) then Some (k0, h k0) else None.
Proof.
  induction ks as [|k ks IH]; [reflexivity|]. cbn [map List.find fst].
  destruct (bool_decide (k = k0)) eqn:E.
  - apply bool_decide_eq_true in E. subst k.
    rewrite bool_decide_eq_true_2 by apply list_elem_of_here. reflexivity.
  - apply bool_decide_eq_false in E. rewrite IH.
    destruct (bool_decide (k0 ∈ ks)) eqn:E2.
    + apply bool_decide_eq_true in E2.
      rewrite bool_decide_eq_true_2 by (apply list_elem_of_further; exact E2). reflexivity.
    + apply bool_decide_eq_false in E2. rewrite bool_decide_eq_false_2; [reflexivity|].
      intros Hin. apply elem_of_cons in Hin. destruct Hin as [?|?]; [congruence|contradiction].
Qed.

Lemma elem_of_pivot_index (all_data : list Group.sample) (g : string) :
  g ∈ Group.pivot_index all_data <-> exists s, s ∈ all_data /\ Group.group s = g.
Proof.
  unfold Group.pivot_index. rewrite merge_sort_Permutation, elem_of_remove_dups.
  rewrite list_elem_of_In, in_map_iff. setoid_rewrite list_elem_of_In. split.
  - intros (s & Hs & Hin). eauto.
  - intros (s & Hin & Hs). eauto.
Qed.

Lemma find_pivot_row (fl : Q -> Q) (all_data : list Group.sample) (g : string) :
  List.find (fun r => bool_decide (fst r = g)) (Group.pivot_data fl all_data)
  = if bool_decide (g ∈ Group.pivot_index all_data)
    then Some (g, map (Group.pivot_cell fl all_data g) (Group.pivot_columns all_data))
    else None.
Proof.
  unfold Group.pivot_data.
  apply (find_by_key (fun g => map (Group.pivot_cell fl all_data g)
                                   (Group.pivot_columns all_data)) g).
Qed.

Lemma group_percentages_absent (fl : Q -> Q) (all_data : list Group.sample) (g : string) :
  (forall s, In s all_data -> Group.group s <> g) ->
  group_percentages fl all_data g = [].
Proof.
  intros Hno. rewrite group_percentages_formula.
  destruct (List.filter (fun r : string * string * nat => bool_decide (fst (fst r) = g))
                        (Group.counts all_data)) as [|r l] eqn:E; [reflexivity|].
  exfalso.
  assert (Hr : In r (List.filter (fun r : string * string * nat =>
                                    bool_decide (fst (fst r) = g))
                                 (Group.counts all_data)))
    by (rewrite E; left; reflexivity).
  apply filter_In in Hr. destruct Hr as [Hr Hg]. apply bool_decide_eq_true in Hg.
  unfold Group.counts in Hr. apply in_map_iff in Hr. destruct Hr as (k & <- & Hk).
  apply list_elem_of_In, elem_of_remove_dups, list_elem_of_In, in_map_iff in Hk.
  destruct Hk as (s0 & <- & Hin). exact (Hno s0 Hin Hg).
Qed.

(** C6 (as amended).  With doubles that round to nearest and counts below
    2^53: each percentage is the rounded [count / total * 100]; in the
    region variant every entry of a category whose total is zero is exactly
    0, and the entries of a category whose total is not zero sum to 100
    within 0.01; in the depletion variant the total of a group that occurs
    is never zero and the percentages of the group sum to 100 within 0.01.
    A group whose total is zero is a group without rows: the count table
    holds no percentage for it, and if it is a group of [group_order] its
    row of the plotted table is NaN in every column, not 0. *)
Theorem percentages_normalised (fl : Q -> Q) :
  rounds_to_nearest fl ->
  (forall (lc : Region.layer_counts) (idx : nat),
     (idx < length Region.region_order)%nat ->
     normalized_at fl lc idx
     = map (fun l => Region.normalized_entry fl (default 0%nat (snd l !! idx))
                                             (Region.total_at lc idx))
           (Region.layers lc) /\
     (Region.total_at lc idx = 0%nat ->
        Forall (fun p : Q => p = 0%Q) (normalized_at fl lc idx)) /\
     (Region.total_at lc idx <> 0%nat ->
      (Z.of_nat (Region.total_at lc idx) < 9007199254740992)%Z ->
        normalized_at fl lc idx
        = map (fun l => percentage fl (default 0%nat (snd l !! idx)) (Region.total_at lc idx))
              (Region.layers lc) /\
        (Qabs (Qsum (normalized_at fl lc idx) - 100) <= 1 # 100)%Q)) /\
  (forall (all_data : list Group.sample) (g : string),
     (exists s, In s all_data /\ Group.group s = g) ->
     (Z.of_nat (Group.total_counts (Group.counts all_data) g) < 9007199254740992)%Z ->
     Group.total_counts (Group.counts all_data) g <> 0%nat /\
     group_percentages fl all_data g
     = map (fun c => percentage fl c (Group.total_counts (Group.counts all_data) g))
           (map snd (List.filter (fun r => bool_decide (fst (fst r) = g))
                                 (Group.counts all_data))) /\
     (Qabs (Qsum (group_percentages fl all_data g) - 100) <= 1 # 100)%Q) /\
  (forall (all_data : list Group.sample) (g : string),
     Group.total_counts (Group.counts all_data) g = 0%nat ->
     (forall s, In s all_data -> Group.group s <> g) /\
     group_percentages fl all_data g = [] /\
     (g ∈ Group.group_order ->
      (g, map (fun _ => None) (Group.pivot_columns all_data))
        ∈ Group.reindexed fl all_data) /\
     (forall cells : list (option Q),
        (g, cells) ∈ Group.reindexed fl all_data ->
        cells = map (fun _ => None) (Group.pivot_columns all_data))).
Proof.
  intros Hfl. split; [|split].
  - intros lc idx Hidx.
    pose proof (normalized_at_formula fl lc idx Hidx) as Hformula.
    split; [exact Hformula|]. split.
    + intros Hzero. rewrite Hformula, Hzero. apply Forall_forall. intros p Hp.
      apply list_elem_of_In, in_map_iff in Hp. destruct Hp as (l & <- & _). reflexivity.
    + intros Hne Hbig.
      assert (Hpct : normalized_at fl lc idx
        = map (fun l => percentage fl (default 0%nat (snd l !! idx)) (Region.total_at lc idx))
              (Region.layers lc)).
      { rewrite Hformula. apply map_ext. intros l.
        apply normalized_entry_percentage. exact Hne. }
      split; [exact Hpct|].
      rewrite Hpct.
      rewrite <- (map_map (fun l => default 0%nat (snd l !! idx))
                          (fun c => percentage fl c (Region.total_at lc idx))).
      apply (percentage_sum_close fl Hfl); assumption.
  - intros all_data g Hocc Hbig.
    pose proof (total_counts_positive all_data g Hocc) as Hpos.
    pose proof (group_percentages_formula fl all_data g) as Hformula.
    split; [exact Hpos|]. split; [exact Hformula|].
    rewrite Hformula. apply (percentage_sum_close fl Hfl); assumption.
  - intros all_data g Hzero.
    assert (Hno : forall s, In s all_data -> Group.group s <> g).
    { intros s0 Hin Hg. apply (total_counts_positive all_data g); eauto. }
    assert (Hrow : forall g' : string,
              g' = g ->
              match List.find (fun r => bool_decide (fst r = g')) (Group.pivot_data fl all_data)
              with
              | Some r => map Some (snd r)
              | None => map (fun _ => None) (Group.pivot_columns all_data)
              end = map (fun _ => None) (Group.pivot_columns all_data)).
    { intros g' ->. rewrite find_pivot_row. rewrite bool_decide_eq_false_2; [reflexivity|].
      rewrite elem_of_pivot_index. intros (s0 & Hs0 & Hg).
      apply list_elem_of_In in Hs0. exact (Hno s0 Hs0 Hg). }
    split; [exact Hno|]. split; [apply group_percentages_absent; exact Hno|]. split.
    + intros Hg. unfold Group.reindexed. apply list_elem_of_In, in_map_iff.
      exists g. split; [|apply list_elem_of_In; exact Hg].
      rewrite (Hrow g eq_refl). reflexivity.
    + intros cells Hin. unfold Group.reindexed in Hin.
      apply list_elem_of_In, in_map_iff in Hin. destruct Hin as (g' & [= Hg' <-] & _).
      apply Hrow. exact Hg'.
Qed.

Lemma exact_arithmetic_rounds : rounds_to_nearest (fun x : Q => x).
Proof.
  split.
  - intros x Hx. exact Hx.
  - intros x Hlo _. apply Qabs_Qle_condition. unfold unit_roundoff. split; lra.
Qed.

(** C6, counterexample.  The total-RNA folder holds one file of the group
    OD600=0.3 and the depleted folder one file of the group
    OD600=0.3(-rRNA).  [main] loads their four rows and hands them to
    [plot_rna_distribution].  The group OD600=1 of [group_order] has no row:
    its total is zero, and its row of the plotted table is NaN in both
    columns, mRNA and ncRNA, where the sentence asks for 0. *)
Lemma absent_group_row_is_nan :
  exists all_data : list Group.sample,
    snd (Group.main Examples.mixed_total_dir Examples.removed_dir) = inr all_data /\
    "OD600=1" ∈ Group.group_order /\
    Group.total_counts (Group.counts all_data) "OD600=1" = 0%nat /\
    Group.pivot_columns all_data = ["mRNA"; "ncRNA"] /\
    ("OD600=1", [None; None]) ∈ Group.reindexed (fun x : Q => x) all_data /\
    ~ zero_total_gives_zero_percentages.
Proof.
  eexists. split; [vm_compute; reflexivity|].
  match goal with
  | |- _ /\ _ /\ _ /\ ?R ∈ Group.reindexed ?f ?d /\ _ =>
      assert (Hrow : R ∈ Group.reindexed f d)
        by (apply list_elem_of_In; vm_compute; right; right; right; left; reflexivity);
      assert (Hzero : Group.total_counts (Group.counts d) "OD600=1" = 0%nat)
        by (vm_compute; reflexivity)
  end.
  split; [vm_compute; repeat first [apply list_elem_of_here | apply list_elem_of_further]|].
  split; [exact Hzero|]. split; [vm_compute; reflexivity|]. split; [exact Hrow|].
  intros Hclaim. specialize (Hclaim _ _ _ _ Hzero Hrow).
  apply Forall_cons in Hclaim. destruct Hclaim as [(p & Hp & _) _]. discriminate.
Qed.

Lemma percentages_normalised_witness :
  (Qabs (Qsum (normalized_at (fun x : Q => x) Examples.sample_counts 0) - 100) <= 1 # 100)%Q.
Proof.
  refine (proj2 (proj2 (proj2 (proj1 (percentages_normalised (fun x : Q => x)
            exact_arithmetic_rounds) Examples.sample_counts 0%nat _)) _ _)).
  - cbn. lia.
  - vm_compute. discriminate.
  - vm_compute. reflexivity.
Defined.

(** * Further properties of the code around the claims *)

(** ** Further properties of the region classifier and the site loader *)

Lemma lower_char_idempotent (c : ascii) : Py.lower_char (Py.lower_char c) = Py.lower_char c.
Proof. destruct c as [[] [] [] [] [] [] [] []]; reflexivity. Qed.

Lemma lower_idempotent (s : string) : Py.lower (Py.lower s) = Py.lower s.
Proof.
  induction s as [|c s IH]; [reflexivity|].
  cbn [Py.lower]. rewrite lower_char_idempotent, IH. reflexivity.
Qed.

Lemma parse_region_range (gene_type gene_name : string) :
  Region.parse_region gene_type gene_name ∈ Region.region_order ++ ["Other"].
Proof.
  unfold Region.parse_region.
  repeat match goal with
         | |- context [if ?b then _ else _] => destruct b
         end;
    cbn [Region.region_order app];
    repeat first [apply list_elem_of_here | apply list_elem_of_further].
Qed.

(** X1.  [parse_region] looks only at the lowercased labels: labels that
    differ in letter case alone are classified alike, and lowercasing them
    beforehand changes nothing.  Its result is one of the five categories of
    [region_order] or "Other". *)
Theorem parse_region_case_insensitive (gene_type gene_name : string) :
  Region.parse_region (Py.lower gene_type) (Py.lower gene_name)
    = Region.parse_region gene_type gene_name /\
  (forall gene_type' gene_name' : string,
     Py.lower gene_type' = Py.lower gene_type ->
     Py.lower gene_name' = Py.lower gene_name ->
     Region.parse_region gene_type' gene_name' = Region.parse_region gene_type gene_name) /\
  Region.parse_region gene_type gene_name ∈ Region.region_order ++ ["Other"].
Proof.
  split; [|split].
  - unfold Region.parse_region. rewrite !lower_idempotent. reflexivity.
  - intros t' n' Ht Hn. unfold Region.parse_region. rewrite Ht, Hn. reflexivity.
  - apply parse_region_range.
Qed.

Lemma parse_region_case_insensitive_witness :
  Region.parse_region "TRNA" "GeneA" = Region.parse_region "tRNA" "genea".
Proof.
  refine (proj1 (proj2 (parse_region_case_insensitive "tRNA" "genea")) "TRNA" "GeneA" _ _);
    reflexivity.
Defined.

Lemma last_entry_In (s : string) (es : list entry) (v : string * string) :
  last_entry s es = Some v -> (s, v) ∈ es.
Proof.
  unfold last_entry. intros H.
  destruct (last (filter (fun e : entry => fst e = s) es)) as [e|] eqn:E; [|discriminate].
  cbn in H. injection H as <-.
  apply last_Some_elem_of in E. apply list_elem_of_filter in E. destruct E as [Hs He].
  destruct e as [s' v']. cbn in *. subst s'. exact He.
Qed.

Lemma entries_from_region (cols gtc gnc : list string) (rna_col : string)
    (rws : list (list cell)) :
  forall (name : nat) (e : entry),
    e ∈ entries_from cols gtc gnc rna_col name rws ->
    fst (snd e) ∈ Region.region_order ++ ["Other"].
Proof.
  induction rws as [|row rest IH]; intros name e He; cbn [entries_from] in He.
  - apply elem_of_nil in He. contradiction.
  - destruct (row_entry cols gtc gnc rna_col name row) as [e0|] eqn:E.
    + apply elem_of_cons in He. destruct He as [->|He]; [|eapply IH; exact He].
      unfold row_entry in E.
      destruct (notna_cells cols row gtc) as [|gt ?]; [discriminate|].
      destruct (notna_cells cols row gnc) as [|gn ?]; [discriminate|].
      destruct (site_id_of cols row); [|discriminate]. cbn [mbind option_bind] in E.
      destruct (getitem cols row rna_col); [|discriminate]. cbn [mbind option_bind] in E.
      injection E as <-. cbn [fst snd]. apply parse_region_range.
    + eapply IH. exact He.
Qed.

(** X2.  Every region [process_sites_file] stores is one of the five
    categories of [region_order] or "Other": no site carries any other
    label, whatever the file holds. *)
Theorem process_sites_file_regions (df : DataFrame)
    (site_regions site_to_rna : gmap string string) (s region : string) :
  Region.process_sites_file df = Some (site_regions, site_to_rna) ->
  site_regions !! s = Some region ->
  region ∈ Region.region_order ++ ["Other"].
Proof.
  unfold Region.process_sites_file.
  destruct (Region.rna_id_col (columns df)) as [rna_col|]; [|discriminate].
  cbn [mbind option_bind]. intros H Hs.
  apply iterrows_spec in H. destruct H as (_ & Hreg & _). cbn [fst] in Hreg.
  rewrite Hreg in Hs.
  destruct (last_entry s _) as [v|] eqn:E.
  - injection Hs as <-. apply last_entry_In in E.
    apply (entries_from_region _ _ _ _ _ _ _ E).
  - rewrite lookup_empty in Hs. discriminate.
Qed.

Lemma process_sites_file_regions_witness :
  "ncRNA" ∈ Region.region_order ++ ["Other"].
Proof.
  refine (process_sites_file_regions Examples.scenario_A
            Examples.scenario_A_regions Examples.scenario_A_rna "c:20" "ncRNA" _ _).
  - vm_compute. reflexivity.
  - vm_compute. reflexivity.
Defined.


Lemma index_of_Some_elem (col : string) (cols : list string) (i : nat) :
  index_of col cols = Some i -> col ∈ cols.
Proof.
  revert i. induction cols as [|c cols IH]; intros i; cbn [index_of]; [discriminate|].
  destruct (bool_decide (c = col)) eqn:E.
  - apply bool_decide_eq_true in E. subst c. intros _. apply list_elem_of_here.
  - destruct (index_of col cols) as [j|]; [|discriminate].
    intros _. apply list_elem_of_further. eapply IH. reflexivity.
Qed.

Lemma getitem_Some_elem (cols : list string) (row : list cell) (col : string) :
  is_Some (getitem cols row col) <-> col ∈ cols.
Proof.
  split; [|apply getitem_is_Some].
  unfold getitem. intros [c H]. destruct (index_of col cols) as [i|] eqn:E; [|discriminate].
  eapply index_of_Some_elem. exact E.
Qed.

Lemma rna_id_col_is_Some (cols : list string) :
  is_Some (Region.rna_id_col cols) <-> "RNA_ID" ∈ cols \/ 3 <= length cols.
Proof.
  unfold Region.rna_id_col. destruct (bool_decide ("RNA_ID" ∈ cols)) eqn:E.
  - apply bool_decide_eq_true in E. split; [auto | eauto].
  - apply bool_decide_eq_false in E. rewrite lookup_lt_is_Some. split.
    + intros H. right. lia.
    + intros [H|H]; [contradiction | lia].
Qed.

(** X3.  [process_sites_file] fails in two ways only: the [IndexError] of
    [df.columns[2]] when the header has no RNA_ID column and fewer than
    three columns (even for a file without rows), and the [KeyError] of
    [row['Chr']] or [row['Sites']] when the file has a row and its header
    lacks one of these columns.  In every other case it returns its two
    dictionaries. *)
Theorem process_sites_file_succeeds_iff (df : DataFrame) :
  is_Some (Region.process_sites_file df) <->
  ("RNA_ID" ∈ columns df \/ 3 <= length (columns df)) /\
  (rows df = [] \/ ("Chr" ∈ columns df /\ "Sites" ∈ columns df)).
Proof.
  split.
  - intros Hsome. assert (Hrna : is_Some (Region.rna_id_col (columns df))).
    { unfold Region.process_sites_file in Hsome.
      destruct (Region.rna_id_col (columns df)); [eauto|].
      destruct Hsome as [? ?]; discriminate. }
    split; [apply rna_id_col_is_Some; exact Hrna|].
    destruct Hrna as [rna_col Hrna]. unfold Region.process_sites_file in Hsome.
    rewrite Hrna in Hsome. cbn [mbind option_bind] in Hsome.
    destruct (rows df) as [|row rest]; [left; reflexivity|]. right.
    cbn [Region.iterrows] in Hsome. unfold Region.process_row in Hsome.
    destruct (getitem (columns df) row "Chr") as [chr|] eqn:Hchr;
      [|destruct Hsome as [? ?]; discriminate].
    cbn [mbind option_bind] in Hsome.
    destruct (getitem (columns df) row "Sites") as [sites|] eqn:Hsites;
      [|destruct Hsome as [? ?]; discriminate].
    split; eapply getitem_Some_elem; eauto.
  - intros [Hrna Hrows]. destruct Hrows as [Hnil|[Hchr Hsites]].
    + apply rna_id_col_is_Some in Hrna. destruct Hrna as [rna_col Hrna].
      unfold Region.process_sites_file. rewrite Hrna, Hnil. eexists. reflexivity.
    + apply process_sites_file_total; assumption.
Qed.

(** A header of two columns: [df.columns[2]] raises although no row is read. *)
Example process_sites_file_short_header :
  Region.process_sites_file {| columns := ["Chr"; "Sites"]; rows := []; numeric := [] |} = None.
Proof. reflexivity. Qed.


(** ** The composite site identifier *)

Lemma split_first_component (sep : ascii) (a b : string) :
  Py.contains (String sep EmptyString) a = false ->
  Py.first (Py.split sep (a +:+ String sep b)) = a.
Proof.
  induction a as [|c a IH].
  - intros _. rewrite append_nil_l. cbn [Py.split]. rewrite Ascii.eqb_refl. reflexivity.
  - cbn [Py.contains Py.startswith]. rewrite orb_false_iff. intros [Hc Ha].
    rewrite append_cons. cbn [Py.split].
    destruct (Ascii.eqb_spec sep c) as [->|Hne]; [discriminate|].
    destruct (Ascii.eqb_spec c sep) as [->|_]; [contradiction|].
    specialize (IH Ha). unfold Py.first in *.
    destruct (Py.split sep (a +:+ String sep b)) as [|x xs].
    + cbn [hd] in *. subst a. reflexivity.
    + cbn [hd] in *. subst x. reflexivity.
Qed.

Lemma no_separator_suffix (sep : ascii) (r s : string) :
  Py.contains (String sep EmptyString) s = false -> s <> r +:+ String sep s.
Proof.
  intros Hno Heq. apply contains_false in Hno. apply Hno.
  exists r, s. exact Heq.
Qed.

Lemma site_id_injective (chr chr' sites : string) :
  Py.contains ":" sites = false ->
  chr +:+ ":" +:+ sites = chr' +:+ ":" +:+ sites -> chr = chr'.
Proof.
  intros Hno. revert chr'. induction chr as [|c chr IH]; intros [|c' chr'] H.
  - reflexivity.
  - rewrite append_nil_l, append_cons in H.
    change (":" +:+ sites) with (String ":" sites) in H. injection H as _ H.
    exfalso. exact (no_separator_suffix ":" chr' sites Hno H).
  - rewrite append_nil_l, append_cons in H.
    change (":" +:+ sites) with (String ":" sites) in H. injection H as _ H.
    exfalso. exact (no_separator_suffix ":" chr sites Hno (eq_sym H)).
  - rewrite !append_cons in H. injection H as -> H. f_equal. apply IH. exact H.
Qed.

(** X4.  The composite identifier [f"{Chr}:{Sites}"] can be taken apart
    again: for a Sites value without a colon, [split(':')[-1]] (the position
    [main] matches on) is the Sites value, and two identifiers are equal
    only if both their Chr and their Sites values are; for a Chr value
    without a colon, [split(':')[0]] (the prefix of the fallback RNA id) is
    the Chr value. *)
Theorem site_id_components (chr sites : string) :
  Py.contains ":" sites = false ->
  position (chr +:+ ":" +:+ sites) = sites /\
  (Py.contains ":" chr = false ->
     Py.first (Py.split ":" (chr +:+ ":" +:+ sites)) = chr) /\
  (forall chr' sites' : string,
     Py.contains ":" sites' = false ->
     chr +:+ ":" +:+ sites = chr' +:+ ":" +:+ sites' ->
     chr = chr' /\ sites = sites').
Proof.
  intros Hsites. split; [apply position_of_site_id; exact Hsites|]. split.
  - intros Hchr. apply (split_first_component ":" chr sites Hchr).
  - intros chr' sites' Hsites' Heq.
    assert (Hs : sites = sites').
    { rewrite <- (position_of_site_id chr sites Hsites),
              <- (position_of_site_id chr' sites' Hsites'), Heq. reflexivity. }
    subst sites'. split; [|reflexivity].
    apply (site_id_injective chr chr' sites Hsites Heq).
Qed.

Lemma site_id_components_witness :
  position ("chr1" +:+ ":" +:+ "20") = "20" /\
  Py.first (Py.split ":" ("chr1" +:+ ":" +:+ "20")) = "chr1".
Proof.
  pose proof (site_id_components "chr1" "20" eq_refl) as (Hpos & Hfirst & _).
  split; [exact Hpos | exact (Hfirst eq_refl)].
Defined.

(** ** Further properties of the grouping rules *)

Ltac prefix_clash :=
  match goal with
  | H1 : Prefix ?p ?s, H2 : Prefix ?q ?s |- _ =>
      destruct H1 as [rest1 H1]; destruct H2 as [rest2 H2];
      rewrite H1 in H2; vm_compute in H2; discriminate H2
  end.

Ltac pick_prefix H :=
  repeat (apply elem_of_cons in H; destruct H as [H|H]; [subst|]);
  try (apply elem_of_nil in H; contradiction).

(** X8.  The configured grouping rules are unambiguous: no stem matches
    two different rules of the same folder role, so the order of the rules
    never decides which group a file joins. *)
Theorem grouping_rules_unambiguous (file_name folder_type : string)
    (i j : nat) (r1 r2 : Group.rule) :
  Group.grouping_rules !! i = Some r1 ->
  Group.grouping_rules !! j = Some r2 ->
  Applies file_name folder_type r1 ->
  Applies file_name folder_type r2 ->
  i = j.
Proof.
  intros Hi Hj [Hrole1 (p1 & Hp1 & Hpre1)] [Hrole2 (p2 & Hp2 & Hpre2)].
  destruct i as [|[|[|[|i]]]]; cbn in Hi; try discriminate; injection Hi as <-;
    destruct j as [|[|[|[|j]]]]; cbn in Hj; try discriminate; injection Hj as <-;
    try reflexivity; cbn [fst snd] in *;
    try (exfalso; congruence);
    exfalso; pick_prefix Hp1; pick_prefix Hp2; prefix_clash.
Qed.

Lemma grouping_rules_unambiguous_witness : 0 = 0.
Proof.
  refine (grouping_rules_unambiguous "m6A_03_rep1" "removed" 0 0
            ("removed", ["m6A_03"], "OD600=0.3(-rRNA)")
            ("removed", ["m6A_03"], "OD600=0.3(-rRNA)") eq_refl eq_refl _ _).
  - split; [reflexivity|]. exists "m6A_03". split; [apply list_elem_of_here|].
    exists "_rep1". reflexivity.
  - split; [reflexivity|]. exists "m6A_03". split; [apply list_elem_of_here|].
    exists "_rep1". reflexivity.
Defined.

Lemma get_group_name_rule (file_name folder_type g : string) :
  Group.get_group_name file_name folder_type = Some g ->
  exists r, r ∈ Group.grouping_rules /\ fst (fst r) = folder_type /\ snd r = g.
Proof.
  intros H. apply get_group_name_in_Some in H.
  destruct H as (earlier & r & later & Hrules & _ & [Hrole _] & Hg).
  exists r. split; [|auto]. rewrite Hrules. apply elem_of_app. right. apply list_elem_of_here.
Qed.

(** X9.  Every group [get_group_name] assigns is one of the four columns
    of the chart ([group_order]), and it tells the folder role: the two
    "(-rRNA)" groups are assigned under role "removed" only, the other two
    under role "total" only; under any other role no stem matches. *)
Theorem get_group_name_range (file_name folder_type g : string) :
  Group.get_group_name file_name folder_type = Some g ->
  g ∈ Group.group_order /\
  ((folder_type = "removed" /\ (g = "OD600=0.3(-rRNA)" \/ g = "OD600=1(-rRNA)")) \/
   (folder_type = "total" /\ (g = "OD600=0.3" \/ g = "OD600=1"))).
Proof.
  intros H. destruct (get_group_name_rule _ _ _ H) as (r & Hr & Hrole & Hg).
  unfold Group.grouping_rules in Hr.
  repeat (apply elem_of_cons in Hr; destruct Hr as [->|Hr]);
    try (apply elem_of_nil in Hr; contradiction);
    cbn [fst snd] in *; subst; (split; [|tauto]);
    unfold Group.group_order;
    repeat first [apply list_elem_of_here | apply list_elem_of_further].
Qed.

Lemma get_group_name_range_witness : "OD600=0.3(-rRNA)" ∈ Group.group_order.
Proof.
  refine (proj1 (get_group_name_range "m6A_03_rep1" "removed" "OD600=0.3(-rRNA)" _)).
  vm_compute. reflexivity.
Defined.


(** ** Further properties of the set reconciler *)

Lemma shared_rna_swap (sites_37_rna sites_45_rna : gmap string string) :
  Region.shared_rna sites_37_rna sites_45_rna = Region.shared_rna sites_45_rna sites_37_rna.
Proof.
  unfold Region.shared_rna, Region.rna_37, Region.rna_45. apply set_eq. intros x.
  rewrite !elem_of_intersection. tauto.
Qed.

Lemma shared_site_swap (sites_37_regions sites_37_rna sites_45_rna : gmap string string) :
  Region.shared_site_37 sites_37_regions sites_37_rna sites_45_rna
  = Region.shared_site_45 sites_45_rna sites_37_regions sites_37_rna.
Proof.
  unfold Region.shared_site_37, Region.shared_site_45.
  rewrite (shared_rna_swap sites_37_rna sites_45_rna). reflexivity.
Qed.

Lemma shared_mod_sites_swap
    (sites_37_regions sites_37_rna sites_45_regions sites_45_rna : gmap string string) :
  Region.shared_mod_sites sites_37_regions sites_37_rna sites_45_regions sites_45_rna
  = Region.shared_mod_sites sites_45_regions sites_45_rna sites_37_regions sites_37_rna.
Proof.
  apply set_eq. intros s. rewrite !elem_of_shared_mod_sites.
  split; intros (a & b & Ha & Hb & Hm & Hs); exists b, a.
  - rewrite shared_site_swap in Ha. rewrite <- shared_site_swap in Hb.
    apply sites_match_spec in Hm. destruct Hm as [Hp Hr].
    split; [exact Hb|]. split; [exact Ha|]. split; [|tauto].
    apply sites_match_spec. split; congruence.
  - rewrite shared_site_swap in Ha. rewrite <- shared_site_swap in Hb.
    apply sites_match_spec in Hm. destruct Hm as [Hp Hr].
    split; [exact Hb|]. split; [exact Ha|]. split; [|tauto].
    apply sites_match_spec. split; congruence.
Qed.

(** X5.  Exchanging the two conditions leaves the shared-site set as it
    is and exchanges the four unique strata: what was counted as
    mod_unique37 / unique_37 is counted as mod_unique45 / unique_45 and the
    other way round, for every category. *)
Theorem strata_swap
    (sites_37_regions sites_37_rna sites_45_regions sites_45_rna : gmap string string)
    (region : string) :
  Region.shared_mod_sites sites_37_regions sites_37_rna sites_45_regions sites_45_rna
  = Region.shared_mod_sites sites_45_regions sites_45_rna sites_37_regions sites_37_rna /\
  Region.count_mod_unique37 sites_45_regions sites_45_rna sites_37_rna region
  = Region.count_mod_unique45 sites_37_rna sites_45_regions sites_45_rna region /\
  Region.count_mod_unique45 sites_45_rna sites_37_regions sites_37_rna region
  = Region.count_mod_unique37 sites_37_regions sites_37_rna sites_45_rna region /\
  Region.count_unique_37 sites_45_regions sites_45_rna sites_37_regions sites_37_rna region
  = Region.count_unique_45 sites_37_regions sites_37_rna sites_45_regions sites_45_rna region /\
  Region.count_unique_45 sites_45_regions sites_45_rna sites_37_regions sites_37_rna region
  = Region.count_unique_37 sites_37_regions sites_37_rna sites_45_regions sites_45_rna region.
Proof.
  split; [apply shared_mod_sites_swap|].
  split; [reflexivity|]. split; [reflexivity|]. split.
  - unfold Region.count_unique_37, Region.count_unique_45.
    rewrite shared_site_swap,
      (shared_mod_sites_swap sites_45_regions sites_45_rna sites_37_regions sites_37_rna).
    reflexivity.
  - unfold Region.count_unique_37, Region.count_unique_45.
    rewrite <- shared_site_swap,
      (shared_mod_sites_swap sites_45_regions sites_45_rna sites_37_regions sites_37_rna).
    reflexivity.
Qed.

Lemma filter_none_size {P : string -> Prop} `{!forall x, Decision (P x)} (X : gset string) :
  (forall x, x ∈ X -> ~ P x) -> size (filter P X) = 0.
Proof.
  intros Hno. apply size_empty_iff. intros x. rewrite elem_of_filter. split.
  - intros [HP Hx]. exfalso. exact (Hno x Hx HP).
  - intros Hx. apply not_elem_of_empty in Hx. contradiction.
Qed.

Lemma filter_ext_size {P Q : string -> Prop}
    `{!forall x, Decision (P x)} `{!forall x, Decision (Q x)} (X : gset string) :
  (forall x, x ∈ X -> (P x <-> Q x)) -> size (filter P X) = size (filter Q X).
Proof.
  intros Hext. f_equal. apply set_eq. intros x. rewrite !elem_of_filter.
  split; intros [HP Hx]; (split; [apply (Hext x Hx); exact HP | exact Hx]).
Qed.

Lemma shared_mod_sites_subseteq
    (sites_37_regions sites_37_rna sites_45_regions sites_45_rna : gmap string string) :
  Region.shared_mod_sites sites_37_regions sites_37_rna sites_45_regions sites_45_rna
  ⊆ Region.shared_site_37 sites_37_regions sites_37_rna sites_45_rna
    ∪ Region.shared_site_45 sites_37_rna sites_45_regions sites_45_rna.
Proof.
  intros s Hs. apply elem_of_shared_mod_sites in Hs.
  destruct Hs as (a & b & Ha & Hb & _ & [->| ->]); apply elem_of_union; auto.
Qed.

Lemma zeros_map {A : Type} (f : A -> nat) (l : list A) :
  (forall x, f x = 0) -> map f l = map (fun _ => 0) l.
Proof. intros H. apply map_ext. exact H. Qed.

(** X6.  When condition B has no recorded site, no transcript is shared:
    the shared-site set is empty, the strata unique_37, shared, unique_45
    and mod_unique45 are zero for every category, and mod_unique37 counts
    every site of A of the category. *)
Theorem empty_condition_strata (file1 : DataFrame)
    (sites_37_regions sites_37_rna : gmap string string) :
  Region.process_sites_file file1 = Some (sites_37_regions, sites_37_rna) ->
  Region.shared_mod_sites sites_37_regions sites_37_rna ∅ ∅ = ∅ /\
  Region.count_layers sites_37_regions sites_37_rna ∅ ∅
  = {| Region.mod_unique37 :=
         map (fun region => size (category_sites sites_37_regions region)) Region.region_order;
       Region.unique_37 := map (fun _ => 0) Region.region_order;
       Region.shared := map (fun _ => 0) Region.region_order;
       Region.unique_45 := map (fun _ => 0) Region.region_order;
       Region.mod_unique45 := map (fun _ => 0) Region.region_order |}.
Proof.
  intros Hf. pose proof (process_sites_file_dom _ _ _ Hf) as Hdom.
  assert (Hshared : Region.shared_rna sites_37_rna ∅ = ∅).
  { unfold Region.shared_rna, Region.rna_45. rewrite map_img_empty_L.
    apply set_eq. intros x. rewrite elem_of_intersection. split; [tauto|].
    intros Hx. apply not_elem_of_empty in Hx. contradiction. }
  assert (Hs37 : Region.shared_site_37 sites_37_regions sites_37_rna ∅ = ∅).
  { apply set_eq. intros s. rewrite elem_of_shared_site_37, Hshared. split.
    - intros (_ & t & _ & Ht). apply not_elem_of_empty in Ht. contradiction.
    - intros Hs. apply not_elem_of_empty in Hs. contradiction. }
  assert (Hs45 : Region.shared_site_45 sites_37_rna ∅ ∅ = ∅).
  { apply set_eq. intros s. rewrite elem_of_shared_site_45, dom_empty_L. split; [tauto|].
    intros Hs. apply not_elem_of_empty in Hs. contradiction. }
  assert (HSM : Region.shared_mod_sites sites_37_regions sites_37_rna ∅ ∅ = ∅).
  { apply set_eq. intros s. split.
    - intros Hs. apply shared_mod_sites_subseteq in Hs. rewrite Hs37, Hs45 in Hs.
      apply elem_of_union in Hs. tauto.
    - intros Hs. apply not_elem_of_empty in Hs. contradiction. }
  split; [exact HSM|].
  unfold Region.count_layers. f_equal.
  - apply map_ext. intros region. unfold Region.count_mod_unique37, category_sites.
    apply filter_ext_size. intros s Hs.
    rewrite andb_True, Is_true_value_in. split; [tauto|]. intros Hr. split; [exact Hr|].
    rewrite Hdom in Hs. apply elem_of_dom in Hs. destruct Hs as [t Ht].
    exists t. split; [exact Ht|].
    unfold Region.unique_rna_37, Region.rna_45. rewrite map_img_empty_L.
    apply elem_of_difference. split; [|apply not_elem_of_empty].
    apply elem_of_map_img. eauto.
  - apply zeros_map. intros region. unfold Region.count_unique_37. rewrite Hs37.
    apply filter_none_size. intros x Hx. apply not_elem_of_empty in Hx. contradiction.
  - apply zeros_map. intros region. unfold Region.count_shared. rewrite HSM.
    apply filter_none_size. intros x Hx. apply not_elem_of_empty in Hx. contradiction.
Qed.

Lemma empty_condition_strata_witness :
  Region.shared_mod_sites Examples.scenario_A_regions Examples.scenario_A_rna ∅ ∅ = ∅.
Proof.
  refine (proj1 (empty_condition_strata Examples.scenario_A
                   Examples.scenario_A_regions Examples.scenario_A_rna _)).
  vm_compute. reflexivity.
Defined.

(** X7.  When both conditions are read from the same file every recorded
    site is a shared site: the shared-site set is the whole key set, the
    shared stratum counts every site of the category, and the four unique
    strata are zero. *)
Theorem same_file_strata (file : DataFrame)
    (site_regions site_to_rna : gmap string string) :
  Region.process_sites_file file = Some (site_regions, site_to_rna) ->
  Region.shared_mod_sites site_regions site_to_rna site_regions site_to_rna
  = dom site_regions /\
  Region.count_layers site_regions site_to_rna site_regions site_to_rna
  = {| Region.mod_unique37 := map (fun _ => 0) Region.region_order;
       Region.unique_37 := map (fun _ => 0) Region.region_order;
       Region.shared :=
         map (fun region => size (category_sites site_regions region)) Region.region_order;
       Region.unique_45 := map (fun _ => 0) Region.region_order;
       Region.mod_unique45 := map (fun _ => 0) Region.region_order |}.
Proof.
  intros Hf. pose proof (process_sites_file_dom _ _ _ Hf) as Hdom.
  assert (Hshared : Region.shared_rna site_to_rna site_to_rna = map_img site_to_rna).
  { unfold Region.shared_rna, Region.rna_37, Region.rna_45. apply set_eq. intros x.
    rewrite elem_of_intersection. tauto. }
  assert (Hs37 : Region.shared_site_37 site_regions site_to_rna site_to_rna = dom site_regions).
  { apply set_eq. intros s. rewrite elem_of_shared_site_37, Hshared. split; [tauto|].
    intros Hs. split; [exact Hs|]. rewrite Hdom in Hs. apply elem_of_dom in Hs.
    destruct Hs as [t Ht]. exists t. split; [exact Ht|]. apply elem_of_map_img. eauto. }
  assert (Hs45 : Region.shared_site_45 site_to_rna site_regions site_to_rna = dom site_regions).
  { rewrite <- shared_site_swap. exact Hs37. }
  assert (HSM : Region.shared_mod_sites site_regions site_to_rna site_regions site_to_rna
                = dom site_regions).
  { apply set_eq. intros s. split.
    - intros Hs. apply shared_mod_sites_subseteq in Hs. rewrite Hs37, Hs45 in Hs.
      apply elem_of_union in Hs. tauto.
    - intros Hs. apply elem_of_shared_mod_sites. exists s, s.
      rewrite Hs37, Hs45. split; [exact Hs|]. split; [exact Hs|]. split; [|auto].
      apply sites_match_spec. auto. }
  assert (Huniq : forall t : string,
            (t ∉ Region.unique_rna_37 site_to_rna site_to_rna) /\
            (t ∉ Region.unique_rna_45 site_to_rna site_to_rna)).
  { intros t. unfold Region.unique_rna_37, Region.unique_rna_45, Region.rna_37, Region.rna_45.
    split; intros Ht; apply elem_of_difference in Ht; tauto. }
  split; [exact HSM|].
  unfold Region.count_layers. f_equal.
  - apply zeros_map. intros region. unfold Region.count_mod_unique37.
    apply filter_none_size. intros s _ Hs. apply andb_True in Hs. destruct Hs as [_ Hs].
    apply Is_true_value_in in Hs. destruct Hs as (t & Ht & Hu).
    exact (proj1 (Huniq t) Hu).
  - apply zeros_map. intros region. unfold Region.count_unique_37. rewrite Hs37, HSM.
    apply filter_none_size. intros s Hs Hc. apply andb_True in Hc. destruct Hc as [_ Hc].
    apply bool_decide_spec in Hc. contradiction.
  - apply map_ext. intros region. unfold Region.count_shared, category_sites. rewrite HSM.
    apply filter_ext_size. intros s Hs. unfold Region.get_is.
    rewrite bool_decide_spec, Is_true_value_is.
    apply elem_of_dom in Hs. destruct Hs as [x Hx]. rewrite Hx. cbn. split; congruence.
  - apply zeros_map. intros region. unfold Region.count_unique_45. rewrite Hs45, HSM.
    apply filter_none_size. intros s Hs Hc. apply andb_True in Hc. destruct Hc as [_ Hc].
    apply bool_decide_spec in Hc. contradiction.
  - apply zeros_map. intros region. unfold Region.count_mod_unique45.
    apply filter_none_size. intros s _ Hs. apply andb_True in Hs. destruct Hs as [_ Hs].
    apply Is_true_value_in in Hs. destruct Hs as (t & Ht & Hu).
    exact (proj2 (Huniq t) Hu).
Qed.

Lemma same_file_strata_witness :
  Region.shared_mod_sites Examples.scenario_A_regions Examples.scenario_A_rna
                          Examples.scenario_A_regions Examples.scenario_A_rna
  = dom Examples.scenario_A_regions.
Proof.
  refine (proj1 (same_file_strata Examples.scenario_A
                   Examples.scenario_A_regions Examples.scenario_A_rna _)).
  vm_compute. reflexivity.
Defined.


(** ** Further properties of [load_samples] (group_proportion_style.py) *)

(** The frame [load_samples] builds from [group_data]. *)
Lemma append_group_rows (g : string) (df : list Group.sample) (gd : Group.group_data) :
  concat (map (fun e => concat (snd e)) (Group.append_group g df gd))
  ≡ₚ concat (map (fun e => concat (snd e)) gd) ++ df.
Proof.
  induction gd as [|[g' dfs] gd IH]; cbn [Group.append_group map concat snd].
  - rewrite !app_nil_r. reflexivity.
  - destruct (bool_decide (g' = g)); cbn [map concat snd].
    + rewrite concat_app. cbn [concat]. rewrite app_nil_r, <- !app_assoc.
      apply Permutation_app_head. apply Permutation_app_comm.
    + rewrite IH, <- !app_assoc. reflexivity.
Qed.

Lemma append_group_nonempty (g : string) (df : list Group.sample) (gd : Group.group_data) :
  Group.append_group g df gd <> [].
Proof.
  destruct gd as [|[g' dfs] gd]; cbn [Group.append_group]; [discriminate|].
  destruct (bool_decide (g' = g)); discriminate.
Qed.

Lemma group_load_files_rows (folder_type : string) (files : list File) :
  forall (gd gd' : Group.group_data) (log : list message),
    snd (Group.load_files folder_type files gd log) = inr gd' ->
    concat (map (fun e => concat (snd e)) gd')
    ≡ₚ concat (map (fun e => concat (snd e)) gd) ++ flat_map (contribution folder_type) files.
Proof.
  induction files as [|file rest IH]; intros gd gd' log; cbn [Group.load_files flat_map].
  - intros [= <-]. rewrite app_nil_r. reflexivity.
  - unfold contribution at 1.
    destruct (Group.get_group_name (stem file) folder_type) as [g|].
    + destruct (content file) as [df|]; [|discriminate].
      destruct (missing_cols df); [|discriminate].
      destruct (Group.strip_raises df); [discriminate|].
      destruct (Group.load_frame file df g) as [rws msgs]. cbn [fst].
      intros H. rewrite (IH _ _ _ H), append_group_rows, <- app_assoc. reflexivity.
    + intros H. rewrite (IH _ _ _ H). reflexivity.
Qed.

Lemma strip_raises_spec (df : DataFrame) :
  Group.strip_raises df = true <->
  "Gene_Type" ∈ numeric df /\
  exists row, row ∈ rows df /\ is_Some (cell_of (columns df) row "Gene_Type").
Proof.
  unfold Group.strip_raises.
  rewrite andb_true_iff, bool_decide_eq_true, existsb_exists.
  setoid_rewrite bool_decide_eq_true. setoid_rewrite list_elem_of_In. reflexivity.
Qed.

Lemma strip_raises_false (df : DataFrame) :
  Group.strip_raises df = false ->
  "Gene_Type" ∈ numeric df ->
  forall row, row ∈ rows df -> cell_of (columns df) row "Gene_Type" = None.
Proof.
  intros Hno Hnum row Hrow.
  destruct (cell_of (columns df) row "Gene_Type") as [v|] eqn:E; [|reflexivity].
  assert (Hyes : Group.strip_raises df = true).
  { apply strip_raises_spec. split; [exact Hnum|]. exists row. rewrite E. eauto. }
  congruence.
Qed.

Lemma group_load_files_loaded (folder_type : string) (files : list File) :
  forall (gd gd' : Group.group_data) (log : list message),
    snd (Group.load_files folder_type files gd log) = inr gd' ->
    Forall (fun file => is_Some (Group.get_group_name (stem file) folder_type)
                        -> loads_text file)
           files.
Proof.
  induction files as [|file rest IH]; intros gd gd' log; cbn [Group.load_files].
  - constructor.
  - destruct (Group.get_group_name (stem file) folder_type) as [g|] eqn:Hg.
    + destruct (content file) as [df|] eqn:Hdf; [|discriminate].
      destruct (missing_cols df) eqn:Hm; [|discriminate].
      destruct (Group.strip_raises df) eqn:Hs; [discriminate|].
      destruct (Group.load_frame file df g) as [rws msgs].
      intros H. constructor; [|exact (IH _ _ _ H)].
      intros _. exists df. split; [exact Hdf|]. split; [exact Hm|].
      apply strip_raises_false. exact Hs.
    + intros H. constructor; [|exact (IH _ _ _ H)].
      rewrite Hg. intros [? ?]. discriminate.
Qed.

Lemma load_frame_stem (f1 f2 : File) (df : DataFrame) (g : string) :
  stem f1 = stem f2 -> Group.load_frame f1 df g = Group.load_frame f2 df g.
Proof.
  intros H. unfold Group.load_frame, file_name_of. rewrite H. reflexivity.
Qed.

(** Files that match no rule are not read: their content does not reach
    the result or the messages. *)
Lemma group_load_files_alike (folder_type : string) (files1 files2 : list File) :
  Forall2 (alike folder_type) files1 files2 ->
  forall (gd : Group.group_data) (log : list message),
    Group.load_files folder_type files1 gd log = Group.load_files folder_type files2 gd log.
Proof.
  induction 1 as [|f1 f2 rest1 rest2 (Hpath & Hstem & Hcontent) Hrest IH]; intros gd log.
  - reflexivity.
  - cbn [Group.load_files]. rewrite <- Hstem.
    destruct (Group.get_group_name (stem f1) folder_type) as [g|]; [|apply IH].
    rewrite <- (Hcontent ltac:(eauto)), <- Hpath.
    destruct (content f1) as [df|]; [|reflexivity].
    destruct (missing_cols df); [|reflexivity].
    destruct (Group.strip_raises df); [reflexivity|].
    rewrite (load_frame_stem f1 f2 df g Hstem).
    destruct (Group.load_frame f2 df g) as [rws msgs]. apply IH.
Qed.

Lemma group_load_files_nonempty (folder_type : string) (files : list File) :
  forall (gd gd' : Group.group_data) (log : list message),
    snd (Group.load_files folder_type files gd log) = inr gd' ->
    (gd' <> [] <->
     gd <> [] \/ Exists (fun file => is_Some (Group.get_group_name (stem file) folder_type))
                        files).
Proof.
  induction files as [|file rest IH]; intros gd gd' log; cbn [Group.load_files].
  - intros [= <-]. rewrite Exists_nil. tauto.
  - rewrite Exists_cons.
    destruct (Group.get_group_name (stem file) folder_type) as [g|].
    + destruct (content file) as [df|]; [|discriminate].
      destruct (missing_cols df); [|discriminate].
      destruct (Group.strip_raises df); [discriminate|].
      destruct (Group.load_frame file df g) as [rws msgs].
      intros H. rewrite (IH _ _ _ H). split; [intros _; right; left; eauto|].
      intros _. left. apply append_group_nonempty.
    + intros H. rewrite (IH _ _ _ H). split.
      * intros [?|?]; auto.
      * intros [?|[[? ?]|?]]; [auto | discriminate | auto].
Qed.

(** X10.  What [load_samples] of group_proportion_style.py needs in order
    to return rows, and what it never looks at.  Whenever it returns rows,
    the folder exists and is a directory, at least one of its files has a
    stem that matches a grouping rule, and every file that matches a rule
    was read, has the Sites and Gene_Type columns, and holds no number in
    its Gene_Type column.  When the loop reaches a file that matches a
    rule, is read, has both columns (and no column gene_type of its own)
    and holds a number in a Gene_Type cell, [load_samples] raises the
    [AttributeError] of [.strip()].  A file that matches no rule is never
    read: replacing what a read of such files would give changes neither
    the result nor the messages. *)
Theorem load_samples_requirements (folder : Folder) (folder_type : string) :
  (forall rws : list Group.sample,
     snd (Group.load_samples folder folder_type) = inr rws ->
     exists_ folder = true /\ is_dir folder = true /\
     Exists (fun file => is_Some (Group.get_group_name (stem file) folder_type))
            (csv_files folder) /\
     Forall (fun file => is_Some (Group.get_group_name (stem file) folder_type)
                         -> loads_text file)
            (csv_files folder)) /\
  (forall (before after : list File) (file : File) (df : DataFrame)
          (log : list message) (gd : Group.group_data) (target_group : string)
          (row : list cell) (v : string),
     exists_ folder = true -> is_dir folder = true ->
     csv_files folder = before ++ file :: after ->
     Group.load_files folder_type before [] [] = (log, inr gd) ->
     Group.get_group_name (stem file) folder_type = Some target_group ->
     content file = Some df -> missing_cols df = [] -> "gene_type" ∉ columns df ->
     "Gene_Type" ∈ numeric df ->
     row ∈ rows df -> cell_of (columns df) row "Gene_Type" = Some v ->
     Group.load_samples folder folder_type = (log, inl AttributeError)) /\
  (forall other : Folder,
     exists_ other = exists_ folder -> is_dir other = is_dir folder ->
     Forall2 (alike folder_type) (csv_files folder) (csv_files other) ->
     Group.load_samples folder folder_type = Group.load_samples other folder_type).
Proof.
  split; [|split].
  - intros rws. unfold Group.load_samples.
    destruct (exists_ folder); cbn [negb]; [|discriminate].
    destruct (is_dir folder); cbn [negb]; [|discriminate].
    destruct (csv_files folder) as [|file rest] eqn:Hfiles; [discriminate|].
    pose proof (fun gd' => group_load_files_loaded folder_type (file :: rest) [] gd' [])
      as Hok.
    pose proof (fun gd' => group_load_files_nonempty folder_type (file :: rest) [] gd' [])
      as Hne.
    destruct (Group.load_files folder_type (file :: rest) [] []) as [log [e|gd]];
      [discriminate|].
    cbn [snd] in Hok, Hne. specialize (Hok gd eq_refl). specialize (Hne gd eq_refl).
    destruct gd as [|e gd]; [discriminate|]. intros _.
    split; [reflexivity|]. split; [reflexivity|]. split; [|exact Hok].
    destruct (proj1 Hne ltac:(discriminate)) as [?|?]; [contradiction | assumption].
  - intros before after file df log gd g row v Hex Hdir Hfiles Hbefore Hg Hdf Hm _ Hnum
           Hrow Hv.
    assert (Hs : Group.strip_raises df = true).
    { apply strip_raises_spec. split; [exact Hnum|]. exists row. rewrite Hv. eauto. }
    unfold Group.load_samples. rewrite Hex, Hdir, Hfiles. cbn [negb].
    destruct (before ++ file :: after) eqn:E; [destruct before; discriminate|].
    rewrite <- E, group_load_files_app, Hbefore.
    cbn [Group.load_files]. rewrite Hg, Hdf, Hm, Hs. reflexivity.
  - intros other Hex Hdir Halike. unfold Group.load_samples. rewrite Hex, Hdir.
    destruct (negb (exists_ folder)); [reflexivity|].
    destruct (negb (is_dir folder)); [reflexivity|].
    pose proof (group_load_files_alike folder_type _ _ Halike [] []) as Hsame.
    destruct Halike as [|f1 f2 rest1 rest2 Hf Hrest]; [reflexivity|].
    rewrite Hsame. reflexivity.
Qed.

Lemma load_samples_requirements_witness :
  Group.load_samples Examples.numeric_total_dir "total" = ([], inl AttributeError).
Proof.
  refine (proj1 (proj2 (load_samples_requirements Examples.numeric_total_dir "total"))
            [] [Examples.total_file] Examples.numeric_total_file Examples.numeric_frame
            [] [] "OD600=0.3" [Some "100"; Some "1"] "1"
            eq_refl eq_refl eq_refl eq_refl _ eq_refl _ _ _ _ _).
  - vm_compute. reflexivity.
  - vm_compute. reflexivity.
  - intros Hin. repeat (apply elem_of_cons in Hin; destruct Hin as [Hin|Hin]; [discriminate|]).
    apply elem_of_nil in Hin. exact Hin.
  - apply list_elem_of_further, list_elem_of_here.
  - apply list_elem_of_here.
  - vm_compute. reflexivity.
Defined.

Lemma filter_negb_nil {A : Type} (f : A -> bool) (l : list A) :
  List.filter (fun x => negb (f x)) l = [] -> Forall (fun x => f x = true) l.
Proof.
  induction l as [|x l IH]; cbn [List.filter]; [constructor|].
  destruct (f x) eqn:E; cbn [negb]; [|discriminate].
  intros H. constructor; auto.
Qed.

Lemma load_frame_rows (file : File) (df : DataFrame) (target_group : string) :
  Forall (fun r => Group.rna_type r ∈ Group.known_rna_types /\ Group.group r = target_group)
         (fst (Group.load_frame file df target_group)).
Proof.
  unfold Group.load_frame.
  assert (Hgroup : Forall (fun r => Group.group r = target_group)
                          (Group.convert_frame df target_group)).
  { unfold Group.convert_frame. apply Forall_forall. intros r Hr.
    apply list_elem_of_In, in_map_iff in Hr. destruct Hr as (row & <- & _). reflexivity. }
  destruct (List.filter (fun s => negb (Group.is_known s)) (Group.convert_frame df target_group))
    eqn:Hunknown.
  - cbn [fst]. apply filter_negb_nil in Hunknown.
    rewrite Forall_forall in *. intros r Hr. split; [|auto].
    specialize (Hunknown r Hr). apply bool_decide_eq_true in Hunknown. exact Hunknown.
  - cbn [negb Group.is_known INCLUDE_UNKNOWN_TYPES fst].
    rewrite Forall_forall in *. intros r Hr.
    apply list_elem_of_In, filter_In in Hr. destruct Hr as [Hr Hk].
    split; [apply bool_decide_eq_true in Hk; exact Hk|].
    apply Hgroup, list_elem_of_In. exact Hr.
Qed.

(** X11.  The rows [load_samples] returns are, up to their order, exactly
    the kept rows of the files whose stem matches a rule: no row is lost or
    repeated by the regrouping.  Every returned row carries an RNA type
    among mRNA, ncRNA, rRNA (rows of unknown type are dropped) and the
    group its file was assigned, which is a column of the chart. *)
Theorem load_samples_rows (folder : Folder) (folder_type : string)
    (rws : list Group.sample) :
  snd (Group.load_samples folder folder_type) = inr rws ->
  rws ≡ₚ flat_map (contribution folder_type) (csv_files folder) /\
  Forall (fun r =>
            Group.rna_type r ∈ ["mRNA"; "ncRNA"; "rRNA"] /\
            Group.group r ∈ Group.group_order /\
            exists file, file ∈ csv_files folder /\
                         Group.get_group_name (stem file) folder_type = Some (Group.group r))
         rws.
Proof.
  intros H.
  assert (Hperm : rws ≡ₚ flat_map (contribution folder_type) (csv_files folder)).
  { unfold Group.load_samples in H.
    destruct (negb (exists_ folder)); [discriminate|].
    destruct (negb (is_dir folder)); [discriminate|].
    destruct (csv_files folder) as [|file rest]; [discriminate|].
    pose proof (fun gd' => group_load_files_rows folder_type (file :: rest) [] gd' [])
      as Hrows.
    destruct (Group.load_files folder_type (file :: rest) [] []) as [log [e|gd]];
      [discriminate|].
    specialize (Hrows gd eq_refl). cbn [map concat app] in Hrows.
    destruct (map (fun g => concat (snd g)) gd) eqn:E; [discriminate|].
    cbn [snd] in H. injection H as <-. exact Hrows. }
  split; [exact Hperm|].
  apply Forall_forall. intros r Hr. rewrite Hperm in Hr.
  apply list_elem_of_In, in_flat_map in Hr. destruct Hr as (file & Hfile & Hr).
  unfold contribution in Hr.
  destruct (Group.get_group_name (stem file) folder_type) as [g|] eqn:Hg; [|contradiction].
  destruct (content file) as [df|]; [|contradiction].
  pose proof (load_frame_rows file df g) as Hframe. rewrite Forall_forall in Hframe.
  destruct (Hframe r ltac:(apply list_elem_of_In; exact Hr)) as [Hknown Hgroup].
  split; [exact Hknown|]. rewrite Hgroup. split.
  - destruct (get_group_name_rule _ _ _ Hg) as (rl & Hrl & _ & <-).
    unfold Group.grouping_rules in Hrl.
    repeat (apply elem_of_cons in Hrl; destruct Hrl as [->|Hrl]);
      try (apply elem_of_nil in Hrl; contradiction);
      cbn [snd]; unfold Group.group_order;
      repeat first [apply list_elem_of_here | apply list_elem_of_further].
  - exists file. split; [apply list_elem_of_In; exact Hfile | exact Hg].
Qed.


Lemma load_samples_rows_witness :
  exists rws,
    snd (Group.load_samples Examples.mixed_total_dir "total") = inr rws /\
    rws ≡ₚ flat_map (contribution "total") (csv_files Examples.mixed_total_dir).
Proof.
  eexists. split; [vm_compute; reflexivity|].
  refine (proj1 (load_samples_rows Examples.mixed_total_dir "total" _ _)).
  vm_compute. reflexivity.
Defined.

(** ** The count table of [plot_rna_distribution] *)

Section CountByKey.
Context {A K : Type} `{EqDecision K}.
Variable f : A -> K.

Lemma indicator_sum (k0 : K) (ks : list K) :
  NoDup ks -> k0 ∈ ks ->
  list_sum (map (fun k => if bool_decide (k0 = k) then 1 else 0) ks) = 1.
Proof.
  induction 1 as [|k ks Hk Hnd IH]; intros Hin.
  - apply elem_of_nil in Hin. contradiction.
  - cbn [map list_sum]. change (list_sum (?x :: ?l)) with (x + list_sum l).
    apply elem_of_cons in Hin. destruct (bool_decide (k0 = k)) eqn:E.
    + apply bool_decide_eq_true in E. subst k.
      assert (Hz : list_sum (map (fun k => if bool_decide (k0 = k) then 1 else 0) ks) = 0).
      { clear IH Hin Hnd. induction ks as [|k ks IH]; [reflexivity|].
        cbn [map]. change (list_sum (?x :: ?l)) with (x + list_sum l).
        rewrite not_elem_of_cons in Hk. destruct Hk as [Hne Hk].
        rewrite bool_decide_eq_false_2 by exact Hne. rewrite (IH Hk). reflexivity. }
      rewrite Hz. reflexivity.
    + apply bool_decide_eq_false in E. destruct Hin as [?|Hin]; [contradiction|].
      rewrite (IH Hin). reflexivity.
Qed.

Lemma count_by_key (ks : list K) (l : list A) :
  NoDup ks -> (forall x, In x l -> f x ∈ ks) ->
  list_sum (map (fun k => length (List.filter (fun x => bool_decide (f x = k)) l)) ks)
  = length l.
Proof.
  intros Hnd. induction l as [|x l IH]; intros Hin.
  - cbn [List.filter length]. clear. induction ks as [|k ks IHk]; [reflexivity|].
    cbn [map]. change (list_sum (?x :: ?l)) with (x + list_sum l).
    rewrite IHk. reflexivity.
  - assert (Hsplit :
      list_sum (map (fun k => length (List.filter (fun y => bool_decide (f y = k)) (x :: l))) ks)
      = list_sum (map (fun k => if bool_decide (f x = k) then 1 else 0) ks)
        + list_sum (map (fun k => length (List.filter (fun y => bool_decide (f y = k)) l)) ks)).
    { clear. induction ks as [|k ks IHk]; [reflexivity|].
      cbn [map]. rewrite !(fun a b => eq_refl : list_sum (a :: b) = a + list_sum b).
      rewrite IHk. cbn [List.filter]. destruct (bool_decide (f x = k)); cbn [length]; lia. }
    rewrite Hsplit, (indicator_sum (f x) ks Hnd (Hin x (or_introl eq_refl))).
    rewrite IH by (intros y Hy; apply Hin; right; exact Hy). reflexivity.
Qed.
End CountByKey.

Lemma filter_filter_implied {A : Type} (p q : A -> bool) (l : list A) :
  (forall x, p x = true -> q x = true) ->
  List.filter p (List.filter q l) = List.filter p l.
Proof.
  intros H. induction l as [|x l IH]; [reflexivity|]. cbn [List.filter].
  destruct (q x) eqn:Eq; cbn [List.filter].
  - rewrite IH. reflexivity.
  - destruct (p x) eqn:Ep; [rewrite (H x Ep) in Eq; discriminate | exact IH].
Qed.

Lemma NoDup_List_filter {A : Type} (p : A -> bool) (l : list A) :
  NoDup l -> NoDup (List.filter p l).
Proof.
  induction 1 as [|x l Hx Hnd IH]; cbn [List.filter]; [constructor|].
  destruct (p x); [|exact IH]. constructor; [|exact IH].
  intros Hin. apply Hx. apply list_elem_of_In in Hin. apply filter_In in Hin.
  apply list_elem_of_In. tauto.
Qed.

Lemma filter_counts_map (g : string) (cnt : string * string -> nat)
    (ks : list (string * string)) :
  map snd (List.filter (fun r : string * string * nat => bool_decide (fst (fst r) = g))
                       (map (fun k => (k, cnt k)) ks))
  = map cnt (List.filter (fun k => bool_decide (fst k = g)) ks).
Proof.
  induction ks as [|k ks IH]; [reflexivity|]. cbn [map List.filter fst].
  destruct (bool_decide (fst k = g)); cbn [map snd]; rewrite IH; reflexivity.
Qed.

Lemma key_occurs_iff (all_data : list Group.sample) (k : string * string) :
  k ∈ remove_dups (map Group.key_of all_data) <->
  length (List.filter (fun s => bool_decide (Group.key_of s = k)) all_data) <> 0.
Proof.
  rewrite elem_of_remove_dups, list_elem_of_In, in_map_iff. split.
  - intros (s & Hs & Hin).
    assert (Hf : In s (List.filter (fun s => bool_decide (Group.key_of s = k)) all_data)).
    { apply filter_In. split; [exact Hin|]. apply bool_decide_eq_true. exact Hs. }
    destruct (List.filter _ all_data); [contradiction | discriminate].
  - intros Hlen.
    destruct (List.filter (fun s => bool_decide (Group.key_of s = k)) all_data)
      as [|s l] eqn:E; [contradiction|].
    assert (Hs : In s (List.filter (fun s => bool_decide (Group.key_of s = k)) all_data))
      by (rewrite E; left; reflexivity).
    apply filter_In in Hs. destruct Hs as [Hin Hk]. apply bool_decide_eq_true in Hk.
    exists s. auto.
Qed.

(** X12.  The table [counts] holds one row per (group, RNA type) pair that
    occurs in the data, with the number of data rows of that pair, which is
    never zero; and the denominator [total_counts] of a group is the number
    of data rows of the group. *)
Theorem counts_table (all_data : list Group.sample) :
  NoDup (map fst (Group.counts all_data)) /\
  (forall (g t : string) (c : nat),
     (g, t, c) ∈ Group.counts all_data <->
     c = length (List.filter (fun s => bool_decide (Group.key_of s = (g, t))) all_data) /\
     c <> 0) /\
  (forall g : string,
     Group.total_counts (Group.counts all_data) g
     = length (List.filter (fun s => bool_decide (Group.group s = g)) all_data)).
Proof.
  pose proof (key_occurs_iff all_data) as Hkeys.
  split; [|split].
  - unfold Group.counts. rewrite map_map. cbn [fst]. rewrite map_id.
    apply NoDup_remove_dups.
  - intros g t c. unfold Group.counts. rewrite list_elem_of_In, in_map_iff. split.
    + intros (k & [= <- <-] & Hk). split; [reflexivity|].
      apply Hkeys, list_elem_of_In. exact Hk.
    + intros [-> Hne]. exists (g, t). split; [reflexivity|].
      apply list_elem_of_In, Hkeys. exact Hne.
  - intros g. unfold Group.total_counts, Group.counts. rewrite filter_counts_map.
    set (ks := List.filter (fun k : string * string => bool_decide (fst k = g))
                           (remove_dups (map Group.key_of all_data))).
    set (lg := List.filter (fun s => bool_decide (Group.group s = g)) all_data).
    rewrite <- (count_by_key Group.key_of ks lg).
    + f_equal. apply map_ext_in. intros k Hk. apply filter_In in Hk.
      destruct Hk as [_ Hk]. apply bool_decide_eq_true in Hk.
      unfold lg. rewrite filter_filter_implied; [reflexivity|].
      intros s Hs. apply bool_decide_eq_true in Hs. apply bool_decide_eq_true.
      rewrite <- Hk, <- Hs. reflexivity.
    + unfold ks. apply NoDup_List_filter, NoDup_remove_dups.
    + intros s Hs. unfold lg in Hs. apply filter_In in Hs. destruct Hs as [Hin Hg].
      apply bool_decide_eq_true in Hg. unfold ks. apply list_elem_of_In, filter_In. split.
      * apply list_elem_of_In, elem_of_remove_dups, list_elem_of_In, in_map. exact Hin.
      * apply bool_decide_eq_true. exact Hg.
Qed.


(** ** The plotted table: pivot, fill and reindex *)

Lemma pivot_cell_value (fl : Q -> Q) (all_data : list Group.sample) (g t : string) :
  Group.pivot_cell fl all_data g t
  = let c := length (List.filter (fun s => bool_decide (Group.key_of s = (g, t))) all_data) in
    if (c =? 0)%nat then 0%Q
    else percentage fl c (Group.total_counts (Group.counts all_data) g).
Proof.
  unfold Group.pivot_cell, Group.percentages, Group.counts. rewrite map_map. cbn [fst snd].
  rewrite (find_by_key
             (fun k => percentage fl
                         (length (List.filter (fun s => bool_decide (Group.key_of s = k)) all_data))
                         (Group.total_counts
                            (map (fun k => (k, length (List.filter
                                    (fun s => bool_decide (Group.key_of s = k)) all_data)))
                                 (remove_dups (map Group.key_of all_data)))
                            (fst k)))
             (g, t)).
  cbn zeta.
  destruct (Nat.eqb_spec
              (length (List.filter (fun s => bool_decide (Group.key_of s = (g, t))) all_data)) 0)
    as [Hz|Hnz].
  - rewrite bool_decide_eq_false_2; [reflexivity|]. rewrite key_occurs_iff. lia.
  - rewrite bool_decide_eq_true_2 by (apply key_occurs_iff; exact Hnz). reflexivity.
Qed.

(** X13.  The table handed to the bars has one row per group of
    [group_order], in that order, and one column per RNA type that occurs
    in the data, sorted and without repetition.  The row of a group that has
    no data row is all NaN (it is not filled with zeros: [fillna(0)] comes
    before [reindex]); in the row of a group with data every cell is
    defined: the percentage of the rows of that group and type, and 0 for a
    type that does not occur in the group. *)
Theorem reindexed_table (fl : Q -> Q) (all_data : list Group.sample) :
  map fst (Group.reindexed fl all_data) = Group.group_order /\
  NoDup (Group.pivot_columns all_data) /\
  Sorted String.le (Group.pivot_columns all_data) /\
  (forall t : string,
     t ∈ Group.pivot_columns all_data <-> exists s, s ∈ all_data /\ Group.rna_type s = t) /\
  (forall (g : string) (cells : list (option Q)),
     (g, cells) ∈ Group.reindexed fl all_data ->
     ((forall s, s ∈ all_data -> Group.group s <> g) ->
        cells = map (fun _ => None) (Group.pivot_columns all_data)) /\
     ((exists s, s ∈ all_data /\ Group.group s = g) ->
        cells = map (fun t => Some (Group.pivot_cell fl all_data g t))
                    (Group.pivot_columns all_data))) /\
  (forall g t : string,
     Group.pivot_cell fl all_data g t
     = let c := length (List.filter (fun s => bool_decide (Group.key_of s = (g, t))) all_data) in
       if (c =? 0)%nat then 0%Q
       else percentage fl c (Group.total_counts (Group.counts all_data) g)).
Proof.
  split; [|split; [|split; [|split; [|split]]]].
  - unfold Group.reindexed. rewrite map_map. cbn [fst]. apply map_id.
  - unfold Group.pivot_columns. rewrite merge_sort_Permutation. apply NoDup_remove_dups.
  - unfold Group.pivot_columns. apply Sorted_merge_sort. apply _.
  - intros t. unfold Group.pivot_columns.
    rewrite merge_sort_Permutation, elem_of_remove_dups, list_elem_of_In, in_map_iff.
    setoid_rewrite list_elem_of_In. split.
    + intros (s & Hs & Hin). eauto.
    + intros (s & Hin & Hs). eauto.
  - intros g cells Hin. unfold Group.reindexed in Hin.
    apply list_elem_of_In, in_map_iff in Hin. destruct Hin as (g' & [= -> <-] & _).
    rewrite find_pivot_row. split.
    + intros Hno. rewrite bool_decide_eq_false_2; [reflexivity|].
      rewrite elem_of_pivot_index. intros (s & Hs & Hg). exact (Hno s Hs Hg).
    + intros Hex. rewrite bool_decide_eq_true_2 by (apply elem_of_pivot_index; exact Hex).
      cbn [snd]. apply map_map.
  - intros g t. apply pivot_cell_value.
Qed.

Lemma reindexed_table_witness :
  [None; None] = map (fun _ => @None Q) (Group.pivot_columns Examples.plot_rows).
Proof.
  refine (proj1 (proj1 (proj2 (proj2 (proj2 (proj2
            (reindexed_table (fun x : Q => x) Examples.plot_rows)))))
            "OD600=1" [None; None] _) _).
  - apply list_elem_of_In. vm_compute. right. right. right. left. reflexivity.
  - intros s Hs. unfold Examples.plot_rows in Hs.
    repeat (apply elem_of_cons in Hs; destruct Hs as [->|Hs]; [discriminate|]).
    apply elem_of_nil in Hs. contradiction.
Defined.


(** ** [load_samples] of FDR_proportion_plotting.py *)







(** ** The stacked bars of the region chart *)

Section BarTops.
Local Open Scope Q_scope.

Variable fl : Q -> Q.
Hypothesis fl_rounds : rounds_to_nearest fl.

(** One rounded addition of two heights that are zero or not tiny. *)
Lemma rounded_sum (m x y : Q) :
  (1 # 1152921504606846976) <= m ->
  (x == 0 \/ 2 * m <= x) -> (y == 0 \/ 2 * m <= y) -> x + y <= 1024 ->
  (x + y) * (1 - unit_roundoff) <= fl (x + y) /\
  fl (x + y) <= (x + y) * (1 + unit_roundoff) /\
  (fl (x + y) == 0 \/ m <= fl (x + y)).
Proof.
  intros Hm Hx Hy Hle.
  assert (Hcase : x + y == 0 \/ 2 * m <= x + y) by (destruct Hx, Hy; lra).
  destruct Hcase as [Hz|Hbig].
  - destruct fl_rounds as [Hzero _]. pose proof (Hzero (x + y) Hz) as Hfl.
    rewrite Hfl, Hz. unfold unit_roundoff.
    split; [lra|]. split; [lra|]. left. reflexivity.
  - destruct (fl_enclosure fl fl_rounds (x + y)) as [H1 H2]; [lra | lra |].
    unfold unit_roundoff in *. split; [lra|]. split; [lra|]. right. lra.
Qed.

(** An entry of the normalised table is zero or not tiny, and bounded by
    its exact value up to two roundings. *)
Lemma entry_bounds (count total : nat) :
  (total <> 0)%nat -> (count <= total)%nat -> (Z.of_nat total < 9007199254740992)%Z ->
  let e := Region.normalized_entry fl count total in
  (e == 0 \/ (1 # 1125899906842624) <= e) /\
  100 * (1 - unit_roundoff) * (1 - unit_roundoff) * (Qn count / Qn total) <= e /\
  e <= 100 * (1 + unit_roundoff) * (1 + unit_roundoff) * (Qn count / Qn total).
Proof.
  intros Ht Hle Hbig e. unfold e. rewrite (normalized_entry_percentage fl count total Ht).
  destruct (percentage_enclosure fl fl_rounds count total Hle Hbig) as [H1 H2].
  split; [|split; assumption].
  destruct (Nat.eq_dec count 0%nat) as [->|Hc].
  - left. rewrite (ratio_zero total) in H1, H2. unfold unit_roundoff in *. lra.
  - right. destruct (ratio_bounds count total Hc Hle Hbig) as [Hq _].
    unfold unit_roundoff in *. lra.
Qed.

Lemma normalized_layer_drawn (lc : Region.layer_counts) :
  Region.normalized_layer (Region.normalized fl lc) "unique_45"
  = map (fun idx => Region.normalized_entry fl (default 0%nat (Region.unique_45 lc !! idx))
                                            (Region.total_at lc idx))
        (seq 0 (length Region.region_order)) /\
  Region.normalized_layer (Region.normalized fl lc) "shared"
  = map (fun idx => Region.normalized_entry fl (default 0%nat (Region.shared lc !! idx))
                                            (Region.total_at lc idx))
        (seq 0 (length Region.region_order)) /\
  Region.normalized_layer (Region.normalized fl lc) "unique_37"
  = map (fun idx => Region.normalized_entry fl (default 0%nat (Region.unique_37 lc !! idx))
                                            (Region.total_at lc idx))
        (seq 0 (length Region.region_order)).
Proof. repeat split; reflexivity. Qed.

Lemma bar_tops_lookup (lc : Region.layer_counts) (idx : nat) :
  (idx < length Region.region_order)%nat ->
  Region.bar_tops fl lc !! idx
  = Some (fl (fl (fl (0 + Region.normalized_entry fl (default 0%nat (Region.unique_45 lc !! idx))
                                                  (Region.total_at lc idx))
                  + Region.normalized_entry fl (default 0%nat (Region.shared lc !! idx))
                                            (Region.total_at lc idx))
              + Region.normalized_entry fl (default 0%nat (Region.unique_37 lc !! idx))
                                        (Region.total_at lc idx))).
Proof.
  intros Hidx. unfold Region.bar_tops. cbn [foldl Region.layers_draw_order].
  destruct (normalized_layer_drawn lc) as (-> & -> & ->).
  rewrite !lookup_zip_with, !lookup_map, lookup_seq_lt by exact Hidx.
  rewrite lookup_replicate_2 by exact Hidx. reflexivity.
Qed.

Lemma total_at_layers (lc : Region.layer_counts) (idx : nat) :
  Region.total_at lc idx
  = (default 0 (Region.mod_unique37 lc !! idx) + default 0 (Region.unique_37 lc !! idx)
     + default 0 (Region.shared lc !! idx) + default 0 (Region.unique_45 lc !! idx)
     + default 0 (Region.mod_unique45 lc !! idx))%nat.
Proof.
  unfold Region.total_at, Region.layers. cbn [map snd]. unfold list_sum. cbn [fold_right]. lia.
Qed.

Lemma bar_tops_bounds (lc : Region.layer_counts) (idx : nat) :
  (idx < length Region.region_order)%nat ->
  (Z.of_nat (Region.total_at lc idx) < 9007199254740992)%Z ->
  exists top : Q,
    Region.bar_tops fl lc !! idx = Some top /\
    0 <= top /\ top <= 100 + (1 # 100) /\
    (Region.total_at lc idx = 0%nat -> top == 0) /\
    (Region.total_at lc idx <> 0%nat ->
     default 0%nat (Region.mod_unique37 lc !! idx) = 0%nat ->
     default 0%nat (Region.mod_unique45 lc !! idx) = 0%nat ->
     Qabs (top - 100) <= 1 # 100).
Proof.
  intros Hidx Hbig. eexists. split; [apply bar_tops_lookup; exact Hidx|].
  pose proof (total_at_layers lc idx) as Htotal.
  set (T := Region.total_at lc idx) in *.
  set (a := default 0%nat (Region.unique_45 lc !! idx)) in *.
  set (b := default 0%nat (Region.shared lc !! idx)) in *.
  set (c := default 0%nat (Region.unique_37 lc !! idx)) in *.
  set (m37 := default 0%nat (Region.mod_unique37 lc !! idx)) in *.
  set (m45 := default 0%nat (Region.mod_unique45 lc !! idx)) in *.
  destruct (Nat.eq_dec T 0%nat) as [Hz|Hnz].
  - rewrite Hz. unfold Region.normalized_entry. cbn [Nat.eqb].
    destruct fl_rounds as [Hzero _].
    assert (H1 : fl (0 + 0) == 0) by (apply Hzero; lra).
    assert (H2 : fl (fl (0 + 0) + 0) == 0) by (apply Hzero; lra).
    assert (H3 : fl (fl (fl (0 + 0) + 0) + 0) == 0) by (apply Hzero; lra).
    rewrite H3. split; [lra|]. split; [lra|]. split; [reflexivity | contradiction].
  - destruct (entry_bounds a T Hnz ltac:(lia) Hbig) as (Ha0 & Ha1 & Ha2).
    destruct (entry_bounds b T Hnz ltac:(lia) Hbig) as (Hb0 & Hb1 & Hb2).
    destruct (entry_bounds c T Hnz ltac:(lia) Hbig) as (Hc0 & Hc1 & Hc2).
    set (ea := Region.normalized_entry fl a T) in *.
    set (eb := Region.normalized_entry fl b T) in *.
    set (ec := Region.normalized_entry fl c T) in *.
    assert (HT : 0 < Qn T) by (apply Qn_pos; exact Hnz).
    assert (Hqa : 0 <= Qn a / Qn T) by (apply Qle_shift_div_l; [exact HT|]; pose proof (Qn_nonneg a); lra).
    assert (Hqb : 0 <= Qn b / Qn T) by (apply Qle_shift_div_l; [exact HT|]; pose proof (Qn_nonneg b); lra).
    assert (Hqc : 0 <= Qn c / Qn T) by (apply Qle_shift_div_l; [exact HT|]; pose proof (Qn_nonneg c); lra).
    assert (Hsum : Qn a / Qn T + Qn b / Qn T + Qn c / Qn T
                   == Qn (a + b + c) / Qn T).
    { rewrite !ratio_add by exact Hnz. reflexivity. }
    assert (Hle1 : Qn (a + b + c) / Qn T <= 1).
    { apply Qle_shift_div_r; [exact HT|]. rewrite Qmult_1_l. apply Qn_le. lia. }
    set (qa := Qn a / Qn T) in *. set (qb := Qn b / Qn T) in *. set (qc := Qn c / Qn T) in *.
    unfold unit_roundoff in *.
    destruct (rounded_sum (1 # 2251799813685248) 0 ea) as (S1a & S1b & S1c);
      [lra | left; reflexivity | destruct Ha0; [left; assumption | right; lra] | lra |].
    set (s1 := fl (0 + ea)) in *.
    destruct (rounded_sum (1 # 4503599627370496) s1 eb) as (S2a & S2b & S2c);
      [lra | destruct S1c; [left; assumption | right; lra]
           | destruct Hb0; [left; assumption | right; lra] | unfold unit_roundoff in *; lra |].
    set (s2 := fl (s1 + eb)) in *.
    destruct (rounded_sum (1 # 9007199254740992) s2 ec) as (S3a & S3b & S3c);
      [lra | destruct S2c; [left; assumption | right; lra]
           | destruct Hc0; [left; assumption | right; lra] | unfold unit_roundoff in *; lra |].
    set (s3 := fl (s2 + ec)) in *.
    unfold unit_roundoff in *.
    split; [lra|]. split; [lra|]. split; [contradiction|].
    intros _ H37 H45.
    assert (Hone : Qn (a + b + c) / Qn T == 1).
    { replace (a + b + c)%nat with T by lia. field. lra. }
    apply Qabs_Qle_condition. split; lra.
Qed.

End BarTops.

(** X15.  The stacked bar of a category never leaves the axis: with
    doubles that round to nearest and counts below 2^53, the top of the
    three drawn layers (unique_45, shared, unique_37) lies between 0 and
    100.01; it is 0 for a category without sites, and it reaches 100 (within
    0.01) when no site of the category lies on a transcript unique to one
    condition.  The two mod_unique layers enter the total but are not
    drawn. *)
Theorem bar_tops_within_axis (fl : Q -> Q) (lc : Region.layer_counts) (idx : nat) :
  rounds_to_nearest fl ->
  (idx < length Region.region_order)%nat ->
  (Z.of_nat (Region.total_at lc idx) < 9007199254740992)%Z ->
  exists top : Q,
    Region.bar_tops fl lc !! idx = Some top /\
    (0 <= top)%Q /\ (top <= 100 + (1 # 100))%Q /\
    (Region.total_at lc idx = 0%nat -> (top == 0)%Q) /\
    (Region.total_at lc idx <> 0%nat ->
     default 0%nat (Region.mod_unique37 lc !! idx) = 0%nat ->
     default 0%nat (Region.mod_unique45 lc !! idx) = 0%nat ->
     (Qabs (top - 100) <= 1 # 100)%Q).
Proof.
  intros Hfl Hidx Hbig.
  destruct (bar_tops_bounds fl Hfl lc idx Hidx Hbig) as (top & Hlookup & H0 & H100 & Hz & Hfull).
  exists top. split; [exact Hlookup|]. split; [exact H0|]. split; [exact H100|].
  split; [exact Hz | exact Hfull].
Qed.

Lemma bar_tops_within_axis_witness :
  exists top : Q,
    Region.bar_tops (fun x : Q => x) Examples.sample_counts !! 0%nat = Some top /\
    (0 <= top)%Q /\ (top <= 100 + (1 # 100))%Q.
Proof.
  destruct (bar_tops_within_axis (fun x : Q => x) Examples.sample_counts 0
              exact_arithmetic_rounds ltac:(cbn; lia) ltac:(vm_compute; reflexivity))
    as (top & Hlookup & H0 & H100 & _).
  exists top. split; [exact Hlookup|]. split; [exact H0 | exact H100].
Defined.


(** ** White space around a gene-type label *)

Lemma lstrip_idempotent (s : string) : Py.lstrip (Py.lstrip s) = Py.lstrip s.
Proof.
  induction s as [|c s IH]; [reflexivity|]. cbn [Py.lstrip].
  destruct (Py.isspace c) eqn:E; [exact IH|]. cbn [Py.lstrip]. rewrite E. reflexivity.
Qed.

Lemma str_append_assoc (a b c : string) : (a +:+ b) +:+ c = a +:+ (b +:+ c).
Proof.
  induction a as [|x a IH]; [reflexivity|]. rewrite !append_cons, IH. reflexivity.
Qed.

Lemma str_append_nil_r (a : string) : a +:+ EmptyString = a.
Proof. induction a as [|x a IH]; [reflexivity|]. rewrite append_cons, IH. reflexivity. Qed.

Lemma rev_onto_append (s acc : string) : Py.rev_onto s acc = Py.reverse s +:+ acc.
Proof.
  unfold Py.reverse. revert acc. induction s as [|c s IH]; intros acc; [reflexivity|].
  cbn [Py.rev_onto]. rewrite (IH (String c acc)), (IH (String c EmptyString)).
  rewrite str_append_assoc. reflexivity.
Qed.

Lemma reverse_cons (c : ascii) (s : string) :
  Py.reverse (String c s) = Py.reverse s +:+ String c EmptyString.
Proof. unfold Py.reverse at 1. cbn [Py.rev_onto]. apply rev_onto_append. Qed.

Lemma reverse_append (a b : string) :
  Py.reverse (a +:+ b) = Py.reverse b +:+ Py.reverse a.
Proof.
  induction a as [|c a IH].
  - rewrite append_nil_l. change (Py.reverse EmptyString) with EmptyString.
    rewrite str_append_nil_r. reflexivity.
  - rewrite append_cons, !reverse_cons, IH, str_append_assoc. reflexivity.
Qed.

Lemma reverse_involutive (s : string) : Py.reverse (Py.reverse s) = s.
Proof.
  induction s as [|c s IH]; [reflexivity|].
  rewrite reverse_cons, reverse_append, IH. reflexivity.
Qed.

Lemma lstrip_keeps_last (z : string) (c : ascii) :
  Py.isspace c = false ->
  exists z', Py.lstrip (z +:+ String c EmptyString) = z' +:+ String c EmptyString.
Proof.
  intros Hc. induction z as [|x z IH].
  - exists EmptyString. rewrite append_nil_l. cbn [Py.lstrip]. rewrite Hc. reflexivity.
  - rewrite append_cons. cbn [Py.lstrip]. destruct (Py.isspace x); [exact IH|].
    exists (String x z). rewrite append_cons. reflexivity.
Qed.

Lemma rstrip_keeps_head (c : ascii) (s : string) :
  Py.isspace c = false -> exists y, Py.rstrip (String c s) = String c y.
Proof.
  intros Hc. unfold Py.rstrip. rewrite reverse_cons.
  destruct (lstrip_keeps_last (Py.reverse s) c Hc) as [z' ->].
  rewrite reverse_append. exists (Py.reverse z'). reflexivity.
Qed.

Lemma lstrip_rstrip_lstrip (s : string) :
  Py.lstrip (Py.rstrip (Py.lstrip s)) = Py.rstrip (Py.lstrip s).
Proof.
  induction s as [|c s IH]; [reflexivity|]. cbn [Py.lstrip].
  destruct (Py.isspace c) eqn:E; [exact IH|].
  destruct (rstrip_keeps_head c s E) as [y ->]. cbn [Py.lstrip]. rewrite E. reflexivity.
Qed.

Lemma rstrip_idempotent (s : string) : Py.rstrip (Py.rstrip s) = Py.rstrip s.
Proof.
  unfold Py.rstrip. rewrite reverse_involutive, lstrip_idempotent. reflexivity.
Qed.

Lemma strip_idempotent (s : string) : Py.strip (Py.strip s) = Py.strip s.
Proof.
  unfold Py.strip. rewrite lstrip_rstrip_lstrip, rstrip_idempotent. reflexivity.
Qed.

Lemma strip_leading_space (c : ascii) (s : string) :
  Py.isspace c = true -> Py.strip (String c s) = Py.strip s.
Proof. intros Hc. unfold Py.strip. cbn [Py.lstrip]. rewrite Hc. reflexivity. Qed.

Lemma strip_trailing_space (c : ascii) (s : string) :
  Py.isspace c = true -> Py.strip (s +:+ String c EmptyString) = Py.strip s.
Proof.
  intros Hc.
  assert (Hr : forall x, Py.rstrip (x +:+ String c EmptyString) = Py.rstrip x).
  { intros x. unfold Py.rstrip. rewrite reverse_append.
    change (Py.reverse (String c EmptyString)) with (String c EmptyString).
    rewrite append_cons, append_nil_l. cbn [Py.lstrip]. rewrite Hc. reflexivity. }
  unfold Py.strip. induction s as [|x s IH].
  - rewrite append_nil_l. cbn [Py.lstrip]. rewrite Hc. reflexivity.
  - rewrite append_cons. cbn [Py.lstrip]. destruct (Py.isspace x); [exact IH|].
    rewrite <- append_cons. apply Hr.
Qed.

(** X16.  White space around a gene-type label never changes its
    conversion: a label and its stripped form convert alike, and so does
    the label with one more white-space character in front or behind; a
    label that consists of white space only converts to "unknown". *)
Theorem convert_gene_to_rna_strips (g : string) :
  Group.convert_gene_to_rna (Some (Py.strip g)) = Group.convert_gene_to_rna (Some g) /\
  (forall c : ascii,
     Py.isspace c = true ->
     Group.convert_gene_to_rna (Some (String c g)) = Group.convert_gene_to_rna (Some g) /\
     Group.convert_gene_to_rna (Some (g +:+ String c EmptyString))
       = Group.convert_gene_to_rna (Some g)) /\
  (Py.strip g = "" -> Group.convert_gene_to_rna (Some g) = "unknown").
Proof.
  split; [|split].
  - rewrite !convert_gene_to_rna_formula, strip_idempotent. reflexivity.
  - intros c Hc. rewrite !convert_gene_to_rna_formula.
    rewrite (strip_leading_space c g Hc), (strip_trailing_space c g Hc). auto.
  - intros Hblank. rewrite convert_gene_to_rna_formula, Hblank. reflexivity.
Qed.

Lemma convert_gene_to_rna_strips_witness :
  Group.convert_gene_to_rna (Some (String " " "tRNA")) = Group.convert_gene_to_rna (Some "tRNA").
Proof.
  refine (proj1 (proj1 (proj2 (convert_gene_to_rna_strips "tRNA")) " "%char _)).
  reflexivity.
Defined.

(** ** [main] of group_proportion_style.py *)

Lemma load_samples_groups (folder : Folder) (folder_type : string)
    (rws : list Group.sample) :
  snd (Group.load_samples folder folder_type) = inr rws ->
  Forall (fun r => exists file_name,
                     Group.get_group_name file_name folder_type = Some (Group.group r))
         rws.
Proof.
  intros H. unfold Group.load_samples in H.
  destruct (negb (exists_ folder)); [discriminate|].
  destruct (negb (is_dir folder)); [discriminate|].
  destruct (csv_files folder) as [|file rest]; [discriminate|].
  pose proof (fun gd' => group_load_files_rows folder_type (file :: rest) [] gd' [])
    as Hrows.
  destruct (Group.load_files folder_type (file :: rest) [] []) as [log [e|gd]];
    [discriminate|].
  specialize (Hrows gd eq_refl). cbn [map concat app] in Hrows.
  destruct (map (fun g => concat (snd g)) gd) eqn:E; [discriminate|].
  cbn [snd] in H. injection H as <-.
  apply Forall_forall. intros r Hr. rewrite Hrows in Hr.
  apply list_elem_of_In in Hr.
  apply (proj1 (in_flat_map (contribution folder_type) (file :: rest) r)) in Hr.
  destruct Hr as (f & _ & Hr). unfold contribution in Hr.
  destruct (Group.get_group_name (stem f) folder_type) as [g|] eqn:Hg; [|contradiction].
  destruct (content f) as [df|]; [|contradiction].
  pose proof (load_frame_rows f df g) as Hframe. rewrite Forall_forall in Hframe.
  destruct (Hframe r ltac:(apply list_elem_of_In; exact Hr)) as [_ Hgroup].
  exists (stem f). rewrite Hgroup. exact Hg.
Qed.

(** X17.  [main] reaches the plot exactly when both folders load, and
    then plots the rows of the total-RNA folder followed by those of the
    depleted folder.  The two folders never feed the same bar: every row of
    the first carries the group OD600=0.3 or OD600=1, every row of the
    second the group OD600=0.3(-rRNA) or OD600=1(-rRNA).  When the first
    folder fails, its error is the result and the second folder is not
    looked at. *)
Theorem main_rows (total_rna_dir remove_rna_dir : Folder) :
  (forall all_data : list Group.sample,
     snd (Group.main total_rna_dir remove_rna_dir) = inr all_data <->
     exists total_rna_data remove_rna_data,
       snd (Group.load_samples total_rna_dir "total") = inr total_rna_data /\
       snd (Group.load_samples remove_rna_dir "removed") = inr remove_rna_data /\
       all_data = total_rna_data ++ remove_rna_data) /\
  (forall total_rna_data : list Group.sample,
     snd (Group.load_samples total_rna_dir "total") = inr total_rna_data ->
     Forall (fun r => Group.group r = "OD600=0.3" \/ Group.group r = "OD600=1")
            total_rna_data) /\
  (forall remove_rna_data : list Group.sample,
     snd (Group.load_samples remove_rna_dir "removed") = inr remove_rna_data ->
     Forall (fun r => Group.group r = "OD600=0.3(-rRNA)" \/ Group.group r = "OD600=1(-rRNA)")
            remove_rna_data) /\
  (forall e : error,
     snd (Group.load_samples total_rna_dir "total") = inl e ->
     Group.main total_rna_dir remove_rna_dir = Group.load_samples total_rna_dir "total").
Proof.
  split; [|split; [|split]].
  - intros all_data. unfold Group.main.
    destruct (Group.load_samples total_rna_dir "total") as [log1 [e|rt]]; cbn [snd].
    + split; [discriminate|]. intros (? & ? & ? & _). discriminate.
    + destruct (Group.load_samples remove_rna_dir "removed") as [log2 [e|rr]]; cbn [snd].
      * split; [discriminate|]. intros (? & ? & _ & ? & _). discriminate.
      * split.
        -- intros [= <-]. eauto.
        -- intros (? & ? & [= <-] & [= <-] & ->). reflexivity.
  - intros rt Hrt. pose proof (load_samples_groups _ _ _ Hrt) as Hg.
    eapply Forall_impl; [exact Hg|]. intros r [file_name Hr]. cbn beta.
    destruct (get_group_name_rule _ _ _ Hr) as (rl & Hrl & Hrole & Hgrp).
    unfold Group.grouping_rules in Hrl.
    repeat (apply elem_of_cons in Hrl; destruct Hrl as [->|Hrl]);
      try (apply elem_of_nil in Hrl; contradiction);
      cbn [fst snd] in *; try discriminate; rewrite <- Hgrp; auto.
  - intros rr Hrr. pose proof (load_samples_groups _ _ _ Hrr) as Hg.
    eapply Forall_impl; [exact Hg|]. intros r [file_name Hr]. cbn beta.
    destruct (get_group_name_rule _ _ _ Hr) as (rl & Hrl & Hrole & Hgrp).
    unfold Group.grouping_rules in Hrl.
    repeat (apply elem_of_cons in Hrl; destruct Hrl as [->|Hrl]);
      try (apply elem_of_nil in Hrl; contradiction);
      cbn [fst snd] in *; try discriminate; rewrite <- Hgrp; auto.
  - intros e He. unfold Group.main.
    destruct (Group.load_samples total_rna_dir "total") as [log1 [e'|rt]]; cbn [snd] in He;
      [reflexivity | discriminate].
Qed.

Lemma main_rows_witness :
  Group.main Examples.stray_total_dir Examples.removed_dir
  = Group.load_samples Examples.stray_total_dir "total".
Proof.
  refine (proj2 (proj2 (proj2 (main_rows Examples.stray_total_dir Examples.removed_dir)))
                ValueError_no_valid_files _).
  vm_compute. reflexivity.
Defined.
